(** * Matching students to projects: the notebook [matching.ipynb]

    A shallow embedding of the notebook's cells (data preparation, model
    set-up, decision variables, strict requirements, objective, solve,
    output) and the properties of the mixed integer program it builds.

    Numbers are rationals: every finite float of the notebook is one, and
    the notebook only compares, adds and multiplies them.  A missing value
    of the input table is the cell [NaN]; multiplied with a variable it is
    a NaN coefficient, which a linear expression lists apart from its
    terms. *)

From Stdlib Require Import QArith Lqa.
From stdpp Require Import base option list gmap strings pretty.

Local Open Scope string_scope.
Local Open Scope list_scope.
Local Open Scope nat_scope.

(** ** Exceptions and results *)

Inductive exn :=
| KeyError            (* a dict key, a column or a row label is absent *)
| TypeError.          (* an arithmetic or order operator applied to a string *)

Inductive result (A : Type) :=
| Ok (a : A)
| Raise (e : exn).
Arguments Ok {A} a.
Arguments Raise {A} e.

#[export] Instance result_ret : MRet result := fun A a => Ok a.
#[export] Instance result_bind : MBind result := fun A B f r =>
  match r with
  | Ok a => f a
  | Raise e => Raise e
  end.
#[export] Instance result_fmap : FMap result := fun A B f r =>
  match r with
  | Ok a => Ok (f a)
  | Raise e => Raise e
  end.

Definition is_Ok {A} (r : result A) : Prop := ∃ a, r = Ok a.

(** The value of a result, with a default for the raising case. *)
Definition get_Ok {A} (d : A) (r : result A) : A :=
  match r with
  | Ok a => a
  | Raise _ => d
  end.

(** Python's [d[k]] on a dict. *)
Definition getitem `{Countable K} {V} (d : gmap K V) (k : K) : result V :=
  match d !! k with
  | Some v => Ok v
  | None => Raise KeyError
  end.

(** A [for] loop whose body updates the state [s] and may raise. *)
Fixpoint for_in {S A} (l : list A) (body : A → S → result S) (s : S) : result S :=
  match l with
  | [] => Ok s
  | a :: l' => s' ← body a s; for_in l' body s'
  end.

(** ** The data frame *)

Inductive cell :=
| Num (q : Q)
| Str (s : string)
| NaN.

(** A frame with the default index 0 .. n-1: the list of its rows, each row
    a map from column name to cell. *)
Abbreviation Row := (gmap string cell).
Abbreviation DataFrame := (list (gmap string cell)).

(** [df[col] = v] with a scalar [v]: the column is created or overwritten. *)
Definition setitem_col (df : DataFrame) (col : string) (v : cell) : DataFrame :=
  (λ r : Row, <[col := v]> r) <$> df.

(** [df[col] >= t]: the boolean mask of the comparison.  A missing value
    compares false; a string operand raises. *)
Definition cell_ge (t : Q) (c : cell) : result bool :=
  match c with
  | Num q => Ok (Qle_bool t q)
  | NaN => Ok false
  | Str _ => Raise TypeError
  end.

Definition col_ge (df : DataFrame) (col : string) (t : Q) : result (list bool) :=
  mapM (λ r : Row, c ← getitem r col; cell_ge t c) df.

(** [df[col] == s] for a string [s]: equality never raises. *)
Definition cell_eq_str (s : string) (c : cell) : bool :=
  match c with
  | Str s' => String.eqb s' s
  | _ => false
  end.

Definition col_eq (df : DataFrame) (col : string) (s : string) : result (list bool) :=
  mapM (λ r : Row, c ← getitem r col; Ok (cell_eq_str s c)) df.

(** [df.loc[mask, col] = v]. *)
Definition loc_mask_set (df : DataFrame) (mask : list bool) (col : string) (v : cell)
  : DataFrame :=
  zip_with (λ (b : bool) (r : Row), if b then <[col := v]> r else r) mask df.

(** [df.loc[i, col]] and [df.iloc[i][col]]: with the default index the
    label [i] is the position [i]. *)
Definition loc_get (df : DataFrame) (i : nat) (col : string) : result cell :=
  match df !! i with
  | Some r => getitem r col
  | None => Raise KeyError
  end.

Definition iloc_get (df : DataFrame) (i : nat) (col : string) : result cell :=
  loc_get df i col.

(** [df.loc[i, col] = v].  A label outside the index enlarges the frame by
    a row; the loops of the notebook stay inside [range(number_students)]. *)
Definition loc_set (df : DataFrame) (i : nat) (col : string) (v : cell) : DataFrame :=
  match df !! i with
  | Some r => <[i := <[col := v]> r]> df
  | None => df ++ [{[col := v]}]
  end.

(** Arithmetic of a cell with a number, as the notebook uses it. *)
Definition cell_rsub (a : Q) (c : cell) : result cell :=
  match c with
  | Num q => Ok (Num (a - q))
  | NaN => Ok NaN
  | Str _ => Raise TypeError
  end.

(** ** The solver library: variables, linear expressions, models *)

Inductive VarType := BINARY | CONTINUOUS | INTEGER.

Record VarInfo := mkVar {
  var_name : string;
  var_lb : Q;
  var_ub : option Q;          (* [None]: no upper bound *)
  var_type : VarType
}.

(** A variable is its index in the model's list of variables. *)
Abbreviation Var := nat.

(** The sense of a linear expression: none for a plain expression, or the
    comparison of the expression with zero.  The terms of an expression are
    kept in the order they were added; the library sums the coefficients of
    a variable added twice, which changes no value.  A coefficient is a
    float: the terms whose coefficient is a number are in [terms], the
    variables whose coefficient is NaN are in [nans]. *)
Inductive Sense := NoSense | EQ | LE | GE.

Record LinExpr := mkLinExpr {
  terms : list (Q * Var);
  const : Q;
  sense : Sense;
  nans : list Var
}.

Record Model := mkModel {
  vars : list VarInfo;
  constrs : list LinExpr;
  objective : LinExpr
}.

Inductive OptimizationStatus :=
| ERROR | OPTIMAL | INFEASIBLE | UNBOUNDED | FEASIBLE | INT_INFEASIBLE
| NO_SOLUTION_FOUND | LOADED | CUTOFF | OTHER.

Definition le_zero : LinExpr := mkLinExpr [] 0 NoSense [].
Definition le_var (v : Var) : LinExpr := mkLinExpr [(1%Q, v)] 0 NoSense [].
Definition le_const (q : Q) : LinExpr := mkLinExpr [] q NoSense [].

(** The expression of the one variable [v] with the coefficient NaN. *)
Definition le_nan (v : Var) : LinExpr := mkLinExpr [] 0 NoSense [v].

Definition le_scale (c : Q) (e : LinExpr) : LinExpr :=
  mkLinExpr ((λ t : Q * Var, (c * t.1, t.2)%Q) <$> terms e) (c * const e) (sense e)
            (nans e).

Definition le_neg (e : LinExpr) : LinExpr := le_scale (-1) e.

Definition le_add (a b : LinExpr) : LinExpr :=
  mkLinExpr (terms a ++ terms b) (const a + const b) (sense a) (nans a ++ nans b).

Definition le_sub (a b : LinExpr) : LinExpr := le_add a (le_neg b).

(** [a == b], [a <= b], [a >= b]: the expression [a - b] with a sense. *)
Definition le_cmp (s : Sense) (a b : LinExpr) : LinExpr :=
  let d := le_sub a b in mkLinExpr (terms d) (const d) s (nans d).

Definition xsum (es : list LinExpr) : LinExpr := foldl le_add le_zero es.

(** [xsum(f(a) for a in l)] where computing a summand may raise. *)
Definition xsum_for {A} (l : list A) (f : A → result LinExpr) : result LinExpr :=
  es ← mapM f l; Ok (xsum es).

(** [c * v] and [v * c] for a cell [c] of the frame and a variable [v]: the
    expression of the variable with the coefficient [c].  A string raises;
    a missing value is the float NaN, which the library takes as
    coefficient like any other float. *)
Definition cell_mul (c : cell) (v : Var) : result LinExpr :=
  match c with
  | Num q => Ok (le_scale q (le_var v))
  | Str _ => Raise TypeError
  | NaN => Ok (le_nan v)
  end.

(** [Model(name, sense=MINIMIZE)] *)
Definition new_model : Model := mkModel [] [] le_zero.

(** [m.add_var(name, lb=lb, var_type=var_type)]: a binary variable gets the
    bounds 0 and 1 whatever [lb] is; others have no upper bound. *)
Definition add_var (m : Model) (name : string) (lb : Q) (var_type : VarType)
  : Model * Var :=
  let info :=
    match var_type with
    | BINARY => mkVar name 0 (Some 1%Q) BINARY
    | _ => mkVar name lb None var_type
    end in
  (mkModel (vars m ++ [info]) (constrs m) (objective m), length (vars m)).

(** [m += e]: an expression without sense becomes the objective, one with a
    sense is added as a constraint. *)
Definition model_iadd (m : Model) (e : LinExpr) : Model :=
  match sense e with
  | NoSense => mkModel (vars m) (constrs m) e
  | _ => mkModel (vars m) (constrs m ++ [e]) (objective m)
  end.

(** *** Solutions *)

Definition Qsum (l : list Q) : Q := foldr Qplus 0%Q l.
Arguments Qsum : simpl never.

(** The value of an expression none of whose coefficients is NaN. *)
Definition eval (v : Var → Q) (e : LinExpr) : Q :=
  (Qsum ((λ t : Q * Var, t.1 * v t.2) <$> terms e) + const e)%Q.

Definition holds (v : Var → Q) (e : LinExpr) : Prop :=
  match sense e with
  | NoSense => True
  | EQ => (eval v e == 0)%Q
  | LE => (eval v e <= 0)%Q
  | GE => (0 <= eval v e)%Q
  end.

Definition integral (q : Q) : Prop := ∃ z : Z, (q == inject_Z z)%Q.

Definition var_ok (info : VarInfo) (q : Q) : Prop :=
  (var_lb info <= q)%Q
  ∧ match var_ub info with Some u => (q <= u)%Q | None => True end
  ∧ match var_type info with CONTINUOUS => True | _ => integral q end.

Definition feasible (m : Model) (v : Var → Q) : Prop :=
  (∀ i info, vars m !! i = Some info → var_ok info (v i))
  ∧ Forall (holds v) (constrs m).

(** The model is a minimisation.  An objective with a NaN coefficient has
    no value to minimise, and no solution is optimal for it. *)
Definition optimal (m : Model) (v : Var → Q) : Prop :=
  feasible m v
  ∧ nans (objective m) = []
  ∧ ∀ v', feasible m v' → (eval v (objective m) <= eval v' (objective m))%Q.

(** Executable checks of the same. *)
Definition holdsb (v : Var → Q) (e : LinExpr) : bool :=
  match sense e with
  | NoSense => true
  | EQ => Qeq_bool (eval v e) 0
  | LE => Qle_bool (eval v e) 0
  | GE => Qle_bool 0 (eval v e)
  end.

Definition integralb (q : Q) : bool := (Qnum q mod Z.pos (Qden q) =? 0)%Z.

Definition var_okb (info : VarInfo) (q : Q) : bool :=
  Qle_bool (var_lb info) q
  && match var_ub info with Some u => Qle_bool q u | None => true end
  && match var_type info with CONTINUOUS => true | _ => integralb q end.

Definition feasibleb (m : Model) (v : Var → Q) : bool :=
  forallb (λ iv : nat * VarInfo, var_okb iv.2 (v iv.1)) (imap pair (vars m))
  && forallb (holdsb v) (constrs m).

(** ** The notebook *)

(** The global names of the notebook after the model is built. *)
Record State := mkState {
  students : DataFrame;
  number_students : nat;
  x : gmap nat (gmap string Var);
  gender_diversity : gmap string Var;
  m : Model
}.

(** The state with the global [m] updated. *)
Definition with_model (s : State) (m' : Model) : State :=
  mkState (students s) (number_students s) (x s) (gender_diversity s) m'.

(** [x[i][project]] *)
Definition x_get (x : gmap nat (gmap string Var)) (i : nat) (project : string)
  : result Var :=
  d ← getitem x i; getitem d project.

(** [v.x == 1] for the solved value [v.x], which is [None] when the solver
    has no solution. *)
Definition is_one (value : option Q) : bool :=
  match value with
  | Some q => Qeq_bool q 1
  | None => false
  end.

(** ** Notions used in the statements *)

(** A 0/1 flag column, and a row after the data preparation. *)
Definition set_flag (col : string) (b : bool) (r : Row) : Row :=
  <[col := Num (if b then 1 else 0)]> r.

Definition classify_row (b_ds b_pm b_male : bool) (r : Row) : Row :=
  set_flag "is_male" b_male
    (set_flag "project_management_skilled" b_pm
       (set_flag "data_science_skilled" b_ds r)).

(** A score at or above a threshold; a missing score is not. *)
Definition at_least (t : Q) (score : cell) : Prop :=
  ∃ q, score = Num q ∧ (t <= q)%Q.

(** The columns the data preparation reads are there, and the two scores
    are numbers or missing. *)
Definition readable_row (r : Row) : Prop :=
  ∃ ds pm g, r !! "ds_skill" = Some ds ∧ r !! "pm_skill" = Some pm
    ∧ r !! "gender" = Some g ∧ (∀ s, ds ≠ Str s) ∧ (∀ s, pm ≠ Str s).

(** The variables an expression mentions. *)
Definition vars_of (e : LinExpr) : list Var := (terms e).*2 ++ nans e.

(** Two expressions with the same terms in the same order, coefficients and
    constants being equal as rationals, and the same NaN coefficients. *)
Definition same_expr (a b : LinExpr) : Prop :=
  Forall2 (λ t t' : Q * Var, (t.1 == t'.1)%Q ∧ t.2 = t'.2) (terms a) (terms b)
  ∧ (const a == const b)%Q ∧ sense a = sense b ∧ nans a = nans b.

(** The valuation [v] with every variable from [nx] on set to 0. *)
Definition zeroed (nx : nat) (v : Var → Q) : Var → Q :=
  λ k, if k <? nx then v k else 0%Q.

(** ** Sample inputs *)

Definition student_row (ds_skill pm_skill : cell) (gender : string)
    (ranks : list (string * Q)) : Row :=
  <["ds_skill" := ds_skill]> (<["pm_skill" := pm_skill]> (<["gender" := Str gender]>
    (list_to_map ((λ kv : string * Q, (kv.1, Num kv.2)) <$> ranks)))).

(** One project and one student, skilled in both and male. *)
Definition one_student : DataFrame :=
  [ student_row (Num 4) (Num 3) "Male" [("A", 1%Q)] ].

(** The same student with another gender. *)
Definition one_student_female : DataFrame :=
  [ student_row (Num 4) (Num 3) "Female" [("A", 1%Q)] ].

(** Scores on and around the thresholds 4 and 2.5. *)
Definition boundary_roster : DataFrame :=
  [ student_row (Num 4) (Num (5 # 2)) "Male" [("A", 1%Q)];
    student_row (Num 3) (Num (3 # 2)) "Female" [("A", 2%Q)];
    student_row (Num (14 # 3)) (Num 3) "male" [("A", 1%Q)] ].

(** A student whose data science score is missing. *)
Definition roster_missing_score : DataFrame :=
  [ student_row NaN (Num 3) "Female" [("A", 1%Q)] ].

(** A student whose rank of project A is missing. *)
Definition roster_missing_rank : DataFrame :=
  [ <["A" := NaN]> (student_row (Num 4) (Num 3) "Male" []) ].

(** A student whose data science score is a text. *)
Definition roster_text_score : DataFrame :=
  [ student_row (Str "good") (Num 3) "Male" [("A", 1%Q)] ].

(** A student whose rank of project A is a text. *)
Definition roster_text_rank : DataFrame :=
  [ <["A" := Str "first"]> (student_row (Num 4) (Num 3) "Male" []) ].

(** Two projects of at least three students each, and four students. *)
Definition four_students : DataFrame :=
  [ student_row (Num 5) (Num 3) "Male" [("A", 1%Q); ("B", 2%Q)];
    student_row (Num 5) (Num 3) "Female" [("A", 1%Q); ("B", 2%Q)];
    student_row (Num 5) (Num 3) "Male" [("A", 2%Q); ("B", 1%Q)];
    student_row (Num 5) (Num 3) "Female" [("A", 2%Q); ("B", 1%Q)] ].

(** Solver outcomes. *)
Definition no_solution (status : OptimizationStatus) (m : Model)
  : OptimizationStatus * (Var → option Q) :=
  (status, λ _, None).

Definition all_values (q : Q) (m : Model) : OptimizationStatus * (Var → option Q) :=
  (OPTIMAL, λ _, Some q).

(** The value 1 for the first variable and 0 for the others. *)
Definition first_one : Var → Q := λ k, if k =? 0 then 1%Q else 0%Q.

(** The state before the first cell has run. *)
Definition empty_state : State := mkState [] 0 ∅ ∅ new_model.

Section Notebook.

(** *** PARAMETER DEFINITION *)

Variables MAX_TEAM_SIZE MIN_TEAM_SIZE : Z.
Variables DS_SKILLED_THRESHOLD PM_SKILLED_THRESHOLD : Q.
Variable PROJECTS : list string.

(** *** DATA PREPARATION *)

Definition data_preparation (students : DataFrame) : result (DataFrame * nat) :=
  let students := setitem_col students "data_science_skilled" (Num 0) in
  mask ← col_ge students "ds_skill" DS_SKILLED_THRESHOLD;
  let students := loc_mask_set students mask "data_science_skilled" (Num 1) in
  let students := setitem_col students "project_management_skilled" (Num 0) in
  mask ← col_ge students "pm_skill" PM_SKILLED_THRESHOLD;
  let students := loc_mask_set students mask "project_management_skilled" (Num 1) in
  let students := setitem_col students "is_male" (Num 0) in
  mask ← col_eq students "gender" "Male";
  let students := loc_mask_set students mask "is_male" (Num 1) in
  let number_students := length students in
  Ok (students, number_students).

(** *** DECLARE DECISION VARIABLES *)

(** [{p: m.add_var(f'x_{i}_{p}', var_type=BINARY) for p in PROJECTS}] *)
Fixpoint declare_x_row (i : nat) (ps : list string) (m : Model) (d : gmap string Var)
  : Model * gmap string Var :=
  match ps with
  | [] => (m, d)
  | p :: ps' =>
      let '(m, v) := add_var m ("x_" +:+ pretty i +:+ "_" +:+ p) 0 BINARY in
      declare_x_row i ps' m (<[p := v]> d)
  end.

Fixpoint declare_x (range : list nat) (m : Model) (x : gmap nat (gmap string Var))
  : Model * gmap nat (gmap string Var) :=
  match range with
  | [] => (m, x)
  | i :: range' =>
      let '(m, d) := declare_x_row i PROJECTS m ∅ in
      declare_x range' m (<[i := d]> x)
  end.

(** [{project: m.add_var(f'gd_{project}', lb=0, var_type=CONTINUOUS) for project in PROJECTS}] *)
Fixpoint declare_gender_diversity (ps : list string) (m : Model) (d : gmap string Var)
  : Model * gmap string Var :=
  match ps with
  | [] => (m, d)
  | project :: ps' =>
      let '(m, v) := add_var m ("gd_" +:+ project) 0 CONTINUOUS in
      declare_gender_diversity ps' m (<[project := v]> d)
  end.

Definition declare_decision_variables (students : DataFrame) (number_students : nat)
    (m : Model) : State :=
  let '(m, x) := declare_x (seq 0 number_students) m ∅ in
  let '(m, gender_diversity) := declare_gender_diversity PROJECTS m ∅ in
  mkState students number_students x gender_diversity m.

(** *** IMPOSE STRICT REQUIREMENTS *)

Definition impose_strict_requirements (s : State) : result Model :=
  let students := students s in
  let range := seq 0 (number_students s) in
  let x := x s in
  (* every student is assigned to precisely one project *)
  m ← for_in range (λ i m,
        e ← xsum_for PROJECTS (λ project, le_var <$> x_get x i project);
        Ok (model_iadd m (le_cmp EQ e (le_const 1)))) (m s);
  for_in PROJECTS (λ project m,
    (* each project gets assigned at least MIN_TEAM_SIZE students *)
    e ← xsum_for range (λ i, le_var <$> x_get x i project);
    let m := model_iadd m (le_cmp GE e (le_const (inject_Z MIN_TEAM_SIZE))) in
    (* each project gets assigned at most MAX_TEAM_SIZE students *)
    e ← xsum_for range (λ i, le_var <$> x_get x i project);
    let m := model_iadd m (le_cmp LE e (le_const (inject_Z MAX_TEAM_SIZE))) in
    (* each project must have at least one data science skilled student *)
    e ← xsum_for range (λ i,
          c ← loc_get students i "data_science_skilled";
          v ← x_get x i project;
          cell_mul c v);
    let m := model_iadd m (le_cmp GE e (le_const 1)) in
    (* each project must have at least one project management skilled student *)
    e ← xsum_for range (λ i,
          c ← loc_get students i "project_management_skilled";
          v ← x_get x i project;
          cell_mul c v);
    Ok (model_iadd m (le_cmp GE e (le_const 1)))) m.

(** *** IMPOSE OBJECTIVE FUNCTION *)

Definition impose_objective_function (s : State) (m : Model) : result Model :=
  let students := students s in
  let range := seq 0 (number_students s) in
  let x := x s in
  let gender_diversity := gender_diversity s in
  (* this part of the objective function makes sure students get assigned
     to a project they like *)
  priority_objective_function ←
    xsum_for (list_prod range PROJECTS) (λ ip,
      c ← iloc_get students ip.1 ip.2;
      v ← x_get x ip.1 ip.2;
      cell_mul c v);
  (* calculate the gender diversity coefficient for every project: the two
     comparisons are evaluated and their value is dropped, the model is
     not touched *)
  m ← for_in PROJECTS (λ project m,
        number_of_males ← xsum_for range (λ i,
          v ← x_get x i project;
          c ← loc_get students i "is_male";
          cell_mul c v);
        number_of_females ← xsum_for range (λ i,
          v ← x_get x i project;
          c ← loc_get students i "is_male";
          c' ← cell_rsub 1 c;
          cell_mul c' v);
        g ← getitem gender_diversity project;
        let _ := le_cmp GE (le_var g) (le_sub number_of_males number_of_females) in
        g ← getitem gender_diversity project;
        let _ := le_cmp GE (le_var g) (le_add (le_neg number_of_males) number_of_females) in
        Ok m) m;
  (* this part of the objective function makes sure that we favour
     gender-diverse teams *)
  gender_diversity_objective_function ←
    xsum_for PROJECTS (λ project, le_var <$> getitem gender_diversity project);
  Ok (model_iadd m (le_add priority_objective_function
                           gender_diversity_objective_function)).

(** The cells up to the solve: the state of the notebook with the model built. *)
Definition build_model (students : DataFrame) : result State :=
  '(students, number_students) ← data_preparation students;
  let s := declare_decision_variables students number_students new_model in
  m ← impose_strict_requirements s;
  m ← impose_objective_function s m;
  Ok (with_model s m).

(** *** WRITE OUTPUT *)

(** [sol v] is the solved value [v.x] of the variable [v]. *)
Definition write_output (s : State) (sol : Var → option Q) : result DataFrame :=
  let x := x s in
  let students := setitem_col (students s) "assigned_project" (Str "") in
  for_in (seq 0 (number_students s)) (λ i students,
    for_in PROJECTS (λ project students,
      v ← x_get x i project;
      if is_one (sol v)
      then Ok (loc_set students i "assigned_project" (Str project))
      else Ok students) students) students.

(** *** The whole notebook

    [optimize] is the solve step [m.optimize()]: it returns the status and
    the solved values.  The notebook shows the status and then runs the
    output cell; the frame returned is the one exported to the output file. *)
Definition notebook (optimize : Model → OptimizationStatus * (Var → option Q))
    (students : DataFrame) : result (OptimizationStatus * DataFrame) :=
  s ← build_model students;
  let '(status, sol) := optimize (m s) in
  students ← write_output s sol;
  Ok (status, students).

(** *** The quantities the requirements and the objective speak about *)

(** The variable [x[i][project]] and the variable [gender_diversity[project]]
    of a state; the default is never used once the variables are declared. *)
Definition x_at (s : State) (i : nat) (project : string) : Var :=
  get_Ok 0 (x_get (x s) i project).

Definition g_at (s : State) (project : string) : Var :=
  get_Ok 0 (getitem (gender_diversity s) project).

(** The number in column [col] of student [i]; 0 stands in where the cell
    is not a number. *)
Definition num_at (s : State) (i : nat) (col : string) : Q :=
  match loc_get (students s) i col with
  | Ok (Num q) => q
  | _ => 0%Q
  end.

Definition students_range (s : State) : list nat := seq 0 (number_students s).

Definition projects_of_student (s : State) (v : Var → Q) (i : nat) : Q :=
  Qsum ((λ project, v (x_at s i project)) <$> PROJECTS).

Definition team_size (s : State) (v : Var → Q) (project : string) : Q :=
  Qsum ((λ i, v (x_at s i project)) <$> students_range s).

Definition skilled_count (col : string) (s : State) (v : Var → Q) (project : string) : Q :=
  Qsum ((λ i, num_at s i col * v (x_at s i project))%Q <$> students_range s).

Definition male_count (s : State) (v : Var → Q) (project : string) : Q :=
  Qsum ((λ i, v (x_at s i project) * num_at s i "is_male")%Q <$> students_range s).

Definition female_count (s : State) (v : Var → Q) (project : string) : Q :=
  Qsum ((λ i, v (x_at s i project) * (1 - num_at s i "is_male"))%Q <$> students_range s).

Definition priority_term (s : State) (v : Var → Q) : Q :=
  Qsum ((λ ip : nat * string, num_at s ip.1 ip.2 * v (x_at s ip.1 ip.2))%Q
          <$> list_prod (students_range s) PROJECTS).

Definition diversity_term (s : State) (v : Var → Q) : Q :=
  Qsum ((λ project, v (g_at s project)) <$> PROJECTS).

(** The project written for student [i]: the last project of [PROJECTS]
    whose solved value compares equal to 1, the empty string when there is
    none. *)
Definition assigned_project (s : State) (sol : Var → option Q) (i : nat) : string :=
  foldl (λ acc project, if is_one (sol (x_at s i project)) then project else acc)
        "" PROJECTS.

Definition extracted (s : State) (sol : Var → option Q) : DataFrame :=
  imap (λ i (r : Row), <["assigned_project" := Str (assigned_project s sol i)]> r)
       (students s).

(** *** The constraints and the objective, written with these quantities *)

Definition total_assignment_constr (s : State) (i : nat) : LinExpr :=
  le_cmp EQ (xsum ((λ project, le_var (x_at s i project)) <$> PROJECTS)) (le_const 1).

Definition team_expr (s : State) (project : string) : LinExpr :=
  xsum ((λ i, le_var (x_at s i project)) <$> students_range s).

Definition min_team_size_constr (s : State) (project : string) : LinExpr :=
  le_cmp GE (team_expr s project) (le_const (inject_Z MIN_TEAM_SIZE)).

Definition max_team_size_constr (s : State) (project : string) : LinExpr :=
  le_cmp LE (team_expr s project) (le_const (inject_Z MAX_TEAM_SIZE)).

(** [students.loc[i, col] * x[i][project]]: the variable with the number of
    the cell as coefficient, or with NaN when the cell is a missing value. *)
Definition scaled (s : State) (i : nat) (col project : string) : LinExpr :=
  match loc_get (students s) i col with
  | Ok NaN => le_nan (x_at s i project)
  | _ => le_scale (num_at s i col) (le_var (x_at s i project))
  end.

Definition skilled_expr (col : string) (s : State) (project : string) : LinExpr :=
  xsum ((λ i, scaled s i col project) <$> students_range s).

Definition skilled_constr (col : string) (s : State) (project : string) : LinExpr :=
  le_cmp GE (skilled_expr col s project) (le_const 1).

Definition project_constrs (s : State) (project : string) : list LinExpr :=
  [ min_team_size_constr s project; max_team_size_constr s project;
    skilled_constr "data_science_skilled" s project;
    skilled_constr "project_management_skilled" s project ].

Definition priority_expr (s : State) : LinExpr :=
  xsum ((λ ip : nat * string, scaled s ip.1 ip.2 ip.2)
          <$> list_prod (students_range s) PROJECTS).

Definition diversity_expr (s : State) : LinExpr :=
  xsum ((λ project, le_var (g_at s project)) <$> PROJECTS).

(** The two linking constraints of the notebook's text, for a project. *)
Definition number_of_males (s : State) (project : string) : LinExpr :=
  xsum ((λ i, le_scale (num_at s i "is_male") (le_var (x_at s i project)))
          <$> students_range s).

Definition number_of_females (s : State) (project : string) : LinExpr :=
  xsum ((λ i, le_scale (1 - num_at s i "is_male") (le_var (x_at s i project)))
          <$> students_range s).

Definition linking_constr_pos (s : State) (project : string) : LinExpr :=
  le_cmp GE (le_var (g_at s project))
         (le_sub (number_of_males s project) (number_of_females s project)).

Definition linking_constr_neg (s : State) (project : string) : LinExpr :=
  le_cmp GE (le_var (g_at s project))
         (le_add (le_neg (number_of_males s project)) (number_of_females s project)).

(** *** What the declaration of the variables establishes *)

(** A continuous variable with lower bound 0 and no upper bound. *)
Definition free_nonneg (info : VarInfo) : Prop :=
  var_lb info = 0%Q ∧ var_ub info = None ∧ var_type info = CONTINUOUS.

(** A row of [x]: a variable below [bound] for every project. *)
Definition good_row (bound : nat) (d : gmap string Var) : Prop :=
  (∀ p v, d !! p = Some v → v < bound) ∧ (∀ p, p ∈ PROJECTS → is_Some (d !! p)).

(** The assignment variables are the variables below [nx], every
    [x[i][project]] and [gender_diversity[project]] of the loops exists, and
    the variables from [nx] on are the diversity coefficients. *)
Definition declared (s : State) (nx : nat) : Prop :=
  (∀ i p v, x_get (x s) i p = Ok v → v < nx)
  ∧ (∀ i p, i < number_students s → p ∈ PROJECTS → is_Ok (x_get (x s) i p))
  ∧ (∀ p v, getitem (gender_diversity s) p = Ok v → nx ≤ v < length (vars (m s)))
  ∧ (∀ p, p ∈ PROJECTS → is_Ok (getitem (gender_diversity s) p))
  ∧ (∀ k info, nx ≤ k → vars (m s) !! k = Some info → free_nonneg info).

(** A roster the notebook runs on: the columns it reads are there, the
    scores are numbers or missing, and every project column holds a number
    (a project named like one of the three flag columns reads that flag). *)
Definition well_formed (df : DataFrame) : Prop :=
  Forall (λ r : Row,
            readable_row r
            ∧ ∀ p, p ∈ PROJECTS →
                p ∈ ["data_science_skilled"; "project_management_skilled"; "is_male"]
                ∨ ∃ q, r !! p = Some (Num q)) df.

(** *** Further notions: the roster, the variables, the teams *)

(** The three columns the data preparation writes. *)
Definition flag_columns : list string :=
  ["data_science_skilled"; "project_management_skilled"; "is_male"].

(** Every column the notebook reads is in the row. *)
Definition complete_row (r : Row) : Prop :=
  is_Some (r !! "ds_skill") ∧ is_Some (r !! "pm_skill") ∧ is_Some (r !! "gender")
  ∧ ∀ p, p ∈ PROJECTS → is_Some (r !! p).

(** A binary variable as the library declares it. *)
Definition is_binary (info : VarInfo) : Prop :=
  var_lb info = 0%Q ∧ var_ub info = Some 1%Q ∧ var_type info = BINARY.

(** A solve that returns the values of [v] as they are. *)
Definition exact (v : Var → Q) : Var → option Q := λ k, Some (v k).

(** The students the output gives to a project. *)
Definition team_of (s : State) (sol : Var → option Q) (project : string) : list nat :=
  filter (λ i, assigned_project s sol i = project) (students_range s).

(** The students whose flag [col] is 1. *)
Definition flagged (col : string) (s : State) : list nat :=
  filter (λ i, Qeq_bool (num_at s i col) 1 = true) (students_range s).

(** ** Results, loops and sums *)

Lemma bind_Ok {A B} (r : result A) (f : A → result B) (b : B) :
  r ≫= f = Ok b ↔ ∃ a, r = Ok a ∧ f a = Ok b.
Proof.
  destruct r as [a|e]; simpl; split.
  - intros H. by exists a.
  - by intros (a' & [= ->] & H).
  - discriminate.
  - by intros (a' & [=] & _).
Qed.

Lemma fmap_Ok {A B} (g : A → B) (r : result A) (b : B) :
  g <$> r = Ok b ↔ ∃ a, r = Ok a ∧ b = g a.
Proof.
  destruct r as [a|e]; simpl; split.
  - intros [= <-]. by exists a.
  - by intros (a' & [= ->] & ->).
  - discriminate.
  - by intros (a' & [=] & _).
Qed.

Lemma getitem_Ok `{Countable K} {V} (d : gmap K V) (k : K) (v : V) :
  getitem d k = Ok v ↔ d !! k = Some v.
Proof. unfold getitem. destruct (d !! k); split; congruence. Qed.

(** Splitting a hypothesis [c = Ok b] along the binds of [c]. *)
Ltac inv_Ok H :=
  repeat match type of H with
  | _ ≫= _ = Ok _ =>
      let a := fresh "a" in let E := fresh "E" in
      apply bind_Ok in H as (a & E & H)
  | _ <$> _ = Ok _ =>
      let a := fresh "a" in let E := fresh "E" in
      apply fmap_Ok in H as (a & E & H)
  | mret ?a = Ok ?b => change (Ok a = Ok b) in H
  | Ok _ = Ok _ => injection H as H
  end.

Lemma mapM_Ok {A B} (f : A → result B) (l : list A) (k : list B) :
  mapM f l = Ok k ↔ Forall2 (λ a b, f a = Ok b) l k.
Proof.
  revert k. induction l as [|a l IH]; intros k; simpl.
  - split.
    + intros [= <-]. constructor.
    + by inversion 1.
  - split.
    + intros H. inv_Ok H. subst k. constructor; [done|]. by apply IH.
    + inversion 1 as [|? b ? k' Hb Hk]; subst.
      apply bind_Ok. exists b. split; [done|].
      apply bind_Ok. exists k'. split; [by apply IH|done].
Qed.

Lemma mapM_Raise {A B} (f : A → result B) (e : exn) (l : list A) :
  (∀ a, a ∈ l → is_Ok (f a) ∨ f a = Raise e) →
  (∃ a, a ∈ l ∧ f a = Raise e) →
  mapM f l = Raise e.
Proof.
  induction l as [|a l IH]; intros Hall (a0 & Hin & Ha0).
  - by apply elem_of_nil in Hin.
  - simpl. destruct (f a) as [b|e'] eqn:Hfa; simpl.
    + rewrite IH; [done| |].
      * intros a' Ha'. apply Hall. by right.
      * apply elem_of_cons in Hin as [->|Hin]; [congruence|]. by exists a0.
    + destruct (Hall a) as [[b Hb]|Hr]; [by left|congruence|congruence].
Qed.

(** An invariant [P done s] of a loop, [done] being the items already seen. *)
Lemma for_in_ind {S A} (P : list A → S → Prop) (body : A → S → result S)
    (l : list A) (s s' : S) :
  for_in l body s = Ok s' →
  P [] s →
  (∀ done a s1 s2, a ∈ l → P done s1 → body a s1 = Ok s2 → P (done ++ [a]) s2) →
  P l s'.
Proof.
  intros Hrun H0 Hstep.
  assert (∀ done rest s1, (∀ a, a ∈ rest → a ∈ l) → P done s1 →
            for_in rest body s1 = Ok s' → P (done ++ rest) s') as Hgen.
  { intros done rest. revert done. induction rest as [|a rest IH]; intros done s1 Hin HP Hr.
    - simpl in Hr. injection Hr as <-. by rewrite app_nil_r.
    - simpl in Hr. inv_Ok Hr.
      replace (done ++ a :: rest) with ((done ++ [a]) ++ rest) by by rewrite <- app_assoc.
      apply (IH _ a0); [| |done].
      + intros a' Ha'. apply Hin. by right.
      + apply (Hstep done a s1 a0); [|done|done]. apply Hin. by left. }
  apply (Hgen [] l s); auto.
Qed.

Lemma for_in_Ok_intro {S A} (P : S → Prop) (body : A → S → result S)
    (l : list A) (s : S) :
  P s →
  (∀ a s1, a ∈ l → P s1 → ∃ s2, body a s1 = Ok s2 ∧ P s2) →
  ∃ s', for_in l body s = Ok s' ∧ P s'.
Proof.
  revert s. induction l as [|a l IH]; intros s HP Hstep; simpl.
  - by exists s.
  - destruct (Hstep a s) as (s2 & -> & HP2); [by left|done|]. simpl.
    apply IH; [done|]. intros a' s1 Ha'. apply Hstep. by right.
Qed.

(** *** Rational sums and the value of an expression *)

Lemma Qsum_cons (q : Q) (l : list Q) : Qsum (q :: l) = (q + Qsum l)%Q.
Proof. reflexivity. Qed.

Lemma Qsum_app (l1 l2 : list Q) : (Qsum (l1 ++ l2) == Qsum l1 + Qsum l2)%Q.
Proof.
  induction l1 as [|q l1 IH].
  - change (Qsum l2 == 0 + Qsum l2)%Q. lra.
  - rewrite <- app_comm_cons, !Qsum_cons, IH. lra.
Qed.

Lemma Qsum_ext {A} (f g : A → Q) (l : list A) :
  (∀ a, a ∈ l → (f a == g a)%Q) → (Qsum (f <$> l) == Qsum (g <$> l))%Q.
Proof.
  induction l as [|a l IH]; intros Hfg; [reflexivity|].
  rewrite !fmap_cons, !Qsum_cons, IH, (Hfg a); [reflexivity|by left|].
  intros a' Ha'. apply Hfg. by right.
Qed.

Lemma Qsum_nonneg {A} (f : A → Q) (l : list A) :
  (∀ a, a ∈ l → (0 <= f a)%Q) → (0 <= Qsum (f <$> l))%Q.
Proof.
  induction l as [|a l IH]; intros Hf.
  - change (0 <= 0)%Q. lra.
  - rewrite fmap_cons, Qsum_cons.
    assert (0 <= f a)%Q by (apply Hf; by left).
    assert (0 <= Qsum (f <$> l))%Q by (apply IH; intros a' Ha'; apply Hf; by right).
    lra.
Qed.

Lemma Qsum_nonneg_zero {A} (f : A → Q) (l : list A) :
  (∀ a, a ∈ l → (0 <= f a)%Q) → (Qsum (f <$> l) <= 0)%Q →
  ∀ a, a ∈ l → (f a == 0)%Q.
Proof.
  induction l as [|a l IH]; intros Hf Hle a' Ha'.
  - by apply elem_of_nil in Ha'.
  - rewrite fmap_cons, Qsum_cons in Hle.
    assert (0 <= f a)%Q by (apply Hf; by left).
    assert (0 <= Qsum (f <$> l))%Q
      by (apply Qsum_nonneg; intros a'' Ha''; apply Hf; by right).
    apply elem_of_cons in Ha' as [->|Ha'].
    + lra.
    + apply IH; [|lra|done]. intros a'' Ha''. apply Hf. by right.
Qed.

Lemma Qsum_zero {A} (l : list A) : (Qsum ((λ _, 0%Q) <$> l) == 0)%Q.
Proof.
  induction l as [|a l IH]; [reflexivity|].
  rewrite fmap_cons, Qsum_cons, IH. lra.
Qed.

(** ** Data preparation *)

Lemma mask_stage (test : Row → result bool) (col : string) (df : DataFrame)
    (mask : list bool) :
  mapM test (setitem_col df col (Num 0)) = Ok mask →
  Forall2 (λ r r' : Row, ∃ b, test (<[col := Num 0]> r) = Ok b ∧ r' = set_flag col b r)
          df (loc_mask_set (setitem_col df col (Num 0)) mask col (Num 1)).
Proof.
  rewrite mapM_Ok. unfold setitem_col, loc_mask_set.
  revert mask. induction df as [|r df IH]; intros mask Hm.
  - inversion Hm. constructor.
  - rewrite fmap_cons in Hm. inversion Hm as [|? b ? mask' Hb Hm']; subst.
    rewrite fmap_cons. simpl. constructor; [|by apply IH].
    exists b. split; [done|]. unfold set_flag.
    destruct b; [by rewrite insert_insert_eq|done].
Qed.

Lemma set_flag_lookup_ne (col col' : string) (b : bool) (r : Row) :
  col ≠ col' → set_flag col b r !! col' = r !! col'.
Proof. intros Hne. unfold set_flag. by rewrite lookup_insert_ne. Qed.

Lemma set_flag_lookup (col : string) (b : bool) (r : Row) :
  set_flag col b r !! col = Some (Num (if b then 1 else 0)).
Proof. unfold set_flag. by rewrite lookup_insert_eq. Qed.

(** Row by row, the data preparation sets the three flags from the three
    comparisons and leaves the other columns as they are. *)
Lemma data_preparation_rows (students students' : DataFrame) (n : nat) :
  data_preparation students = Ok (students', n) →
  n = length students' ∧
  Forall2 (λ r r' : Row, ∃ ds pm g b_ds b_pm,
             r !! "ds_skill" = Some ds ∧ cell_ge DS_SKILLED_THRESHOLD ds = Ok b_ds ∧
             r !! "pm_skill" = Some pm ∧ cell_ge PM_SKILLED_THRESHOLD pm = Ok b_pm ∧
             r !! "gender" = Some g ∧
             r' = classify_row b_ds b_pm (cell_eq_str "Male" g) r)
          students students'.
Proof.
  unfold data_preparation, col_ge, col_eq. intros H. inv_Ok H. subst.
  split; [done|].
  apply mask_stage in E, E0, E1.
  apply Forall2_same_length_lookup. split.
  { apply Forall2_length in E, E0, E1. congruence. }
  intros i r r' Hr Hr'.
  destruct (Forall2_lookup_l _ _ _ _ _ E Hr) as (r1 & Hr1 & b1 & Hb1 & ->).
  destruct (Forall2_lookup_l _ _ _ _ _ E0 Hr1) as (r2 & Hr2 & b2 & Hb2 & ->).
  destruct (Forall2_lookup_l _ _ _ _ _ E1 Hr2) as (r3 & Hr3 & b3 & Hb3 & ->).
  rewrite Hr' in Hr3. injection Hr3 as ->.
  inv_Ok Hb1. inv_Ok Hb2. inv_Ok Hb3. subst b3.
  apply getitem_Ok in E2, E3, E4.
  rewrite lookup_insert_ne in E2 by done.
  rewrite lookup_insert_ne, set_flag_lookup_ne in E3 by done.
  rewrite lookup_insert_ne, !set_flag_lookup_ne in E4 by done.
  by exists a2, a3, a4, b1, b2.
Qed.

Lemma classify_row_lookup (b_ds b_pm b_male : bool) (r : Row) :
  classify_row b_ds b_pm b_male r !! "data_science_skilled"
    = Some (Num (if b_ds then 1 else 0))
  ∧ classify_row b_ds b_pm b_male r !! "project_management_skilled"
    = Some (Num (if b_pm then 1 else 0))
  ∧ classify_row b_ds b_pm b_male r !! "is_male"
    = Some (Num (if b_male then 1 else 0)).
Proof.
  unfold classify_row. repeat split.
  - by rewrite !set_flag_lookup_ne, set_flag_lookup by done.
  - by rewrite set_flag_lookup_ne, set_flag_lookup by done.
  - by rewrite set_flag_lookup.
Qed.

Lemma classify_row_lookup_other (b_ds b_pm b_male : bool) (r : Row) (col : string) :
  col ≠ "data_science_skilled" → col ≠ "project_management_skilled" →
  col ≠ "is_male" →
  classify_row b_ds b_pm b_male r !! col = r !! col.
Proof.
  intros. unfold classify_row. by rewrite !set_flag_lookup_ne by done.
Qed.

Lemma cell_ge_at_least (t : Q) (score : cell) (b : bool) :
  cell_ge t score = Ok b → (b = true ↔ at_least t score).
Proof.
  unfold at_least. destruct score as [q|s|]; simpl; [|done|].
  - intros [= <-]. rewrite Qle_bool_iff. split.
    + intros Hle. by exists q.
    + by intros (q' & [= <-] & Hle).
  - intros [= <-]. split; [done|]. by intros (q' & [=] & _).
Qed.

Lemma flag_one_iff (b : bool) : Some (Num (if b then 1 else 0)) = Some (Num 1) ↔ b = true.
Proof. destruct b; split; congruence. Qed.

Lemma flag_zero_iff (b : bool) : Some (Num (if b then 1 else 0)) = Some (Num 0) ↔ b = false.
Proof. destruct b; split; congruence. Qed.

Lemma cell_eq_str_iff (s : string) (c : cell) : cell_eq_str s c = true ↔ c = Str s.
Proof.
  destruct c as [q|s'|]; simpl; [done| |done].
  rewrite String.eqb_eq. split; congruence.
Qed.

Lemma mapM_is_Ok {A B} (f : A → result B) (l : list A) :
  Forall (λ a, is_Ok (f a)) l → is_Ok (mapM f l).
Proof.
  induction 1 as [|a l [b Hb] _ [k Hk]].
  - by exists [].
  - exists (b :: k). apply mapM_Ok. constructor; [done|]. by apply mapM_Ok.
Qed.

Lemma readable_row_insert (col : string) (v : cell) (r : Row) :
  col ≠ "ds_skill" → col ≠ "pm_skill" → col ≠ "gender" →
  readable_row r → readable_row (<[col := v]> r).
Proof.
  intros ? ? ? (ds & pm & g & ? & ? & ? & ? & ?).
  exists ds, pm, g. by rewrite !lookup_insert_ne by done.
Qed.

Lemma readable_setitem_col (col : string) (v : cell) (df : DataFrame) :
  col ≠ "ds_skill" → col ≠ "pm_skill" → col ≠ "gender" →
  Forall readable_row df → Forall readable_row (setitem_col df col v).
Proof.
  intros ? ? ? Hdf. unfold setitem_col. apply Forall_fmap.
  eapply Forall_impl; [done|]. intros r Hr. simpl. by apply readable_row_insert.
Qed.

Lemma readable_loc_mask_set (col : string) (v : cell) (mask : list bool) (df : DataFrame) :
  col ≠ "ds_skill" → col ≠ "pm_skill" → col ≠ "gender" →
  Forall readable_row df → Forall readable_row (loc_mask_set df mask col v).
Proof.
  intros ? ? ? Hdf. unfold loc_mask_set. revert mask.
  induction Hdf as [|r df Hr _ IH]; intros [|b mask]; simpl; try constructor.
  - destruct b; [by apply readable_row_insert|done].
  - apply IH.
Qed.

Lemma readable_col_ge (col : string) (t : Q) (df : DataFrame) :
  col = "ds_skill" ∨ col = "pm_skill" →
  Forall readable_row df → is_Ok (col_ge df col t).
Proof.
  intros Hcol Hdf. apply mapM_is_Ok. eapply Forall_impl; [done|].
  intros r (ds & pm & g & Hds & Hpm & _ & Hnds & Hnpm). simpl.
  unfold getitem. destruct Hcol as [-> | ->].
  - rewrite Hds. simpl. destruct ds as [q|s|]; [by eexists|by destruct (Hnds s)|by eexists].
  - rewrite Hpm. simpl. destruct pm as [q|s|]; [by eexists|by destruct (Hnpm s)|by eexists].
Qed.

Lemma readable_col_eq (s : string) (df : DataFrame) :
  Forall readable_row df → is_Ok (col_eq df "gender" s).
Proof.
  intros Hdf. apply mapM_is_Ok. eapply Forall_impl; [done|].
  intros r (ds & pm & g & _ & _ & Hg & _). simpl.
  unfold getitem. rewrite Hg. by eexists.
Qed.

(** On a readable roster the data preparation raises nothing. *)
Lemma data_preparation_total (students : DataFrame) :
  Forall readable_row students →
  ∃ students', data_preparation students = Ok (students', length students).
Proof.
  intros Hdf.
  assert (is_Ok (data_preparation students)) as [[students' n] Hrun].
  { unfold data_preparation.
    pose proof (readable_setitem_col "data_science_skilled" (Num 0) students) as H1.
    specialize (H1 ltac:(done) ltac:(done) ltac:(done) Hdf).
    destruct (readable_col_ge "ds_skill" DS_SKILLED_THRESHOLD _ (or_introl eq_refl) H1)
      as [mask1 ->]. simpl.
    pose proof (readable_loc_mask_set "data_science_skilled" (Num 1) mask1 _
                  ltac:(done) ltac:(done) ltac:(done) H1) as H2.
    pose proof (readable_setitem_col "project_management_skilled" (Num 0) _
                  ltac:(done) ltac:(done) ltac:(done) H2) as H3.
    destruct (readable_col_ge "pm_skill" PM_SKILLED_THRESHOLD _ (or_intror eq_refl) H3)
      as [mask2 ->]. simpl.
    pose proof (readable_loc_mask_set "project_management_skilled" (Num 1) mask2 _
                  ltac:(done) ltac:(done) ltac:(done) H3) as H4.
    pose proof (readable_setitem_col "is_male" (Num 0) _
                  ltac:(done) ltac:(done) ltac:(done) H4) as H5.
    destruct (readable_col_eq "Male" _ H5) as [mask3 ->]. simpl.
    by eexists. }
  exists students'. rewrite Hrun.
  destruct (data_preparation_rows _ _ _ Hrun) as [-> Hrows].
  by rewrite (Forall2_length _ _ _ Hrows).
Qed.

(** C4: on a roster with the columns it reads, the data preparation gives
    every student the flag data_science_skilled 1 iff the data science score
    is at least DS_SKILLED_THRESHOLD (a score equal to the threshold gives 1,
    a score one below gives 0) and 0 otherwise, the flag
    project_management_skilled 1 iff the project management score is at
    least PM_SKILLED_THRESHOLD, and the flag is_male 1 iff the gender is
    exactly the string Male. *)
Theorem eligibility_flags (students : DataFrame) :
  Forall readable_row students →
  ∃ students',
    data_preparation students = Ok (students', length students)
    ∧ length students' = length students
    ∧ ∀ i r, students !! i = Some r →
        ∃ r' ds pm g,
          students' !! i = Some r' ∧ r !! "ds_skill" = Some ds
          ∧ r !! "pm_skill" = Some pm ∧ r !! "gender" = Some g
          ∧ (r' !! "data_science_skilled" = Some (Num 1)
               ↔ at_least DS_SKILLED_THRESHOLD ds)
          ∧ (r' !! "data_science_skilled" = Some (Num 0)
               ↔ ¬ at_least DS_SKILLED_THRESHOLD ds)
          ∧ (ds = Num DS_SKILLED_THRESHOLD
               → r' !! "data_science_skilled" = Some (Num 1))
          ∧ (ds = Num (DS_SKILLED_THRESHOLD - 1)
               → r' !! "data_science_skilled" = Some (Num 0))
          ∧ (r' !! "project_management_skilled" = Some (Num 1)
               ↔ at_least PM_SKILLED_THRESHOLD pm)
          ∧ (r' !! "project_management_skilled" = Some (Num 0)
               ↔ ¬ at_least PM_SKILLED_THRESHOLD pm)
          ∧ (r' !! "is_male" = Some (Num 1) ↔ g = Str "Male")
          ∧ (r' !! "is_male" = Some (Num 0) ↔ g ≠ Str "Male").
Proof.
  intros Hdf. destruct (data_preparation_total _ Hdf) as [students' Hrun].
  exists students'. split; [done|].
  destruct (data_preparation_rows _ _ _ Hrun) as [_ Hrows].
  split; [symmetry; by eapply Forall2_length|].
  intros i r Hr.
  destruct (Forall2_lookup_l _ _ _ _ _ Hrows Hr)
    as (r' & Hr' & ds & pm & g & b_ds & b_pm & Hds & Hbds & Hpm & Hbpm & Hg & ->).
  exists (classify_row b_ds b_pm (cell_eq_str "Male" g) r), ds, pm, g.
  destruct (classify_row_lookup b_ds b_pm (cell_eq_str "Male" g) r) as (-> & -> & ->).
  apply cell_ge_at_least in Hbds, Hbpm.
  pose proof (cell_eq_str_iff "Male" g) as Hmale.
  rewrite !flag_one_iff, !flag_zero_iff.
  repeat split; try tauto.
  - intros Hb Hat. apply Hbds in Hat. congruence.
  - intros Hat. destruct b_ds; [|done]. destruct Hat. by apply Hbds.
  - intros ->. apply Hbds. exists DS_SKILLED_THRESHOLD. split; [done|]. lra.
  - intros ->. destruct b_ds; [|done].
    destruct (proj1 Hbds eq_refl) as (q & [= <-] & Hq). lra.
  - intros Hb Hat. apply Hbpm in Hat. congruence.
  - intros Hat. destruct b_pm; [|done]. destruct Hat. by apply Hbpm.
  - intros Hb Hat. apply Hmale in Hat. congruence.
  - intros Hne. destruct (cell_eq_str "Male" g); [|done]. destruct Hne. by apply Hmale.
Qed.

(** ** Linear expressions *)

Section Eval.

Variable v : Var → Q.

Lemma eval_le_zero : (eval v le_zero == 0)%Q.
Proof. reflexivity. Qed.

Lemma eval_le_var (a : Var) : (eval v (le_var a) == v a)%Q.
Proof. unfold eval, le_var, Qsum. simpl. lra. Qed.

Lemma eval_le_const (q : Q) : (eval v (le_const q) == q)%Q.
Proof. unfold eval, le_const, Qsum. simpl. lra. Qed.

Lemma eval_le_scale (c : Q) (e : LinExpr) : (eval v (le_scale c e) == c * eval v e)%Q.
Proof.
  unfold eval, le_scale. simpl.
  assert (Qsum ((λ t : Q * Var, t.1 * v t.2) <$>
                  ((λ t : Q * Var, (c * t.1, t.2)) <$> terms e))
          == c * Qsum ((λ t : Q * Var, t.1 * v t.2) <$> terms e))%Q as ->; [|lra].
  induction (terms e) as [|t l IH].
  - change (0 == c * 0)%Q. lra.
  - rewrite !fmap_cons, !Qsum_cons, IH. simpl. lra.
Qed.

Lemma eval_le_add (a b : LinExpr) : (eval v (le_add a b) == eval v a + eval v b)%Q.
Proof. unfold eval, le_add. simpl. rewrite fmap_app, Qsum_app. lra. Qed.

Lemma eval_le_neg (e : LinExpr) : (eval v (le_neg e) == - eval v e)%Q.
Proof. unfold le_neg. rewrite eval_le_scale. lra. Qed.

Lemma eval_le_sub (a b : LinExpr) : (eval v (le_sub a b) == eval v a - eval v b)%Q.
Proof. unfold le_sub. rewrite eval_le_add, eval_le_neg. lra. Qed.

Lemma eval_le_cmp (s : Sense) (a b : LinExpr) :
  (eval v (le_cmp s a b) == eval v a - eval v b)%Q.
Proof. rewrite <- eval_le_sub. reflexivity. Qed.

Lemma eval_foldl_le_add (a : LinExpr) (es : list LinExpr) :
  (eval v (foldl le_add a es) == eval v a + Qsum (eval v <$> es))%Q.
Proof.
  revert a. induction es as [|e es IH]; intros a.
  - change (eval v a == eval v a + 0)%Q. lra.
  - cbn [foldl]. rewrite IH, eval_le_add, fmap_cons, Qsum_cons. lra.
Qed.

Lemma eval_xsum (es : list LinExpr) : (eval v (xsum es) == Qsum (eval v <$> es))%Q.
Proof. unfold xsum. rewrite eval_foldl_le_add, eval_le_zero. lra. Qed.

Lemma holds_le_cmp_EQ (a b : LinExpr) :
  holds v (le_cmp EQ a b) ↔ (eval v a == eval v b)%Q.
Proof.
  change (holds v (le_cmp EQ a b)) with (eval v (le_cmp EQ a b) == 0)%Q.
  rewrite eval_le_cmp.
  split; intros; lra.
Qed.

Lemma holds_le_cmp_GE (a b : LinExpr) :
  holds v (le_cmp GE a b) ↔ (eval v b <= eval v a)%Q.
Proof.
  change (holds v (le_cmp GE a b)) with (0 <= eval v (le_cmp GE a b))%Q.
  rewrite eval_le_cmp.
  split; intros; lra.
Qed.

Lemma holds_le_cmp_LE (a b : LinExpr) :
  holds v (le_cmp LE a b) ↔ (eval v a <= eval v b)%Q.
Proof.
  change (holds v (le_cmp LE a b)) with (eval v (le_cmp LE a b) <= 0)%Q.
  rewrite eval_le_cmp.
  split; intros; lra.
Qed.

End Eval.

(** An expression has the same value under two valuations that agree on
    its variables. *)
Lemma eval_agree (v v' : Var → Q) (e : LinExpr) :
  (∀ a, a ∈ vars_of e → (v a == v' a)%Q) → (eval v e == eval v' e)%Q.
Proof.
  unfold eval, vars_of. intros Hag.
  assert (Qsum ((λ t : Q * Var, t.1 * v t.2) <$> terms e)
          == Qsum ((λ t : Q * Var, t.1 * v' t.2) <$> terms e))%Q as ->; [|reflexivity].
  apply Qsum_ext. intros t Ht. rewrite (Hag t.2); [reflexivity|].
  apply elem_of_app. left. apply list_elem_of_fmap. by exists t.
Qed.

Lemma holds_agree (v v' : Var → Q) (e : LinExpr) :
  (∀ a, a ∈ vars_of e → (v a == v' a)%Q) → holds v e → holds v' e.
Proof.
  intros Hag. pose proof (eval_agree v v' e Hag) as He.
  unfold holds. destruct (sense e); [done| | |]; intros; lra.
Qed.

Lemma vars_of_le_var (a : Var) : vars_of (le_var a) = [a].
Proof. reflexivity. Qed.

Lemma vars_of_le_const (q : Q) : vars_of (le_const q) = [].
Proof. reflexivity. Qed.

Lemma vars_of_le_scale (c : Q) (e : LinExpr) : vars_of (le_scale c e) = vars_of e.
Proof.
  unfold vars_of, le_scale. simpl. by rewrite <- list_fmap_compose.
Qed.

Lemma vars_of_le_add (P : Var → Prop) (a b : LinExpr) :
  Forall P (vars_of (le_add a b)) ↔ Forall P (vars_of a) ∧ Forall P (vars_of b).
Proof.
  unfold vars_of, le_add. simpl. rewrite fmap_app, !Forall_app. tauto.
Qed.

Lemma vars_of_le_cmp (P : Var → Prop) (s : Sense) (a b : LinExpr) :
  Forall P (vars_of (le_cmp s a b)) ↔ Forall P (vars_of a) ∧ Forall P (vars_of b).
Proof.
  change (vars_of (le_cmp s a b)) with (vars_of (le_add a (le_scale (-1) b))).
  by rewrite vars_of_le_add, vars_of_le_scale.
Qed.

Lemma vars_of_xsum (P : Var → Prop) (es : list LinExpr) :
  Forall (λ e, Forall P (vars_of e)) es → Forall P (vars_of (xsum es)).
Proof.
  unfold xsum.
  assert (∀ a, Forall P (vars_of a) → Forall (λ e, Forall P (vars_of e)) es →
               Forall P (vars_of (foldl le_add a es))) as Hgen.
  { induction es as [|e es IH]; intros a Ha Hes; [done|].
    inversion Hes; subst. simpl. apply IH; [|done].
    by apply vars_of_le_add. }
  apply Hgen. constructor.
Qed.

(** ** The declaration of the variables *)

Lemma declare_x_row_spec (i : nat) (ps : list string) (m m' : Model)
    (d d' : gmap string Var) :
  declare_x_row i ps m d = (m', d') →
  constrs m' = constrs m ∧ objective m' = objective m
  ∧ (∃ new, vars m' = vars m ++ new)
  ∧ (∀ p v, d' !! p = Some v → d !! p = Some v ∨ v < length (vars m'))
  ∧ (∀ p, p ∈ ps ∨ is_Some (d !! p) → is_Some (d' !! p)).
Proof.
  revert m d. induction ps as [|p ps IH]; intros m d H; simpl in H.
  - injection H as <- <-. repeat split; auto.
    + exists []. by rewrite app_nil_r.
    + intros p [Hp|Hp]; [by apply elem_of_nil in Hp|done].
  - apply IH in H as (Hc & Ho & (new & Hv) & Hb & Hp). simpl in *.
    repeat split; [done|done| | |].
    + exists ([mkVar ("x_" +:+ pretty i +:+ "_" +:+ p) 0 (Some 1%Q) BINARY] ++ new).
      by rewrite Hv, <- app_assoc.
    + intros p' v Hd'. destruct (Hb p' v Hd') as [Hd|Hlt]; [|by right].
      destruct (decide (p = p')) as [->|Hne].
      * rewrite lookup_insert_eq in Hd. injection Hd as <-. right.
        rewrite Hv, !length_app. simpl. lia.
      * rewrite lookup_insert_ne in Hd by done. by left.
    + intros p' Hp'. apply Hp.
      destruct (decide (p = p')) as [->|Hne].
      * right. rewrite lookup_insert_eq. by eexists.
      * rewrite lookup_insert_ne by done.
        destruct Hp' as [Hp'|Hp']; [|by right].
        apply elem_of_cons in Hp' as [->|Hp']; [done|by left].
Qed.

Lemma good_row_mono (b b' : nat) (d : gmap string Var) :
  b ≤ b' → good_row b d → good_row b' d.
Proof.
  intros Hle [Hb Hp]. split; [|done]. intros p v Hd. specialize (Hb p v Hd). lia.
Qed.

Lemma declare_x_spec (range : list nat) (m m' : Model)
    (x x' : gmap nat (gmap string Var)) :
  declare_x range m x = (m', x') →
  constrs m' = constrs m ∧ objective m' = objective m
  ∧ (∃ new, vars m' = vars m ++ new)
  ∧ (∀ i d, x' !! i = Some d → x !! i = Some d ∨ good_row (length (vars m')) d)
  ∧ (∀ i, i ∈ range ∨ is_Some (x !! i) → is_Some (x' !! i)).
Proof.
  revert m x. induction range as [|i range IH]; intros m x H; simpl in H.
  - injection H as <- <-. repeat split; auto.
    + exists []. by rewrite app_nil_r.
    + intros i [Hi|Hi]; [by apply elem_of_nil in Hi|done].
  - destruct (declare_x_row i PROJECTS m ∅) as [m1 d1] eqn:Hrow.
    apply declare_x_row_spec in Hrow as (Hc1 & Ho1 & (new1 & Hv1) & Hb1 & Hp1).
    apply IH in H as (Hc & Ho & (new & Hv) & Hb & Hp).
    repeat split; [congruence|congruence| | |].
    + exists (new1 ++ new). by rewrite Hv, Hv1, <- app_assoc.
    + intros i' d Hd. destruct (Hb i' d Hd) as [Hx|Hg]; [|by right].
      destruct (decide (i = i')) as [->|Hne].
      * rewrite lookup_insert_eq in Hx. injection Hx as <-. right.
        apply (good_row_mono (length (vars m1))).
        { rewrite Hv, length_app. lia. }
        split.
        -- intros p v Hpv. destruct (Hb1 p v Hpv) as [He|Hlt]; [|done].
           by rewrite lookup_empty in He.
        -- intros p Hin. apply Hp1. by left.
      * rewrite lookup_insert_ne in Hx by done. by left.
    + intros i' Hi'. apply Hp.
      destruct (decide (i = i')) as [->|Hne].
      * right. rewrite lookup_insert_eq. by eexists.
      * rewrite lookup_insert_ne by done.
        destruct Hi' as [Hi'|Hi']; [|by right].
        apply elem_of_cons in Hi' as [->|Hi']; [done|by left].
Qed.

Lemma declare_gender_diversity_spec (ps : list string) (m m' : Model)
    (d d' : gmap string Var) :
  declare_gender_diversity ps m d = (m', d') →
  constrs m' = constrs m ∧ objective m' = objective m
  ∧ (∃ new, vars m' = vars m ++ new ∧ Forall free_nonneg new)
  ∧ (∀ p v, d' !! p = Some v →
       d !! p = Some v ∨ length (vars m) ≤ v < length (vars m'))
  ∧ (∀ p, p ∈ ps ∨ is_Some (d !! p) → is_Some (d' !! p)).
Proof.
  revert m d. induction ps as [|p ps IH]; intros m d H; simpl in H.
  - injection H as <- <-. repeat split; auto.
    + exists []. by rewrite app_nil_r.
    + intros p [Hp|Hp]; [by apply elem_of_nil in Hp|done].
  - apply IH in H as (Hc & Ho & (new & Hv & Hnew) & Hb & Hp). simpl in *.
    repeat split; [done|done| | |].
    + exists ([mkVar ("gd_" +:+ p) 0 None CONTINUOUS] ++ new). split.
      * by rewrite Hv, <- app_assoc.
      * apply Forall_app. split; [|done]. by repeat constructor.
    + intros p' v Hd'. destruct (Hb p' v Hd') as [Hd|Hle].
      * destruct (decide (p = p')) as [->|Hne].
        -- rewrite lookup_insert_eq in Hd. injection Hd as <-. right.
           rewrite Hv, !length_app. simpl. lia.
        -- rewrite lookup_insert_ne in Hd by done. by left.
      * right. rewrite length_app in Hle. simpl in Hle. lia.
    + intros p' Hp'. apply Hp.
      destruct (decide (p = p')) as [->|Hne].
      * right. rewrite lookup_insert_eq. by eexists.
      * rewrite lookup_insert_ne by done.
        destruct Hp' as [Hp'|Hp']; [|by right].
        apply elem_of_cons in Hp' as [->|Hp']; [done|by left].
Qed.

Lemma x_get_Ok (x : gmap nat (gmap string Var)) (i : nat) (p : string) (v : Var) :
  x_get x i p = Ok v ↔ ∃ d, x !! i = Some d ∧ d !! p = Some v.
Proof.
  unfold x_get. rewrite bind_Ok. setoid_rewrite getitem_Ok. done.
Qed.

Lemma declare_decision_variables_spec (df : DataFrame) (n : nat) :
  let s := declare_decision_variables df n new_model in
  students s = df ∧ number_students s = n
  ∧ constrs (m s) = [] ∧ ∃ nx, declared s nx.
Proof.
  unfold declare_decision_variables.
  destruct (declare_x (seq 0 n) new_model ∅) as [m1 x1] eqn:Hx.
  destruct (declare_gender_diversity PROJECTS m1 ∅) as [m2 gd] eqn:Hg.
  apply declare_x_spec in Hx as (Hc1 & _ & _ & Hb1 & Hp1).
  apply declare_gender_diversity_spec in Hg as (Hc2 & _ & (new & Hv & Hnew) & Hb2 & Hp2).
  simpl. repeat split; [by rewrite Hc2, Hc1|].
  exists (length (vars m1)). unfold declared. simpl.
  refine (conj _ (conj _ (conj _ (conj _ _)))).
  - intros i p v (d & Hd & Hv')%x_get_Ok.
    destruct (Hb1 i d Hd) as [He|[Hg _]]; [by rewrite lookup_empty in He|].
    by apply (Hg p).
  - intros i p Hi Hp.
    destruct (Hp1 i) as [d Hd]; [left; apply elem_of_seq; lia|].
    destruct (Hb1 i d Hd) as [He|[_ Hg]]; [by rewrite lookup_empty in He|].
    destruct (Hg p Hp) as [v Hv']. exists v. apply x_get_Ok. by exists d.
  - intros p v Hpv%getitem_Ok.
    destruct (Hb2 p v Hpv) as [He|Hle]; [by rewrite lookup_empty in He|done].
  - intros p Hp. destruct (Hp2 p) as [v Hv']; [by left|].
    exists v. by apply getitem_Ok.
  - intros k info Hk Hinfo. rewrite Hv in Hinfo.
    rewrite lookup_app_r in Hinfo by done.
    rewrite Forall_forall in Hnew. apply Hnew.
    by eapply list_elem_of_lookup_2.
Qed.

(** ** The strict requirements and the objective *)

Lemma xsum_for_Ok_eq {A} (l : list A) (f : A → result LinExpr) (g : A → LinExpr)
    (e : LinExpr) :
  xsum_for l f = Ok e →
  (∀ a y, a ∈ l → f a = Ok y → y = g a) →
  e = xsum (g <$> l).
Proof.
  unfold xsum_for. intros H Hg. inv_Ok H. subst e. f_equal.
  apply mapM_Ok in E. clear -E Hg.
  induction E as [|a y l k Hay _ IH]; [done|].
  rewrite fmap_cons. f_equal.
  - apply Hg; [by left|done].
  - apply IH. intros a' y' Ha'. apply Hg. by right.
Qed.

Lemma xsum_for_Ok_intro {A} (l : list A) (f : A → result LinExpr) :
  (∀ a, a ∈ l → is_Ok (f a)) → is_Ok (xsum_for l f).
Proof.
  intros Hf. unfold xsum_for.
  destruct (mapM_is_Ok f l) as [k ->]; [by apply Forall_forall|].
  by eexists.
Qed.

Lemma sense_xsum (es : list LinExpr) : sense (xsum es) = NoSense.
Proof.
  unfold xsum. assert (∀ a, sense (foldl le_add a es) = sense a) as Hgen.
  { induction es as [|e es IH]; intros a; [done|]. simpl. by rewrite IH. }
  by rewrite Hgen.
Qed.

(** A loop whose body appends the constraints [gen a] and nothing else. *)
Lemma for_in_append {A} (l : list A) (gen : A → list LinExpr)
    (body : A → Model → result Model) (m0 m1 : Model) :
  (∀ a m m', a ∈ l → body a m = Ok m' →
     vars m' = vars m ∧ objective m' = objective m ∧ constrs m' = constrs m ++ gen a) →
  for_in l body m0 = Ok m1 →
  vars m1 = vars m0 ∧ objective m1 = objective m0
  ∧ constrs m1 = constrs m0 ++ (l ≫= gen).
Proof.
  intros Hbody Hrun.
  apply (for_in_ind (λ done m, vars m = vars m0 ∧ objective m = objective m0
                               ∧ constrs m = constrs m0 ++ (done ≫= gen))
           body l m0 m1 Hrun).
  - by rewrite app_nil_r.
  - intros done a s1 s2 Ha (Hv & Ho & Hc) Hb.
    destruct (Hbody a s1 s2 Ha Hb) as (Hv' & Ho' & Hc').
    rewrite Hv', Ho', Hc', Hv, Ho, Hc. repeat split.
    rewrite bind_app, <- app_assoc. do 2 f_equal. simpl. by rewrite app_nil_r.
Qed.

Lemma x_get_x_at (s : State) (i : nat) (p : string) (v : Var) :
  x_get (x s) i p = Ok v → v = x_at s i p.
Proof. intros H. unfold x_at. by rewrite H. Qed.

Lemma getitem_g_at (s : State) (p : string) (v : Var) :
  getitem (gender_diversity s) p = Ok v → v = g_at s p.
Proof. intros H. unfold g_at. by rewrite H. Qed.

Lemma summand_var (s : State) (i : nat) (p : string) (y : LinExpr) :
  le_var <$> x_get (x s) i p = Ok y → y = le_var (x_at s i p).
Proof. intros H. inv_Ok H. by rewrite <- (x_get_x_at _ _ _ _ E). Qed.

Lemma loc_get_num_at (s : State) (i : nat) (col : string) (q : Q) :
  loc_get (students s) i col = Ok (Num q) → num_at s i col = q.
Proof. intros H. unfold num_at. by rewrite H. Qed.

Lemma scaled_Num (s : State) (i : nat) (col p : string) (q : Q) :
  loc_get (students s) i col = Ok (Num q) →
  scaled s i col p = le_scale (num_at s i col) (le_var (x_at s i p)).
Proof. intros H. unfold scaled. by rewrite H. Qed.

Lemma scaled_NaN (s : State) (i : nat) (col p : string) :
  loc_get (students s) i col = Ok NaN → scaled s i col p = le_nan (x_at s i p).
Proof. intros H. unfold scaled. by rewrite H. Qed.

Lemma cell_mul_Ok (s : State) (i : nat) (col p : string) (c : cell) (y : LinExpr) :
  loc_get (students s) i col = Ok c → cell_mul c (x_at s i p) = Ok y →
  y = scaled s i col p.
Proof.
  intros Hc Hy. destruct c as [q|?|]; simpl in Hy; [|done|].
  - injection Hy as <-. by rewrite (scaled_Num _ _ _ _ q), (loc_get_num_at _ _ _ q).
  - injection Hy as <-. by rewrite scaled_NaN.
Qed.

(** [students.loc[i, col] * x[i][project]] and [x[i][project] * students.loc[i, col]] *)
Lemma summand_scaled (s : State) (i : nat) (col p : string) (y : LinExpr) :
  (c ← loc_get (students s) i col; v ← x_get (x s) i p; cell_mul c v) = Ok y
  ∨ (v ← x_get (x s) i p; c ← loc_get (students s) i col; cell_mul c v) = Ok y →
  y = scaled s i col p.
Proof.
  intros [H|H]; inv_Ok H.
  - rewrite (x_get_x_at _ _ _ _ E0) in H. by apply (cell_mul_Ok s i col p a).
  - rewrite (x_get_x_at _ _ _ _ E) in H. by apply (cell_mul_Ok s i col p a0).
Qed.

Lemma model_iadd_le_cmp (m : Model) (sn : Sense) (a b : LinExpr) :
  sn ≠ NoSense →
  model_iadd m (le_cmp sn a b) = mkModel (vars m) (constrs m ++ [le_cmp sn a b]) (objective m).
Proof. by destruct sn. Qed.

Lemma impose_strict_requirements_spec (s : State) (m1 : Model) :
  impose_strict_requirements s = Ok m1 →
  vars m1 = vars (m s) ∧ objective m1 = objective (m s)
  ∧ constrs m1 = constrs (m s)
                  ++ (total_assignment_constr s <$> students_range s)
                  ++ (PROJECTS ≫= project_constrs s).
Proof.
  unfold impose_strict_requirements. intros H.
  apply bind_Ok in H as (m0 & Hstud & Hproj).
  apply (for_in_append _ (λ i, [total_assignment_constr s i])) in Hstud
    as (Hv0 & Ho0 & Hc0).
  2:{ intros i m m' _ Hb. inv_Ok Hb. subst m'.
      rewrite model_iadd_le_cmp by done. simpl. repeat split. do 2 f_equal.
      unfold total_assignment_constr. f_equal.
      apply (xsum_for_Ok_eq _ _ _ _ E). intros p y _. apply summand_var. }
  apply (for_in_append _ (project_constrs s)) in Hproj as (Hv1 & Ho1 & Hc1).
  2:{ intros p m m' _ Hb. inv_Ok Hb. subst m'.
      rewrite !model_iadd_le_cmp by done. simpl. repeat split.
      rewrite <- !app_assoc. simpl. do 2 f_equal.
      unfold project_constrs, min_team_size_constr, max_team_size_constr,
        skilled_constr, team_expr, skilled_expr.
      f_equal; [|f_equal; [|f_equal; [|f_equal]]]; f_equal.
      - apply (xsum_for_Ok_eq _ _ _ _ E). intros i y _. apply summand_var.
      - apply (xsum_for_Ok_eq _ _ _ _ E0). intros i y _. apply summand_var.
      - apply (xsum_for_Ok_eq _ _ _ _ E1). intros i y _ Hy.
        apply summand_scaled. by left.
      - apply (xsum_for_Ok_eq _ _ _ _ E2). intros i y _ Hy.
        apply summand_scaled. by left. }
  rewrite Hv1, Ho1, Hc1, Hv0, Ho0, Hc0. repeat split.
  rewrite <- app_assoc. do 2 f_equal.
Qed.

Lemma impose_objective_function_spec (s : State) (m1 m2 : Model) :
  impose_objective_function s m1 = Ok m2 →
  vars m2 = vars m1 ∧ constrs m2 = constrs m1
  ∧ objective m2 = le_add (priority_expr s) (diversity_expr s).
Proof.
  unfold impose_objective_function. intros H.
  apply bind_Ok in H as (prio & Hprio & H).
  apply bind_Ok in H as (m' & Hloop & H).
  apply bind_Ok in H as (gd & Hgd & H). injection H as <-.
  assert (m' = m1) as ->.
  { apply (for_in_ind (λ _ m, m = m1) _ _ _ _ Hloop); [done|].
    intros done p s1 s2 _ -> Hb. inv_Ok Hb. by subst. }
  assert (prio = priority_expr s) as ->.
  { apply (xsum_for_Ok_eq _ _ _ _ Hprio). intros [i p] y _ Hy.
    apply summand_scaled. by left. }
  assert (gd = diversity_expr s) as ->.
  { apply (xsum_for_Ok_eq _ _ _ _ Hgd). intros p y _ Hy. inv_Ok Hy.
    by rewrite <- (getitem_g_at _ _ _ E). }
  assert (sense (le_add (priority_expr s) (diversity_expr s)) = NoSense) as Hs
    by apply sense_xsum.
  unfold model_iadd. by rewrite Hs.
Qed.

(** ** The built model *)

Lemma build_model_spec (df : DataFrame) (s : State) :
  build_model df = Ok s →
  data_preparation df = Ok (students s, number_students s)
  ∧ (∃ nx, declared s nx)
  ∧ constrs (m s) = (total_assignment_constr s <$> students_range s)
                    ++ (PROJECTS ≫= project_constrs s)
  ∧ objective (m s) = le_add (priority_expr s) (diversity_expr s).
Proof.
  unfold build_model. intros H.
  apply bind_Ok in H as ([df' n] & Hprep & H).
  apply bind_Ok in H as (m1 & Hstrict & H).
  apply bind_Ok in H as (m2 & Hobj & H). injection H as <-.
  destruct (declare_decision_variables_spec df' n) as (Hst & Hn & Hc & nx & Hdecl).
  set (s0 := declare_decision_variables df' n new_model) in *.
  apply impose_strict_requirements_spec in Hstrict as (Hv1 & _ & Hc1).
  apply impose_objective_function_spec in Hobj as (Hv2 & Hc2 & Ho2).
  refine (conj _ (conj _ (conj _ _))).
  - simpl. by rewrite Hst, Hn.
  - exists nx. unfold declared in *. simpl. by rewrite Hv2, Hv1.
  - simpl. by rewrite Hc2, Hc1, Hc.
  - done.
Qed.

Lemma x_at_lt (s : State) (nx i : nat) (p : string) :
  declared s nx → i < number_students s → p ∈ PROJECTS →
  x_get (x s) i p = Ok (x_at s i p) ∧ x_at s i p < nx.
Proof.
  intros (Hb & Hp & _) Hi Hin. destruct (Hp i p Hi Hin) as [v Hv].
  rewrite <- (x_get_x_at _ _ _ _ Hv). split; [done|]. by apply (Hb i p).
Qed.

Lemma g_at_ge (s : State) (nx : nat) (p : string) :
  declared s nx → p ∈ PROJECTS →
  getitem (gender_diversity s) p = Ok (g_at s p)
  ∧ nx ≤ g_at s p < length (vars (m s)).
Proof.
  intros (_ & _ & Hb & Hp & _) Hin. destruct (Hp p Hin) as [v Hv].
  rewrite <- (getitem_g_at _ _ _ Hv). split; [done|]. by apply (Hb p).
Qed.

Lemma elem_of_students_range (s : State) (i : nat) :
  i ∈ students_range s ↔ i < number_students s.
Proof. unfold students_range. rewrite elem_of_seq. lia. Qed.

Section Values.

Variables (s : State) (v : Var → Q).

Lemma eval_xsum_fmap {A} (g : A → LinExpr) (l : list A) :
  (eval v (xsum (g <$> l)) == Qsum ((λ a, eval v (g a)) <$> l))%Q.
Proof. rewrite eval_xsum, <- list_fmap_compose. reflexivity. Qed.

Lemma eval_scaled_var (q : Q) (a : Var) :
  (eval v (le_scale q (le_var a)) == q * v a)%Q.
Proof. rewrite eval_le_scale, eval_le_var. reflexivity. Qed.

Lemma eval_scaled (i : nat) (col p : string) :
  (eval v (scaled s i col p) == num_at s i col * v (x_at s i p))%Q.
Proof.
  unfold scaled, num_at.
  destruct (loc_get (students s) i col) as [[q|?|]|?]; try apply eval_scaled_var.
  unfold eval, le_nan, Qsum. simpl. lra.
Qed.

Lemma eval_total_assignment (i : nat) :
  holds v (total_assignment_constr s i) ↔ (projects_of_student s v i == 1)%Q.
Proof.
  unfold total_assignment_constr, projects_of_student.
  rewrite holds_le_cmp_EQ, eval_xsum_fmap, eval_le_const.
  rewrite (Qsum_ext _ (λ project, v (x_at s i project))); [done|].
  intros p _. apply eval_le_var.
Qed.

Lemma eval_team_expr (p : string) : (eval v (team_expr s p) == team_size s v p)%Q.
Proof.
  unfold team_expr, team_size. rewrite eval_xsum_fmap.
  apply Qsum_ext. intros i _. apply eval_le_var.
Qed.

Lemma eval_skilled_expr (col p : string) :
  (eval v (skilled_expr col s p) == skilled_count col s v p)%Q.
Proof.
  unfold skilled_expr, skilled_count. rewrite eval_xsum_fmap.
  apply Qsum_ext. intros i _. apply eval_scaled.
Qed.

Lemma eval_priority_expr : (eval v (priority_expr s) == priority_term s v)%Q.
Proof.
  unfold priority_expr, priority_term. rewrite eval_xsum_fmap.
  apply Qsum_ext. intros ip _. apply eval_scaled.
Qed.

Lemma eval_diversity_expr : (eval v (diversity_expr s) == diversity_term s v)%Q.
Proof.
  unfold diversity_expr, diversity_term. rewrite eval_xsum_fmap.
  apply Qsum_ext. intros p _. apply eval_le_var.
Qed.

Lemma eval_number_of_males (p : string) :
  (eval v (number_of_males s p) == male_count s v p)%Q.
Proof.
  unfold number_of_males, male_count. rewrite eval_xsum_fmap.
  apply Qsum_ext. intros i _. rewrite eval_scaled_var. lra.
Qed.

Lemma eval_number_of_females (p : string) :
  (eval v (number_of_females s p) == female_count s v p)%Q.
Proof.
  unfold number_of_females, female_count. rewrite eval_xsum_fmap.
  apply Qsum_ext. intros i _. rewrite eval_scaled_var. lra.
Qed.

End Values.

Lemma xsum_for_Ok_each {A} (l : list A) (f : A → result LinExpr) (e : LinExpr) :
  xsum_for l f = Ok e → ∀ a, a ∈ l → is_Ok (f a).
Proof.
  unfold xsum_for. intros H a Ha. inv_Ok H. apply mapM_Ok in E.
  apply list_elem_of_lookup in Ha as [k Hk].
  destruct (Forall2_lookup_l _ _ _ _ _ E Hk) as (y & _ & Hy). by exists y.
Qed.

(** In a built model the flags of every student are the numbers 0 or 1:
    the default of [num_at] is not used for them. *)
Lemma build_model_numeric (df : DataFrame) (s : State) (i : nat) :
  build_model df = Ok s → i < number_students s →
  ∀ col, col ∈ ["data_science_skilled"; "project_management_skilled"; "is_male"] →
    ∃ q, loc_get (students s) i col = Ok (Num q) ∧ (q = 0%Q ∨ q = 1%Q).
Proof.
  intros Hb Hi.
  apply build_model_spec in Hb as (Hprep & _).
  destruct (data_preparation_rows _ _ _ Hprep) as [Hlen Hrows].
  rewrite Hlen in Hi. destruct (lookup_lt_is_Some_2 _ _ Hi) as [r' Hr'].
  destruct (Forall2_lookup_r _ _ _ _ _ Hrows Hr')
    as (r & _ & ds & pm & g & b_ds & b_pm & _ & _ & _ & _ & _ & ->).
  destruct (classify_row_lookup b_ds b_pm (cell_eq_str "Male" g) r)
    as (Hds & Hpm & Hmale).
  intros col Hcol. unfold loc_get, getitem. rewrite Hr'.
  repeat (apply elem_of_cons in Hcol as [->|Hcol]).
  - rewrite Hds. eexists. split; [done|]. destruct b_ds; auto.
  - rewrite Hpm. eexists. split; [done|]. destruct b_pm; auto.
  - rewrite Hmale. eexists. split; [done|]. destruct (cell_eq_str "Male" g); auto.
  - by apply elem_of_nil in Hcol.
Qed.

Lemma classified_numeric (b_ds b_pm b_male : bool) (r : Row) (p : string) :
  p ∈ ["data_science_skilled"; "project_management_skilled"; "is_male"]
  ∨ (∃ q, r !! p = Some (Num q)) →
  ∃ q, classify_row b_ds b_pm b_male r !! p = Some (Num q).
Proof.
  destruct (classify_row_lookup b_ds b_pm b_male r) as (Hds & Hpm & Hmale).
  destruct (decide (p = "data_science_skilled")) as [->|?]; [by eexists|].
  destruct (decide (p = "project_management_skilled")) as [->|?]; [by eexists|].
  destruct (decide (p = "is_male")) as [->|?]; [by eexists|].
  intros [Hp|[q Hq]].
  - repeat (apply elem_of_cons in Hp as [->|Hp]; [done|]). by apply elem_of_nil in Hp.
  - exists q. by rewrite classify_row_lookup_other.
Qed.

(** On a well formed roster the rank a student gives a project is a number:
    no coefficient of the objective is NaN. *)
Lemma well_formed_ranks (df : DataFrame) (s : State) (i : nat) (p : string) :
  build_model df = Ok s → well_formed df → i < number_students s → p ∈ PROJECTS →
  ∃ q, loc_get (students s) i p = Ok (Num q).
Proof.
  intros Hb Hwf Hi Hp. apply build_model_spec in Hb as (Hprep & _).
  destruct (data_preparation_rows _ _ _ Hprep) as [Hlen Hrows].
  rewrite Hlen in Hi. destruct (lookup_lt_is_Some_2 _ _ Hi) as [r' Hr'].
  destruct (Forall2_lookup_r _ _ _ _ _ Hrows Hr')
    as (r & Hr & ds & pm & g & b_ds & b_pm & _ & _ & _ & _ & _ & ->).
  unfold well_formed in Hwf. rewrite Forall_forall in Hwf.
  destruct (Hwf r) as [_ Hproj]; [by eapply list_elem_of_lookup_2|].
  unfold loc_get, getitem. rewrite Hr'.
  destruct (classified_numeric b_ds b_pm (cell_eq_str "Male" g) r p (Hproj p Hp))
    as [q ->].
  by exists q.
Qed.

Lemma priority_expr_numeric (df : DataFrame) (s : State) :
  build_model df = Ok s → well_formed df →
  priority_expr s
  = xsum ((λ ip : nat * string,
             le_scale (num_at s ip.1 ip.2) (le_var (x_at s ip.1 ip.2)))
            <$> list_prod (students_range s) PROJECTS).
Proof.
  intros Hb Hwf. unfold priority_expr. f_equal.
  apply Forall_fmap_ext, Forall_forall. intros [i p] Hip.
  apply list_elem_of_In, in_prod_iff in Hip as [Hi Hp].
  apply list_elem_of_In in Hi, Hp. apply elem_of_students_range in Hi.
  destruct (well_formed_ranks df s i p Hb Hwf Hi Hp) as [q Hq].
  by apply (scaled_Num _ _ _ _ q).
Qed.

(** The constraints of the model, one by one. *)
Lemma total_assignment_in_model (df : DataFrame) (s : State) (i : nat) :
  build_model df = Ok s → i < number_students s →
  total_assignment_constr s i ∈ constrs (m s).
Proof.
  intros Hb Hi. apply build_model_spec in Hb as (_ & _ & -> & _).
  apply elem_of_app. left. apply list_elem_of_fmap. exists i.
  split; [done|]. by apply elem_of_students_range.
Qed.

Lemma project_constrs_in_model (df : DataFrame) (s : State) (p : string) (c : LinExpr) :
  build_model df = Ok s → p ∈ PROJECTS → c ∈ project_constrs s p →
  c ∈ constrs (m s).
Proof.
  intros Hb Hp Hc. apply build_model_spec in Hb as (_ & _ & -> & _).
  apply elem_of_app. right. apply list_elem_of_bind. by exists p.
Qed.

Lemma feasible_holds (m : Model) (v : Var → Q) (c : LinExpr) :
  feasible m v → c ∈ constrs m → holds v c.
Proof. intros [_ Hc] Hin. rewrite Forall_forall in Hc. by apply Hc. Qed.

Lemma feasible_total_assignment (df : DataFrame) (s : State) (v : Var → Q) (i : nat) :
  build_model df = Ok s → feasible (m s) v → i < number_students s →
  (projects_of_student s v i == 1)%Q.
Proof.
  intros Hb Hf Hi. apply eval_total_assignment, (feasible_holds (m s)); [done|].
  by apply (total_assignment_in_model df).
Qed.

Lemma feasible_min_team_size (df : DataFrame) (s : State) (v : Var → Q) (p : string) :
  build_model df = Ok s → feasible (m s) v → p ∈ PROJECTS →
  (inject_Z MIN_TEAM_SIZE <= team_size s v p)%Q.
Proof.
  intros Hb Hf Hp.
  assert (holds v (min_team_size_constr s p)) as Hmin.
  { apply (feasible_holds (m s)); [done|].
    apply (project_constrs_in_model df s p); [done..|]. by left. }
  unfold min_team_size_constr in Hmin.
  by rewrite holds_le_cmp_GE, eval_le_const, eval_team_expr in Hmin.
Qed.

(** C2: every feasible solution of the built model gives every student
    exactly one project (the x values of a student sum to 1), gives every
    project a team size between MIN_TEAM_SIZE and MAX_TEAM_SIZE, the two
    bounds being two constraints of the model, and gives every project a
    data science skilled and a project management skilled weight of at
    least 1. *)
Theorem feasible_assignment_invariant (df : DataFrame) (s : State) (v : Var → Q) :
  build_model df = Ok s → feasible (m s) v →
  (∀ i, i < number_students s → (projects_of_student s v i == 1)%Q)
  ∧ ∀ project, project ∈ PROJECTS →
      min_team_size_constr s project ∈ constrs (m s)
      ∧ max_team_size_constr s project ∈ constrs (m s)
      ∧ (inject_Z MIN_TEAM_SIZE <= team_size s v project)%Q
      ∧ (team_size s v project <= inject_Z MAX_TEAM_SIZE)%Q
      ∧ (1 <= skilled_count "data_science_skilled" s v project)%Q
      ∧ (1 <= skilled_count "project_management_skilled" s v project)%Q.
Proof.
  intros Hb Hf. split.
  - intros i Hi. apply eval_total_assignment, (feasible_holds (m s)); [done|].
    by apply (total_assignment_in_model df).
  - intros p Hp.
    assert (∀ c, c ∈ project_constrs s p → c ∈ constrs (m s)) as Hin
      by (intros c; by apply (project_constrs_in_model df)).
    assert (min_team_size_constr s p ∈ constrs (m s)) as Hmin
      by (apply Hin; by left).
    assert (max_team_size_constr s p ∈ constrs (m s)) as Hmax
      by (apply Hin; right; by left).
    assert (skilled_constr "data_science_skilled" s p ∈ constrs (m s)) as Hds
      by (apply Hin; right; right; by left).
    assert (skilled_constr "project_management_skilled" s p ∈ constrs (m s)) as Hpm
      by (apply Hin; right; right; right; by left).
    refine (conj Hmin (conj Hmax _)).
    apply (feasible_holds _ v) in Hmin, Hmax, Hds, Hpm; try done.
    unfold min_team_size_constr in Hmin. unfold max_team_size_constr in Hmax.
    unfold skilled_constr in Hds, Hpm.
    rewrite holds_le_cmp_GE, eval_le_const in Hmin, Hds, Hpm.
    rewrite holds_le_cmp_LE, eval_le_const in Hmax.
    rewrite eval_team_expr in Hmin, Hmax.
    rewrite eval_skilled_expr in Hds, Hpm. done.
Qed.

Lemma terms_xsum_singletons {A} (g : A → LinExpr) (t : A → Q * Var) (l : list A) :
  (∀ a, terms (g a) = [t a]) → terms (xsum (g <$> l)) = t <$> l.
Proof.
  intros Hg. unfold xsum.
  assert (∀ a, terms (foldl le_add a (g <$> l)) = terms a ++ (t <$> l)) as Hgen.
  { induction l as [|b l IH]; intros a.
    - by rewrite app_nil_r.
    - rewrite !fmap_cons. cbn [foldl]. rewrite IH. simpl.
      by rewrite Hg, <- app_assoc. }
  by rewrite Hgen.
Qed.

Lemma const_xsum_zero {A} (g : A → LinExpr) (l : list A) :
  (∀ a, (const (g a) == 0)%Q) → (const (xsum (g <$> l)) == 0)%Q.
Proof.
  intros Hg. unfold xsum.
  assert (∀ a, (const (foldl le_add a (g <$> l)) == const a)%Q) as Hgen.
  { induction l as [|b l IH]; intros a; [reflexivity|].
    rewrite fmap_cons. cbn [foldl]. rewrite IH. simpl. rewrite Hg. lra. }
  by rewrite Hgen.
Qed.

Lemma nans_xsum_nil {A} (g : A → LinExpr) (l : list A) :
  (∀ a, nans (g a) = []) → nans (xsum (g <$> l)) = [].
Proof.
  intros Hg. unfold xsum.
  assert (∀ a, nans (foldl le_add a (g <$> l)) = nans a) as Hgen.
  { induction l as [|b l IH]; intros a; [done|].
    rewrite fmap_cons. cbn [foldl]. rewrite IH. simpl. by rewrite Hg, app_nil_r. }
  by rewrite Hgen.
Qed.

Lemma Forall2_fmap_same {A B C} (R : B → C → Prop) (f : A → B) (g : A → C)
    (l : list A) :
  (∀ a, a ∈ l → R (f a) (g a)) → Forall2 R (f <$> l) (g <$> l).
Proof.
  intros HR. apply Forall2_fmap. apply Forall_Forall2_diag.
  by apply Forall_forall.
Qed.

(** C3: the objective of the model built from a roster in which every
    student gave every project a number as rank is the priority term plus
    the diversity term and nothing else: one term per pair of a student and
    a project, with the rank the student gave the project as coefficient,
    then one term per project with coefficient 1 on its diversity
    coefficient, the constant 0 and no NaN coefficient; its value is the
    sum of the two terms, unweighted. *)
Theorem objective_is_priority_plus_diversity (df : DataFrame) (s : State) :
  build_model df = Ok s → well_formed df →
  same_expr (objective (m s))
    (mkLinExpr
       (((λ ip : nat * string, (num_at s ip.1 ip.2, x_at s ip.1 ip.2))
           <$> list_prod (students_range s) PROJECTS)
        ++ ((λ project, (1%Q, g_at s project)) <$> PROJECTS))
       0 NoSense [])
  ∧ ∀ v, (eval v (objective (m s)) == priority_term s v + diversity_term s v)%Q.
Proof.
  intros Hb Hwf. pose proof (priority_expr_numeric df s Hb Hwf) as Hprio.
  apply build_model_spec in Hb as (_ & _ & _ & Hobj).
  rewrite Hobj. split.
  - unfold same_expr. simpl. refine (conj _ (conj _ (conj _ _))).
    + apply Forall2_app.
      * rewrite Hprio.
        rewrite (terms_xsum_singletons _
                   (λ ip : nat * string, (num_at s ip.1 ip.2 * 1, x_at s ip.1 ip.2)%Q))
          by done.
        apply Forall2_fmap_same. intros ip _. simpl. split; [lra|done].
      * unfold diversity_expr.
        rewrite (terms_xsum_singletons _ (λ project, (1%Q, g_at s project))) by done.
        apply Forall2_fmap_same. intros p _. simpl. split; [lra|done].
    + rewrite Hprio. unfold diversity_expr.
      rewrite !const_xsum_zero; [lra| |].
      * intros p. reflexivity.
      * intros ip. simpl. lra.
    + apply sense_xsum.
    + rewrite Hprio. unfold diversity_expr. by rewrite !nans_xsum_nil.
  - intros v. rewrite eval_le_add, eval_priority_expr, eval_diversity_expr.
    reflexivity.
Qed.

(** ** The diversity coefficients in the built model *)

Lemma zeroed_lt (nx : nat) (v : Var → Q) (k : nat) : k < nx → zeroed nx v k = v k.
Proof. intros Hk. unfold zeroed. by rewrite (proj2 (Nat.ltb_lt _ _) Hk). Qed.

Lemma zeroed_ge (nx : nat) (v : Var → Q) (k : nat) : nx ≤ k → zeroed nx v k = 0%Q.
Proof. intros Hk. unfold zeroed. by rewrite (proj2 (Nat.ltb_ge _ _) Hk). Qed.

Lemma vars_of_scaled (s : State) (i : nat) (col p : string) :
  vars_of (scaled s i col p) = vars_of (le_var (x_at s i p)).
Proof.
  unfold scaled. destruct (loc_get (students s) i col) as [[q|?|]|?];
    by rewrite ?vars_of_le_scale.
Qed.

Lemma vars_of_xsum_fmap {A} (P : Var → Prop) (g : A → LinExpr) (l : list A) :
  (∀ a, a ∈ l → Forall P (vars_of (g a))) → Forall P (vars_of (xsum (g <$> l))).
Proof.
  intros Hg. apply vars_of_xsum. apply Forall_fmap. by apply Forall_forall.
Qed.

Lemma vars_of_cmp_const (P : Var → Prop) (sn : Sense) (e : LinExpr) (q : Q) :
  Forall P (vars_of e) → Forall P (vars_of (le_cmp sn e (le_const q))).
Proof. intros He. apply vars_of_le_cmp. split; [done|]. by rewrite vars_of_le_const. Qed.

(** No constraint of the model mentions a variable from [nx] on. *)
Lemma constraints_only_x (df : DataFrame) (s : State) (nx : nat) :
  build_model df = Ok s → declared s nx →
  ∀ c, c ∈ constrs (m s) → Forall (λ a, a < nx) (vars_of c).
Proof.
  intros Hb Hd c Hc. apply build_model_spec in Hb as (_ & _ & Hcs & _).
  rewrite Hcs in Hc. clear Hcs.
  assert (∀ i p, i ∈ students_range s → p ∈ PROJECTS →
                 Forall (λ a, a < nx) (vars_of (le_var (x_at s i p)))) as Hvar.
  { intros i p Hi%elem_of_students_range Hp. rewrite vars_of_le_var.
    constructor; [|constructor]. by apply x_at_lt. }
  apply elem_of_app in Hc as [Hc|Hc].
  - apply list_elem_of_fmap in Hc as (i & -> & Hi).
    apply vars_of_cmp_const, vars_of_xsum_fmap. intros p Hp. by apply Hvar.
  - apply list_elem_of_bind in Hc as (p & Hc & Hp).
    unfold project_constrs in Hc.
    assert (Forall (λ a, a < nx) (vars_of (team_expr s p))) as Hteam.
    { apply vars_of_xsum_fmap. intros i Hi. by apply Hvar. }
    assert (∀ col, Forall (λ a, a < nx) (vars_of (skilled_expr col s p))) as Hsk.
    { intros col. apply vars_of_xsum_fmap. intros i Hi.
      rewrite vars_of_scaled. by apply Hvar. }
    repeat (apply elem_of_cons in Hc as [->|Hc]); try by apply vars_of_cmp_const.
    by apply elem_of_nil in Hc.
Qed.

(** Setting the diversity coefficients to 0 keeps a solution feasible. *)
Lemma feasible_zeroed (df : DataFrame) (s : State) (nx : nat) (v : Var → Q) :
  build_model df = Ok s → declared s nx →
  feasible (m s) v → feasible (m s) (zeroed nx v).
Proof.
  intros Hb Hd [Hv Hc]. split.
  - intros k info Hk. destruct (decide (k < nx)) as [Hlt|Hge].
    + rewrite zeroed_lt by done. by apply Hv.
    + rewrite zeroed_ge by lia.
      destruct Hd as (_ & _ & _ & _ & Hfree).
      destruct (Hfree k info) as (Hlb & Hub & Hty); [lia|done|].
      unfold var_ok. rewrite Hlb, Hub, Hty. repeat split. lra.
  - rewrite Forall_forall in *. intros c Hin.
    apply (holds_agree v); [|by apply Hc].
    intros a Ha. pose proof (constraints_only_x df s nx Hb Hd c Hin) as Hx.
    rewrite Forall_forall in Hx. rewrite zeroed_lt; [reflexivity|by apply Hx].
Qed.

Lemma priority_term_zeroed (s : State) (nx : nat) (v : Var → Q) :
  declared s nx → (priority_term s (zeroed nx v) == priority_term s v)%Q.
Proof.
  intros Hd. unfold priority_term. apply Qsum_ext. intros [i p] Hip.
  apply list_elem_of_In, in_prod_iff in Hip as [Hi Hp].
  apply list_elem_of_In in Hi, Hp. apply elem_of_students_range in Hi.
  simpl. rewrite zeroed_lt; [reflexivity|by apply x_at_lt].
Qed.

Lemma diversity_term_zeroed (s : State) (nx : nat) (v : Var → Q) :
  declared s nx → (diversity_term s (zeroed nx v) == 0)%Q.
Proof.
  intros Hd. unfold diversity_term.
  rewrite (Qsum_ext _ (λ _, 0%Q)); [apply Qsum_zero|].
  intros p Hp. rewrite zeroed_ge; [reflexivity|]. by apply (g_at_ge s nx p Hd Hp).
Qed.

(** A diversity coefficient is a continuous variable with lower bound 0
    and without upper bound. *)
Lemma gender_diversity_info (s : State) (nx : nat) (p : string) :
  declared s nx → p ∈ PROJECTS →
  ∃ info, vars (m s) !! g_at s p = Some info ∧ free_nonneg info.
Proof.
  intros Hd Hp. destruct (g_at_ge s nx p Hd Hp) as (_ & Hge & Hlt).
  destruct (lookup_lt_is_Some_2 _ _ Hlt) as [info Hinfo].
  exists info. split; [done|].
  destruct Hd as (_ & _ & _ & _ & Hfree). by apply (Hfree (g_at s p)).
Qed.

Lemma gender_diversity_nonneg (s : State) (nx : nat) (v : Var → Q) (p : string) :
  declared s nx → feasible (m s) v → p ∈ PROJECTS → (0 <= v (g_at s p))%Q.
Proof.
  intros Hd [Hv _] Hp.
  destruct (gender_diversity_info s nx p Hd Hp) as (info & Hinfo & Hlb & _).
  destruct (Hv _ _ Hinfo) as (Hle & _). by rewrite Hlb in Hle.
Qed.

(** C9: in the built model every diversity coefficient is a continuous
    variable bounded below by 0 and not bounded above, no constraint
    mentions it, and so in every optimal solution it is 0 for every project
    and the optimal objective value is the least value of the priority term
    over the feasible solutions, whatever the genders in the teams. *)
Theorem gender_diversity_unconstrained (df : DataFrame) (s : State) :
  build_model df = Ok s →
  (∀ project, project ∈ PROJECTS →
     (∃ info, vars (m s) !! g_at s project = Some info ∧ free_nonneg info)
     ∧ ∀ c, c ∈ constrs (m s) → g_at s project ∉ vars_of c)
  ∧ ∀ v, optimal (m s) v →
      (∀ project, project ∈ PROJECTS → (v (g_at s project) == 0)%Q)
      ∧ (eval v (objective (m s)) == priority_term s v)%Q
      ∧ ∀ v', feasible (m s) v' → (priority_term s v <= priority_term s v')%Q.
Proof.
  intros Hb. split.
  - destruct (build_model_spec _ _ Hb) as (_ & (nx & Hd) & _ & _).
    intros p Hp. split; [by apply (gender_diversity_info s nx)|].
    intros c Hc Hin.
    pose proof (constraints_only_x df s nx Hb Hd c Hc) as Hx.
    rewrite Forall_forall in Hx. specialize (Hx _ Hin).
    destruct (g_at_ge s nx p Hd Hp) as (_ & Hge & _). lia.
  - intros v (Hfeas & _ & Hopt).
    destruct (build_model_spec _ _ Hb) as (_ & (nx & Hd) & _ & Hobj).
    assert (∀ w, eval w (objective (m s)) == priority_term s w + diversity_term s w)%Q
      as Hval.
    { intros w. rewrite Hobj, eval_le_add, eval_priority_expr, eval_diversity_expr.
      reflexivity. }
    assert (∀ w, feasible (m s) w →
                 eval (zeroed nx w) (objective (m s)) == priority_term s w)%Q as Hz.
    { intros w _. rewrite Hval, priority_term_zeroed, diversity_term_zeroed by done. lra. }
    assert (∀ p, p ∈ PROJECTS → (v (g_at s p) == 0)%Q) as Hzero.
    { apply Qsum_nonneg_zero.
      - intros p Hp. by apply (gender_diversity_nonneg s nx).
      - fold (diversity_term s v).
        pose proof (Hopt _ (feasible_zeroed df s nx v Hb Hd Hfeas)) as Hle.
        rewrite Hz, Hval in Hle by done. lra. }
    assert (diversity_term s v == 0)%Q as Hdiv.
    { unfold diversity_term. rewrite (Qsum_ext _ (λ _, 0%Q)); [apply Qsum_zero|done]. }
    refine (conj Hzero (conj _ _)).
    + rewrite Hval, Hdiv. lra.
    + intros v' Hfeas'.
      pose proof (Hopt _ (feasible_zeroed df s nx v' Hb Hd Hfeas')) as Hle.
      rewrite Hz, Hval, Hdiv in Hle by done. lra.
Qed.

(** ** The output cell *)

Lemma is_one_iff (value : option Q) :
  is_one value = true ↔ ∃ q, value = Some q ∧ (q == 1)%Q.
Proof.
  destruct value as [q|]; simpl.
  - rewrite Qeq_bool_iff. split; [by exists q|]. by intros (q' & [= <-] & Hq).
  - split; [done|]. by intros (q' & [=] & _).
Qed.

(** The last item satisfying a test, or the start value. *)
Lemma foldl_last_match {A} (test : A → bool) (acc : A) (l : list A) :
  let r := foldl (λ acc a, if test a then a else acc) acc l in
  (r = acc ∧ ∀ a, a ∈ l → test a = false) ∨ (r ∈ l ∧ test r = true).
Proof.
  revert acc. induction l as [|a l IH]; intros acc; simpl.
  - left. split; [done|]. intros a Ha. by apply elem_of_nil in Ha.
  - destruct (test a) eqn:Ha.
    + destruct (IH a) as [[Hr Hl]|[Hr Ht]].
      * right. rewrite Hr. split; [by left|done].
      * right. split; [by right|done].
    + destruct (IH acc) as [[Hr Hl]|[Hr Ht]].
      * left. split; [done|]. intros a' [->|Ha']%elem_of_cons; [done|by apply Hl].
      * right. split; [by right|done].
Qed.

(** The same, with the place of the last item satisfying the test. *)
Lemma foldl_last_split {A} (test : A → bool) (acc : A) (l : list A) :
  (foldl (λ acc a, if test a then a else acc) acc l = acc
   ∧ ∀ a, a ∈ l → test a = false)
  ∨ ∃ before after,
      l = before ++ foldl (λ acc a, if test a then a else acc) acc l :: after
      ∧ test (foldl (λ acc a, if test a then a else acc) acc l) = true
      ∧ ∀ a, a ∈ after → test a = false.
Proof.
  revert acc. induction l as [|a l IH]; intros acc; cbn [foldl].
  - left. split; [done|]. intros a Ha. by apply elem_of_nil in Ha.
  - destruct (test a) eqn:Ha.
    + destruct (IH a) as [[Hr Hl]|(before & after & Hsplit & Ht & Hafter)].
      * right. exists [], l. rewrite Hr. by repeat split.
      * right. exists (a :: before), after. split; [|done].
        rewrite <- app_comm_cons. by f_equal.
    + destruct (IH acc) as [[Hr Hl]|(before & after & Hsplit & Ht & Hafter)].
      * left. split; [done|]. intros a' [->|Ha']%elem_of_cons; [done|by apply Hl].
      * right. exists (a :: before), after. split; [|done].
        rewrite <- app_comm_cons. by f_equal.
Qed.

Lemma loc_set_lookup (df : DataFrame) (i : nat) (col : string) (v : cell) (r : Row) :
  df !! i = Some r → loc_set df i col v = <[i := <[col := v]> r]> df.
Proof. intros Hr. unfold loc_set. by rewrite Hr. Qed.

(** The inner loop of the output cell on the row of student [i]. *)
Lemma write_output_row (s : State) (nx : nat) (sol : Var → option Q) (i : nat)
    (ps : list string) (df : DataFrame) (r : Row) (acc : string) :
  declared s nx → i < number_students s → (∀ p, p ∈ ps → p ∈ PROJECTS) →
  df !! i = Some r → r !! "assigned_project" = Some (Str acc) →
  for_in ps (λ project students,
      v ← x_get (x s) i project;
      if is_one (sol v)
      then Ok (loc_set students i "assigned_project" (Str project))
      else Ok students) df
  = Ok (<[i := <["assigned_project" :=
                   Str (foldl (λ acc project,
                                 if is_one (sol (x_at s i project)) then project else acc)
                              acc ps)]> r]> df).
Proof.
  intros Hd Hi. revert df r acc. induction ps as [|p ps IH]; intros df r acc Hps Hr Hacc.
  - simpl. by rewrite (insert_id r), list_insert_id.
  - cbn [for_in foldl].
    destruct (x_at_lt s nx i p Hd Hi) as [-> _]; [apply Hps; by left|]. simpl.
    assert (∀ p', p' ∈ ps → p' ∈ PROJECTS) as Hps' by (intros p' Hp'; apply Hps; by right).
    destruct (is_one (sol (x_at s i p))); simpl.
    + rewrite (loc_set_lookup _ _ _ _ _ Hr).
      rewrite (IH _ (<["assigned_project" := Str p]> r) p); [|done| |].
      * by rewrite insert_insert_eq, list_insert_insert_eq.
      * apply list_lookup_insert_eq. by eapply lookup_lt_Some.
      * by rewrite lookup_insert_eq.
    + by apply IH.
Qed.

Lemma write_output_rows (s : State) (nx : nat) (sol : Var → option Q) (len k : nat)
    (df : DataFrame) :
  declared s nx → k + len ≤ number_students s →
  (∀ j, k ≤ j < k + len → ∃ r, df !! j = Some r ∧ r !! "assigned_project" = Some (Str "")) →
  ∃ df', for_in (seq k len) (λ i students,
           for_in PROJECTS (λ project students,
             v ← x_get (x s) i project;
             if is_one (sol v)
             then Ok (loc_set students i "assigned_project" (Str project))
             else Ok students) students) df = Ok df'
    ∧ ∀ j, df' !! j =
        if decide (k ≤ j < k + len)
        then (λ r : Row, <["assigned_project" := Str (assigned_project s sol j)]> r)
               <$> df !! j
        else df !! j.
Proof.
  intros Hd. revert k df. induction len as [|len IH]; intros k df Hlen Hrows.
  - exists df. split; [done|]. intros j. case_decide; [lia|done].
  - cbn [seq for_in].
    destruct (Hrows k) as (r & Hr & Hap); [lia|].
    rewrite (write_output_row s nx sol k PROJECTS df r "" Hd); [|lia|done|done|done].
    simpl. fold (assigned_project s sol k).
    destruct (IH (S k) (<[k := <["assigned_project" := Str (assigned_project s sol k)]> r]> df))
      as (df' & -> & Hdf'); [lia| |].
    { intros j Hj. rewrite list_lookup_insert_ne by lia. apply Hrows. lia. }
    exists df'. split; [done|]. intros j. rewrite Hdf'.
    destruct (decide (j = k)) as [->|Hne].
    + rewrite list_lookup_insert_eq by (by eapply lookup_lt_Some).
      rewrite Hr. repeat case_decide; try lia. done.
    + rewrite list_lookup_insert_ne by done. repeat case_decide; try lia; done.
Qed.

Lemma build_model_length (df : DataFrame) (s : State) :
  build_model df = Ok s → length (students s) = number_students s.
Proof.
  intros Hb. apply build_model_spec in Hb as (Hprep & _).
  by apply data_preparation_rows in Hprep as [-> _].
Qed.

(** The output cell never raises: it writes, for every student, the last
    project whose value is exactly 1. *)
Lemma write_output_extracted (df : DataFrame) (s : State) (sol : Var → option Q) :
  build_model df = Ok s → write_output s sol = Ok (extracted s sol).
Proof.
  intros Hb. pose proof (build_model_length _ _ Hb) as Hlen.
  destruct (build_model_spec _ _ Hb) as (_ & (nx & Hd) & _).
  unfold write_output.
  destruct (write_output_rows s nx sol (number_students s) 0
              (setitem_col (students s) "assigned_project" (Str "")) Hd)
    as (df' & -> & Hdf'); [lia| |].
  { intros j Hj. unfold setitem_col. rewrite list_lookup_fmap.
    destruct (lookup_lt_is_Some_2 (students s) j) as [r ->]; [lia|].
    eexists. split; [done|]. by rewrite lookup_insert_eq. }
  f_equal. apply list_eq. intros j. rewrite Hdf'. unfold extracted, setitem_col.
  rewrite list_lookup_imap, list_lookup_fmap.
  destruct (students s !! j) as [r|] eqn:Hr; simpl.
  - apply lookup_lt_Some in Hr. case_decide; [|lia]. by rewrite insert_insert_eq.
  - by case_decide.
Qed.

Lemma notebook_extracted (df : DataFrame) (s : State)
    (optimize : Model → OptimizationStatus * (Var → option Q)) :
  build_model df = Ok s →
  notebook optimize df = Ok ((optimize (m s)).1, extracted s (optimize (m s)).2).
Proof.
  intros Hb. unfold notebook. rewrite Hb. simpl.
  destruct (optimize (m s)) as [status sol]. simpl.
  by rewrite (write_output_extracted df).
Qed.

Lemma extracted_lookup (s : State) (sol : Var → option Q) (i : nat) :
  i < length (students s) →
  ∃ r, extracted s sol !! i = Some r
    ∧ r !! "assigned_project" = Some (Str (assigned_project s sol i)).
Proof.
  intros Hi. destruct (lookup_lt_is_Some_2 (students s) i Hi) as [r Hr].
  exists (<["assigned_project" := Str (assigned_project s sol i)]> r).
  unfold extracted. rewrite list_lookup_imap, Hr. split; [done|].
  by rewrite lookup_insert_eq.
Qed.

(** C5, as the notebook behaves: the output cell does not round.  The
    project written for a student is the last project of PROJECTS whose
    solved value is exactly 1: it has the value 1 and no project after it
    in PROJECTS has; when no project has the value exactly 1 the empty
    string stays.  So a project whose value is not exactly 1 (0.9999997,
    say) is never written, and a project that is the only one with value
    exactly 1 is written. *)
Theorem extraction_compares_exactly (df : DataFrame) (s : State)
    (sol : Var → option Q) (i : nat) :
  build_model df = Ok s → i < number_students s →
  ∃ out r a,
    write_output s sol = Ok out ∧ out !! i = Some r
    ∧ r !! "assigned_project" = Some (Str a)
    ∧ ((a = ""
        ∧ ∀ project, project ∈ PROJECTS →
            ¬ ∃ q, sol (x_at s i project) = Some q ∧ (q == 1)%Q)
       ∨ ∃ before after,
           PROJECTS = before ++ a :: after
           ∧ (∃ q, sol (x_at s i a) = Some q ∧ (q == 1)%Q)
           ∧ ∀ project, project ∈ after →
               ¬ ∃ q, sol (x_at s i project) = Some q ∧ (q == 1)%Q)
    ∧ (∀ project, project ∈ PROJECTS → project ≠ "" →
         (∀ q, sol (x_at s i project) = Some q → ¬ (q == 1)%Q) → a ≠ project)
    ∧ (∀ project, project ∈ PROJECTS →
         (∃ q, sol (x_at s i project) = Some q ∧ (q == 1)%Q) →
         (∀ p', p' ∈ PROJECTS → is_one (sol (x_at s i p')) = true → p' = project) →
         a = project).
Proof.
  intros Hb Hi. rewrite <- (build_model_length _ _ Hb) in Hi.
  destruct (extracted_lookup s sol i Hi) as (r & Hr & Hap).
  exists (extracted s sol), r, (assigned_project s sol i).
  rewrite (write_output_extracted df) by done.
  refine (conj eq_refl (conj Hr (conj Hap _))).
  pose proof (foldl_last_match (λ p, is_one (sol (x_at s i p))) "" PROJECTS) as Hlast.
  simpl in Hlast. fold (assigned_project s sol i) in Hlast.
  refine (conj _ (conj _ _)).
  - destruct (foldl_last_split (λ p, is_one (sol (x_at s i p))) "" PROJECTS)
      as [[Ha Hnone]|(before & after & Hsplit & Ht & Hafter)];
      fold (assigned_project s sol i) in *.
    + left. split; [done|]. intros p Hp Hq%is_one_iff.
      by rewrite (Hnone p Hp) in Hq.
    + right. exists before, after. split; [done|]. split; [by apply is_one_iff|].
      intros p Hp Hq%is_one_iff. by rewrite (Hafter p Hp) in Hq.
  - intros p Hp Hne Hnot Heq. destruct Hlast as [[Ha _]|[_ Ht]]; [congruence|].
    rewrite Heq in Ht. apply is_one_iff in Ht as (q & Hq & Hq1). by apply (Hnot q).
  - intros p Hp Hq%is_one_iff Huniq. destruct Hlast as [[_ Hnone]|[Hin Ht]].
    + rewrite (Hnone p Hp) in Hq. done.
    + by apply Huniq.
Qed.

(** C6, as the notebook behaves: the output cell checks nothing about the
    mapping it extracts.  Whatever status and values the solve returns,
    also values whose mapping leaves a student without project or a project
    without skilled member, the notebook raises nothing and exports the
    roster with the extracted project of every student. *)
Theorem extraction_unchecked (df : DataFrame) (s : State)
    (optimize : Model → OptimizationStatus * (Var → option Q)) :
  build_model df = Ok s →
  ∃ status sol,
    optimize (m s) = (status, sol)
    ∧ notebook optimize df = Ok (status, extracted s sol)
    ∧ length (extracted s sol) = number_students s.
Proof.
  intros Hb. exists (optimize (m s)).1, (optimize (m s)).2.
  split; [by destruct (optimize (m s))|].
  split; [by apply notebook_extracted|].
  unfold extracted. rewrite length_imap. by apply (build_model_length df).
Qed.

(** C7, as the notebook behaves: the status of the solve is not looked at.
    When the solve ends INFEASIBLE, UNBOUNDED or ERROR and no variable has a
    value, the output cell still runs and the roster is exported, with the
    empty string as every student's project; the status is the one the
    solve returned. *)
Theorem no_solution_still_written (df : DataFrame) (s : State)
    (optimize : Model → OptimizationStatus * (Var → option Q))
    (status : OptimizationStatus) (sol : Var → option Q) :
  build_model df = Ok s →
  optimize (m s) = (status, sol) →
  status ∈ [INFEASIBLE; UNBOUNDED; ERROR] →
  (∀ v, sol v = None) →
  notebook optimize df
  = Ok (status, setitem_col (students s) "assigned_project" (Str "")).
Proof.
  intros Hb Hopt _ Hnone. rewrite (notebook_extracted df s) by done.
  rewrite Hopt. simpl. do 2 f_equal.
  unfold extracted, setitem_col. rewrite <- imap_const. apply imap_ext.
  intros i r _. simpl. do 2 f_equal.
  unfold assigned_project.
  destruct (foldl_last_match (λ p, is_one (sol (x_at s i p))) "" PROJECTS)
    as [[Ha _]|[_ Ht]]; [done|].
  simpl in Ht. by rewrite Hnone in Ht.
Qed.

(** C10: whatever the solve returns, the notebook raises nothing and the
    roster is exported; a student none of whose values compares equal to 1
    keeps the empty string as assigned project. *)
Theorem unassigned_student_keeps_empty_string (df : DataFrame) (s : State)
    (optimize : Model → OptimizationStatus * (Var → option Q)) :
  build_model df = Ok s →
  ∃ out,
    write_output s (optimize (m s)).2 = Ok out
    ∧ notebook optimize df = Ok ((optimize (m s)).1, out)
    ∧ ∀ i, i < number_students s →
        (∀ project, project ∈ PROJECTS →
           is_one ((optimize (m s)).2 (x_at s i project)) = false) →
        loc_get out i "assigned_project" = Ok (Str "").
Proof.
  intros Hb. exists (extracted s (optimize (m s)).2).
  split; [by apply (write_output_extracted df)|].
  split; [by apply notebook_extracted|].
  intros i Hi Hnone. rewrite <- (build_model_length _ _ Hb) in Hi.
  destruct (extracted_lookup s (optimize (m s)).2 i Hi) as (r & Hr & Hap).
  unfold loc_get, getitem. rewrite Hr, Hap. do 2 f_equal.
  unfold assigned_project.
  destruct (foldl_last_match (λ p, is_one ((optimize (m s)).2 (x_at s i p))) "" PROJECTS)
    as [[Ha _]|[Hin Ht]]; [done|].
  simpl in Hin, Ht. by rewrite (Hnone _ Hin) in Ht.
Qed.

(** ** The notebook runs on every well formed roster *)

Lemma summand_var_Ok (s : State) (nx i : nat) (p : string) :
  declared s nx → i < number_students s → p ∈ PROJECTS →
  is_Ok (le_var <$> x_get (x s) i p).
Proof.
  intros Hd Hi Hp. destruct (x_at_lt s nx i p Hd Hi Hp) as [-> _]. by eexists.
Qed.

Lemma num_is_float (r : result cell) :
  (∃ q, r = Ok (Num q)) → ∃ c, r = Ok c ∧ ∀ str, c ≠ Str str.
Proof. intros [q ->]. by exists (Num q). Qed.

(** The products of the notebook raise nothing on a number or a missing
    value. *)
Lemma summand_scaled_Ok (s : State) (nx i : nat) (col p : string) :
  declared s nx → i < number_students s → p ∈ PROJECTS →
  (∃ c, loc_get (students s) i col = Ok c ∧ ∀ str, c ≠ Str str) →
  is_Ok (c ← loc_get (students s) i col; v ← x_get (x s) i p; cell_mul c v)
  ∧ is_Ok (v ← x_get (x s) i p; c ← loc_get (students s) i col; cell_mul c v)
  ∧ is_Ok (v ← x_get (x s) i p; c ← loc_get (students s) i col;
           c' ← cell_rsub 1 c; cell_mul c' v).
Proof.
  intros Hd Hi Hp (c & Hc & Hfloat). destruct (x_at_lt s nx i p Hd Hi Hp) as [Hx _].
  rewrite Hx, Hc. simpl.
  destruct c as [q|str|]; [|by destruct (Hfloat str)|]; simpl; repeat split; by eexists.
Qed.

Lemma impose_strict_requirements_total (s : State) (nx : nat) :
  declared s nx →
  (∀ i, i < number_students s →
     (∃ q, loc_get (students s) i "data_science_skilled" = Ok (Num q))
     ∧ ∃ q, loc_get (students s) i "project_management_skilled" = Ok (Num q)) →
  is_Ok (impose_strict_requirements s).
Proof.
  intros Hd Hflags. unfold impose_strict_requirements.
  destruct (for_in_Ok_intro (λ _, True)
              (λ i m, e ← xsum_for PROJECTS (λ project, le_var <$> x_get (x s) i project);
                      Ok (model_iadd m (le_cmp EQ e (le_const 1))))
              (seq 0 (number_students s)) (m s) I) as (m0 & -> & _).
  { intros i m1 Hi%elem_of_students_range _.
    destruct (xsum_for_Ok_intro PROJECTS (λ project, le_var <$> x_get (x s) i project))
      as [e ->]; [|by eexists].
    intros p Hp. by apply (summand_var_Ok s nx). }
  simpl.
  match goal with
  | |- is_Ok (for_in PROJECTS ?body m0) =>
      destruct (for_in_Ok_intro (λ _, True) body PROJECTS m0 I) as (m1 & -> & _);
        [|by eexists]
  end.
  intros p m1 Hp _.
  destruct (xsum_for_Ok_intro (seq 0 (number_students s))
              (λ i, le_var <$> x_get (x s) i p)) as [e1 ->].
  { intros i Hi%elem_of_students_range. by apply (summand_var_Ok s nx). }
  simpl.
  destruct (xsum_for_Ok_intro (seq 0 (number_students s))
              (λ i, c ← loc_get (students s) i "data_science_skilled";
                    v ← x_get (x s) i p; cell_mul c v)) as [e3 ->].
  { intros i Hi%elem_of_students_range.
    apply (summand_scaled_Ok s nx); [done..|]. apply num_is_float. by apply Hflags. }
  simpl.
  destruct (xsum_for_Ok_intro (seq 0 (number_students s))
              (λ i, c ← loc_get (students s) i "project_management_skilled";
                    v ← x_get (x s) i p; cell_mul c v)) as [e4 ->].
  { intros i Hi%elem_of_students_range.
    apply (summand_scaled_Ok s nx); [done..|]. apply num_is_float. by apply Hflags. }
  simpl. by eexists.
Qed.

Lemma impose_objective_function_total (s : State) (nx : nat) (m1 : Model) :
  declared s nx →
  (∀ i, i < number_students s → ∃ q, loc_get (students s) i "is_male" = Ok (Num q)) →
  (∀ i p, i < number_students s → p ∈ PROJECTS →
     ∃ c, loc_get (students s) i p = Ok c ∧ ∀ str, c ≠ Str str) →
  is_Ok (impose_objective_function s m1).
Proof.
  intros Hd Hmale Hrank. unfold impose_objective_function.
  destruct (xsum_for_Ok_intro (list_prod (seq 0 (number_students s)) PROJECTS)
              (λ ip, c ← iloc_get (students s) ip.1 ip.2;
                     v ← x_get (x s) ip.1 ip.2; cell_mul c v)) as [prio ->].
  { intros [i p] Hip. apply list_elem_of_In, in_prod_iff in Hip as [Hi Hp].
    apply list_elem_of_In in Hi, Hp. apply elem_of_students_range in Hi.
    apply (summand_scaled_Ok s nx); [done..|]. by apply Hrank. }
  simpl.
  match goal with
  | |- is_Ok (for_in PROJECTS ?body m1 ≫= _) =>
      destruct (for_in_Ok_intro (λ _, True) body PROJECTS m1 I) as (m2 & -> & _)
  end.
  { intros p m2 Hp _.
    destruct (xsum_for_Ok_intro (seq 0 (number_students s))
                (λ i, v ← x_get (x s) i p; c ← loc_get (students s) i "is_male";
                      cell_mul c v)) as [males ->].
    { intros i Hi%elem_of_students_range.
      apply (summand_scaled_Ok s nx); [done..|]. apply num_is_float. by apply Hmale. }
    simpl.
    destruct (xsum_for_Ok_intro (seq 0 (number_students s))
                (λ i, v ← x_get (x s) i p; c ← loc_get (students s) i "is_male";
                      c' ← cell_rsub 1 c; cell_mul c' v)) as [females ->].
    { intros i Hi%elem_of_students_range.
      apply (summand_scaled_Ok s nx); [done..|]. apply num_is_float. by apply Hmale. }
    simpl. destruct (g_at_ge s nx p Hd Hp) as [-> _]. simpl. by eexists. }
  simpl.
  destruct (xsum_for_Ok_intro PROJECTS
              (λ project, le_var <$> getitem (gender_diversity s) project)) as [gd ->].
  { intros p Hp. destruct (g_at_ge s nx p Hd Hp) as [-> _]. by eexists. }
  simpl. by eexists.
Qed.

Lemma build_model_total (df : DataFrame) :
  well_formed df → is_Ok (build_model df).
Proof.
  intros Hwf. unfold build_model.
  destruct (data_preparation_total df) as [df' Hprep].
  { eapply Forall_impl; [done|]. by intros r [Hr _]. }
  rewrite Hprep. simpl.
  destruct (data_preparation_rows _ _ _ Hprep) as [Hlen Hrows].
  destruct (declare_decision_variables_spec df' (length df))
    as (Hst & Hn & _ & nx & Hd).
  set (s0 := declare_decision_variables df' (length df) new_model) in *.
  assert (∀ i p, i < number_students s0 →
            p ∈ ["data_science_skilled"; "project_management_skilled"; "is_male"]
            ∨ p ∈ PROJECTS →
            ∃ q, loc_get (students s0) i p = Ok (Num q)) as Hnum.
  { intros i p Hi Hp. rewrite Hst. rewrite Hn in Hi.
    destruct (lookup_lt_is_Some_2 df i Hi) as [r Hr].
    destruct (Forall2_lookup_l _ _ _ _ _ Hrows Hr)
      as (r' & Hr' & ds & pm & g & b_ds & b_pm & _ & _ & _ & _ & _ & ->).
    unfold well_formed in Hwf. rewrite Forall_forall in Hwf.
    destruct (Hwf r) as [_ Hproj]; [by eapply list_elem_of_lookup_2|].
    unfold loc_get, getitem. rewrite Hr'.
    destruct (classified_numeric b_ds b_pm (cell_eq_str "Male" g) r p) as [q ->];
      [|by eexists].
    destruct Hp as [Hp|Hp]; [by left|by apply Hproj]. }
  destruct (impose_strict_requirements_total s0 nx Hd) as [m1 ->].
  { intros i Hi. split; apply Hnum; try done; left; set_solver. }
  simpl.
  destruct (impose_objective_function_total s0 nx m1 Hd) as [m2 ->].
  - intros i Hi. apply Hnum; [done|]. left. set_solver.
  - intros i p Hi Hp. apply num_is_float. apply Hnum; [done|]. by right.
  - by eexists.
Qed.

(** ** The executable checks are sound *)

Lemma integralb_sound (q : Q) : integralb q = true → integral q.
Proof.
  unfold integralb, integral. intros H%Z.eqb_eq.
  exists (Qnum q / Z.pos (Qden q))%Z. unfold Qeq, inject_Z. simpl.
  rewrite Z.mul_1_r. rewrite Z.mul_comm. by apply Z.div_exact.
Qed.

Lemma var_okb_sound (info : VarInfo) (q : Q) : var_okb info q = true → var_ok info q.
Proof.
  unfold var_okb, var_ok. intros [[Hlb Hub]%andb_prop Hty]%andb_prop.
  apply Qle_bool_iff in Hlb. refine (conj Hlb (conj _ _)).
  - destruct (var_ub info); [by apply Qle_bool_iff|done].
  - destruct (var_type info); [by apply integralb_sound|done|by apply integralb_sound].
Qed.

Lemma holdsb_sound (v : Var → Q) (e : LinExpr) : holdsb v e = true → holds v e.
Proof.
  unfold holdsb, holds. destruct (sense e); [done| | |].
  - apply Qeq_bool_iff.
  - apply Qle_bool_iff.
  - apply Qle_bool_iff.
Qed.

Lemma feasibleb_sound (m : Model) (v : Var → Q) : feasibleb m v = true → feasible m v.
Proof.
  unfold feasibleb, feasible. intros [Hv Hc]%andb_prop. split.
  - intros i info Hi. rewrite forallb_forall in Hv.
    apply var_okb_sound. apply (Hv (i, info)).
    apply list_elem_of_In, elem_of_lookup_imap. by exists i, info.
  - apply Forall_forall. intros c Hin. rewrite forallb_forall in Hc.
    apply holdsb_sound, Hc. by apply list_elem_of_In.
Qed.

(** What the two linking constraints of a project say of a solution. *)
Lemma linking_constraints_meaning (s : State) (v : Var → Q) (p : string) :
  (holds v (linking_constr_pos s p)
     ↔ (male_count s v p - female_count s v p <= v (g_at s p))%Q)
  ∧ (holds v (linking_constr_neg s p)
     ↔ (female_count s v p - male_count s v p <= v (g_at s p))%Q).
Proof.
  unfold linking_constr_pos, linking_constr_neg.
  rewrite !holds_le_cmp_GE, eval_le_sub, eval_le_add, eval_le_neg, eval_le_var,
    eval_number_of_males, eval_number_of_females.
  split; split; intros; lra.
Qed.

(** The two linking constraints of a project mention its diversity
    coefficient, so they are not among the constraints of the model. *)
Lemma linking_constraints_absent (df : DataFrame) (s : State) (p : string) :
  build_model df = Ok s → p ∈ PROJECTS →
  (linking_constr_pos s p ∉ constrs (m s))
  ∧ (linking_constr_neg s p ∉ constrs (m s)).
Proof.
  intros Hb Hp. destruct (build_model_spec _ _ Hb) as (_ & (nx & Hd) & _ & _).
  destruct (g_at_ge s nx p Hd Hp) as (_ & Hge & _).
  split; intros Hin; apply (constraints_only_x df s nx Hb Hd) in Hin;
    unfold linking_constr_pos, linking_constr_neg in Hin;
    apply vars_of_le_cmp in Hin as [Hin _]; rewrite vars_of_le_var in Hin;
    apply Forall_cons in Hin as [Hlt _]; lia.
Qed.

(** The value of the objective. *)
Lemma objective_value (df : DataFrame) (s : State) (v : Var → Q) :
  build_model df = Ok s →
  (eval v (objective (m s)) == priority_term s v + diversity_term s v)%Q.
Proof.
  intros Hb. apply build_model_spec in Hb as (_ & _ & _ & ->).
  rewrite eval_le_add, eval_priority_expr, eval_diversity_expr. reflexivity.
Qed.

Lemma diversity_term_nonneg (df : DataFrame) (s : State) (v : Var → Q) :
  build_model df = Ok s → feasible (m s) v → (0 <= diversity_term s v)%Q.
Proof.
  intros Hb Hf. destruct (build_model_spec _ _ Hb) as (_ & (nx & Hd) & _ & _).
  apply Qsum_nonneg. intros p Hp. by apply (gender_diversity_nonneg s nx).
Qed.

(** ** Text and missing values in the roster *)

Lemma has_col_setitem_col (col c : string) (v : cell) (df : DataFrame) :
  Forall (λ r : Row, is_Some (r !! col)) df →
  Forall (λ r : Row, is_Some (r !! col)) (setitem_col df c v).
Proof.
  intros Hdf. unfold setitem_col. apply Forall_fmap.
  eapply Forall_impl; [done|]. intros r Hr. simpl.
  apply lookup_insert_is_Some'. by right.
Qed.

Lemma has_col_loc_mask_set (col c : string) (v : cell) (mask : list bool)
    (df : DataFrame) :
  Forall (λ r : Row, is_Some (r !! col)) df →
  Forall (λ r : Row, is_Some (r !! col)) (loc_mask_set df mask c v).
Proof.
  intros Hdf. unfold loc_mask_set. revert mask.
  induction Hdf as [|r df Hr _ IH]; intros [|b mask]; simpl; try constructor.
  - destruct b; [|done]. apply lookup_insert_is_Some'. by right.
  - apply IH.
Qed.

Lemma mapM_result {A B} (f : A → result B) (e : exn) (l : list A) :
  (∀ a, a ∈ l → is_Ok (f a) ∨ f a = Raise e) →
  is_Ok (mapM f l) ∨ mapM f l = Raise e.
Proof.
  induction l as [|a l IH]; intros Hall; [left; by eexists|].
  destruct IH as [[k Hk]|Hk]; [intros a' Ha'; apply Hall; by right|..];
    (destruct (Hall a) as [[b Hb]|Hb]; [by left|..]); simpl; rewrite Hb; simpl;
    rewrite ?Hk; simpl; first [by right|left; by eexists].
Qed.

(** The comparison of a column that exists returns a mask or raises a
    TypeError, nothing else. *)
Lemma col_ge_result (df : DataFrame) (col : string) (t : Q) :
  Forall (λ r : Row, is_Some (r !! col)) df →
  is_Ok (col_ge df col t) ∨ col_ge df col t = Raise TypeError.
Proof.
  intros Hdf. apply mapM_result. rewrite Forall_forall in Hdf.
  intros r [c Hc]%Hdf. unfold getitem. rewrite Hc.
  destruct c as [q|str|]; [left; by eexists|by right|left; by eexists].
Qed.

Lemma col_eq_Ok (df : DataFrame) (col s : string) :
  Forall (λ r : Row, is_Some (r !! col)) df → is_Ok (col_eq df col s).
Proof.
  intros Hdf. apply mapM_is_Ok. eapply Forall_impl; [done|].
  intros r [c Hc]. cbv beta. unfold getitem. rewrite Hc. by eexists.
Qed.

Lemma data_preparation_result (df : DataFrame) :
  Forall (λ r : Row, is_Some (r !! "ds_skill")) df →
  Forall (λ r : Row, is_Some (r !! "pm_skill")) df →
  Forall (λ r : Row, is_Some (r !! "gender")) df →
  is_Ok (data_preparation df) ∨ data_preparation df = Raise TypeError.
Proof.
  intros Hds Hpm Hg. unfold data_preparation.
  match goal with
  | |- context [col_ge ?d "ds_skill" ?t] =>
      destruct (col_ge_result d "ds_skill" t) as [[mask1 ->]| ->];
        [by apply has_col_setitem_col| |by right]
  end.
  simpl.
  match goal with
  | |- context [col_ge ?d "pm_skill" ?t] =>
      destruct (col_ge_result d "pm_skill" t) as [[mask2 ->]| ->];
        [by apply has_col_setitem_col, has_col_loc_mask_set, has_col_setitem_col|
        |by right]
  end.
  simpl.
  match goal with
  | |- context [col_eq ?d "gender" ?g] =>
      destruct (col_eq_Ok d "gender" g) as [mask3 ->]
  end.
  { repeat (first [apply has_col_setitem_col | apply has_col_loc_mask_set]). done. }
  left. by eexists.
Qed.

(** A text in a score column stops the data preparation with a TypeError. *)
Lemma text_score_raises (df : DataFrame) :
  Forall complete_row df →
  (∃ r str, r ∈ df
     ∧ (r !! "ds_skill" = Some (Str str) ∨ r !! "pm_skill" = Some (Str str))) →
  data_preparation df = Raise TypeError.
Proof.
  intros Hc (r & str & Hr & Hstr).
  destruct (data_preparation_result df) as [[[df' n] Hok]|Hraise]; [..|done].
  1-3: eapply Forall_impl; [exact Hc|]; by intros ? (? & ? & ? & _).
  exfalso. destruct (data_preparation_rows _ _ _ Hok) as [_ Hrows].
  apply list_elem_of_lookup in Hr as [i Hi].
  destruct (Forall2_lookup_l _ _ _ _ _ Hrows Hi)
    as (r' & _ & ds & pm & g & b_ds & b_pm & Hds & Hbds & Hpm & Hbpm & _).
  destruct Hstr as [H|H]; rewrite H in *;
    [injection Hds as <-|injection Hpm as <-]; discriminate.
Qed.

(** The cells of the prepared roster: a flag is a number, every other cell
    is the cell of the input. *)
Lemma prepared_cells (df df' : DataFrame) (n i : nat) (r : Row) (col : string) :
  data_preparation df = Ok (df', n) → df !! i = Some r →
  (col ∈ flag_columns → ∃ q, loc_get df' i col = Ok (Num q))
  ∧ ((col ∉ flag_columns) → loc_get df' i col = getitem r col).
Proof.
  intros Hprep Hr. destruct (data_preparation_rows _ _ _ Hprep) as [_ Hrows].
  destruct (Forall2_lookup_l _ _ _ _ _ Hrows Hr)
    as (r' & Hr' & ds & pm & g & b_ds & b_pm & _ & _ & _ & _ & _ & ->).
  unfold loc_get. rewrite Hr'. unfold getitem. split.
  - intros Hcol.
    destruct (classified_numeric b_ds b_pm (cell_eq_str "Male" g) r col) as [q ->];
      [by left|by eexists].
  - intros Hcol. rewrite classify_row_lookup_other; [done|..];
      intros ->; apply Hcol; unfold flag_columns;
      [by left|right; by left|right; right; by left].
Qed.

(** Once the data preparation has returned, the variables are declared and
    the strict requirements are imposed without an exception: what can still
    raise is the objective. *)
Lemma requirements_imposed (df df' : DataFrame) :
  data_preparation df = Ok (df', length df) →
  ∃ nx m1,
    declared (declare_decision_variables df' (length df) new_model) nx
    ∧ impose_strict_requirements (declare_decision_variables df' (length df) new_model)
      = Ok m1
    ∧ build_model df
      = (m2 ← impose_objective_function
                (declare_decision_variables df' (length df) new_model) m1;
         Ok (with_model (declare_decision_variables df' (length df) new_model) m2)).
Proof.
  intros Hprep.
  destruct (declare_decision_variables_spec df' (length df)) as (Hst & Hn & _ & nx & Hd).
  set (s0 := declare_decision_variables df' (length df) new_model) in *.
  destruct (impose_strict_requirements_total s0 nx Hd) as [m1 Hm1].
  { intros i Hi. rewrite Hn in Hi. destruct (lookup_lt_is_Some_2 df i Hi) as [r Hr].
    rewrite Hst.
    split; apply (prepared_cells df df' _ i r _ Hprep Hr); unfold flag_columns;
      [by left|right; by left]. }
  exists nx, m1. split; [done|]. split; [done|].
  unfold build_model. rewrite Hprep. simpl. fold s0. by rewrite Hm1.
Qed.

(** A text among the ranks stops the construction of the objective with a
    TypeError. *)
Lemma text_rank_raises (s : State) (nx : nat) (m1 : Model) :
  declared s nx →
  (∀ i p, i < number_students s → p ∈ PROJECTS → is_Ok (loc_get (students s) i p)) →
  (∃ i p str, i < number_students s ∧ p ∈ PROJECTS
     ∧ loc_get (students s) i p = Ok (Str str)) →
  impose_objective_function s m1 = Raise TypeError.
Proof.
  intros Hd Hall (i0 & p0 & str & Hi0 & Hp0 & Hstr).
  unfold impose_objective_function, xsum_for.
  match goal with
  | |- context [mapM ?f (list_prod ?a ?b)] =>
      assert (mapM f (list_prod a b) = Raise TypeError) as Hm
  end; [|by rewrite Hm].
  apply mapM_Raise.
  - intros [i p] Hip. apply list_elem_of_In, in_prod_iff in Hip as [Hi Hp].
    apply list_elem_of_In in Hi, Hp. apply elem_of_students_range in Hi.
    destruct (x_at_lt s nx i p Hd Hi Hp) as [Hx _]. simpl. rewrite Hx.
    unfold iloc_get. destruct (Hall i p Hi Hp) as [c ->]. simpl.
    destruct c; [left; by eexists|by right|left; by eexists].
  - exists (i0, p0). split.
    + apply list_elem_of_In, in_prod_iff. split; apply list_elem_of_In; [|done].
      by apply elem_of_students_range.
    + simpl. unfold iloc_get. rewrite Hstr. simpl.
      by destruct (x_at_lt s nx i0 p0 Hd Hi0 Hp0) as [-> _].
Qed.

Lemma nans_xsum_elem (es : list LinExpr) (e : LinExpr) (a : Var) :
  e ∈ es → a ∈ nans e → a ∈ nans (xsum es).
Proof.
  unfold xsum.
  assert (∀ acc, a ∈ nans acc ∨ (∃ e, e ∈ es ∧ a ∈ nans e) →
                 a ∈ nans (foldl le_add acc es)) as Hgen.
  { induction es as [|e' es IH]; intros acc [H|(e0 & He0 & Ha)]; cbn [foldl].
    - done.
    - by apply elem_of_nil in He0.
    - apply IH. left. simpl. apply elem_of_app. by left.
    - apply elem_of_cons in He0 as [->|He0].
      + apply IH. left. simpl. apply elem_of_app. by right.
      + apply IH. right. by exists e0. }
  intros He Ha. apply Hgen. right. by exists e.
Qed.

(** A missing rank is a NaN coefficient of the objective. *)
Lemma missing_rank_in_objective (df : DataFrame) (s : State) (i : nat) (p : string) :
  build_model df = Ok s → i < number_students s → p ∈ PROJECTS →
  loc_get (students s) i p = Ok NaN → x_at s i p ∈ nans (objective (m s)).
Proof.
  intros Hb Hi Hp Hnan. apply build_model_spec in Hb as (_ & _ & _ & ->).
  simpl. apply elem_of_app. left. unfold priority_expr.
  apply (nans_xsum_elem _ (scaled s i p p)).
  - apply list_elem_of_fmap. exists (i, p). split; [done|].
    apply list_elem_of_In, in_prod_iff.
    split; apply list_elem_of_In; [by apply elem_of_students_range|done].
  - rewrite scaled_NaN by done. by left.
Qed.

(** C8, as the notebook behaves: nothing is validated after the roster is
    read, and there is no input error of its own.  On a roster with every
    column the notebook reads: a text in a proficiency score stops the data
    preparation with a TypeError, before a model exists; without such a
    text the data preparation returns, and a missing score gives the flag 0
    (not skilled); a text among the ranks then stops the run with a
    TypeError when the objective is built, after the variables are declared
    and the strict requirements imposed, and nothing is solved or exported;
    without a text among the ranks the model is built, the solve runs and
    the roster is exported, a missing rank being a NaN coefficient of the
    objective. *)
Theorem text_raises_missing_passes (df : DataFrame)
    (optimize : Model → OptimizationStatus * (Var → option Q)) :
  Forall complete_row df →
  ((∃ r str, r ∈ df
      ∧ (r !! "ds_skill" = Some (Str str) ∨ r !! "pm_skill" = Some (Str str))) →
   data_preparation df = Raise TypeError
   ∧ build_model df = Raise TypeError
   ∧ notebook optimize df = Raise TypeError)
  ∧ ((∀ r str, r ∈ df →
        r !! "ds_skill" ≠ Some (Str str) ∧ r !! "pm_skill" ≠ Some (Str str)) →
     ∃ students',
       data_preparation df = Ok (students', length df)
       ∧ (∀ i r, df !! i = Some r →
            (r !! "ds_skill" = Some NaN
               → loc_get students' i "data_science_skilled" = Ok (Num 0))
            ∧ (r !! "pm_skill" = Some NaN
               → loc_get students' i "project_management_skilled" = Ok (Num 0)))
       ∧ ((∃ i p str, i < length df ∧ p ∈ PROJECTS
             ∧ loc_get students' i p = Ok (Str str)) →
          is_Ok (impose_strict_requirements
                   (declare_decision_variables students' (length df) new_model))
          ∧ build_model df = Raise TypeError
          ∧ notebook optimize df = Raise TypeError)
       ∧ ((∀ i p str, i < length df → p ∈ PROJECTS →
             loc_get students' i p ≠ Ok (Str str)) →
          ∃ s, build_model df = Ok s
            ∧ notebook optimize df
              = Ok ((optimize (m s)).1, extracted s (optimize (m s)).2)
            ∧ ∀ i p, i < length df → p ∈ PROJECTS →
                loc_get students' i p = Ok NaN →
                x_at s i p ∈ nans (objective (m s)))).
Proof.
  intros Hc. split.
  - intros Hstr. pose proof (text_score_raises df Hc Hstr) as Hprep.
    assert (build_model df = Raise TypeError) as Hb
      by (unfold build_model; by rewrite Hprep).
    refine (conj Hprep (conj Hb _)). unfold notebook. by rewrite Hb.
  - intros Hnostr.
    assert (Forall readable_row df) as Hread.
    { rewrite Forall_forall in *. intros r Hr.
      destruct (Hc r Hr) as ([ds Hds] & [pm Hpm] & [g Hg] & _).
      exists ds, pm, g. refine (conj Hds (conj Hpm (conj Hg (conj _ _))));
        intros str ->; by destruct (Hnostr r str Hr). }
    destruct (data_preparation_total df Hread) as [df' Hprep].
    exists df'. split; [done|]. split.
    { intros i r Hr. destruct (data_preparation_rows _ _ _ Hprep) as [_ Hrows].
      destruct (Forall2_lookup_l _ _ _ _ _ Hrows Hr)
        as (r' & Hr' & ds & pm & g & b_ds & b_pm & Hds & Hbds & Hpm & Hbpm & Hg & ->).
      unfold loc_get, getitem. rewrite Hr'.
      destruct (classify_row_lookup b_ds b_pm (cell_eq_str "Male" g) r)
        as (-> & -> & _).
      split.
      - intros Hnan. rewrite Hnan in Hds. injection Hds as <-.
        simpl in Hbds. by injection Hbds as <-.
      - intros Hnan. rewrite Hnan in Hpm. injection Hpm as <-.
        simpl in Hbpm. by injection Hbpm as <-. }
    destruct (requirements_imposed df df' Hprep) as (nx & m1 & Hd & Hm1 & Hbuild).
    destruct (declare_decision_variables_spec df' (length df)) as (Hst & Hn & _).
    set (s0 := declare_decision_variables df' (length df) new_model) in *.
    assert (∀ i p, i < number_students s0 → p ∈ PROJECTS →
              is_Ok (loc_get (students s0) i p)) as Hcells.
    { intros i p Hi Hp. rewrite Hn in Hi. rewrite Hst.
      destruct (lookup_lt_is_Some_2 df i Hi) as [r Hr].
      destruct (prepared_cells df df' _ i r p Hprep Hr) as [Hflag Hother].
      destruct (decide (p ∈ flag_columns)) as [Hf|Hf].
      - destruct (Hflag Hf) as [q ->]. by eexists.
      - rewrite (Hother Hf). rewrite Forall_forall in Hc.
        destruct (Hc r) as (_ & _ & _ & Hproj); [by eapply list_elem_of_lookup_2|].
        destruct (Hproj p Hp) as [c Hcell]. unfold getitem. rewrite Hcell. by eexists. }
    split.
    + intros (i & p & str & Hi & Hp & Hstr). split; [by eexists|].
      assert (build_model df = Raise TypeError) as Hb.
      { rewrite Hbuild, (text_rank_raises s0 nx m1 Hd Hcells); [done|].
        exists i, p, str. by rewrite Hst, Hn. }
      split; [done|]. unfold notebook. by rewrite Hb.
    + intros Hfloat.
      destruct (impose_objective_function_total s0 nx m1 Hd) as [m2 Hm2].
      { intros i Hi. rewrite Hn in Hi. rewrite Hst.
        destruct (lookup_lt_is_Some_2 df i Hi) as [r Hr].
        apply (prepared_cells df df' _ i r _ Hprep Hr).
        unfold flag_columns. right; right; by left. }
      { intros i p Hi Hp. destruct (Hcells i p Hi Hp) as [c Hcell].
        exists c. split; [done|]. intros str ->.
        rewrite Hn in Hi. rewrite Hst in Hcell. by apply (Hfloat i p str). }
      assert (build_model df = Ok (with_model s0 m2)) as Hb
        by (by rewrite Hbuild, Hm2).
      exists (with_model s0 m2). split; [done|].
      split; [by apply notebook_extracted|].
      intros i p Hi Hp Hnan. apply (missing_rank_in_objective df); [done| |done|].
      * simpl. by rewrite Hn.
      * simpl. by rewrite Hst.
Qed.

(** ** Further properties of the cells *)

(** X1: the data preparation keeps the rows of the roster and touches no
    column but the three flag columns: the number of students it computes is
    the number of rows of the input, and every other cell reads as before. *)
Theorem data_preparation_keeps_columns (students students' : DataFrame) (n : nat) :
  data_preparation students = Ok (students', n) →
  n = length students ∧ length students' = length students
  ∧ ∀ i col, col ∉ flag_columns → loc_get students' i col = loc_get students i col.
Proof.
  intros Hrun. destruct (data_preparation_rows _ _ _ Hrun) as [-> Hrows].
  pose proof (Forall2_length _ _ _ Hrows) as Hlen.
  split; [done|]. split; [done|]. intros i col Hcol. unfold loc_get.
  destruct (students !! i) as [r|] eqn:Hr.
  - destruct (Forall2_lookup_l _ _ _ _ _ Hrows Hr)
      as (r' & -> & ds & pm & g & b_ds & b_pm & _ & _ & _ & _ & _ & ->).
    unfold getitem. rewrite classify_row_lookup_other; [done|..];
      intros ->; apply Hcol; unfold flag_columns;
      [by left|right; by left|right; right; by left].
  - apply lookup_ge_None in Hr. rewrite (proj2 (lookup_ge_None students' i)); [done|lia].
Qed.

(** X2: on a well formed roster the notebook raises nothing, whatever the
    solve returns: the model is built for as many students as the roster
    has rows, and the roster is exported with the extracted projects. *)
Theorem notebook_runs (df : DataFrame)
    (optimize : Model → OptimizationStatus * (Var → option Q)) :
  well_formed df →
  ∃ s, build_model df = Ok s
    ∧ number_students s = length df
    ∧ notebook optimize df = Ok ((optimize (m s)).1, extracted s (optimize (m s)).2).
Proof.
  intros Hwf. destruct (build_model_total df Hwf) as [s Hb].
  exists s. split; [done|]. split; [|by apply notebook_extracted].
  destruct (build_model_spec _ _ Hb) as (Hprep & _).
  destruct (data_preparation_rows _ _ _ Hprep) as [-> Hrows].
  symmetry. by eapply Forall2_length.
Qed.

(** X3: when the roster is readable and its project columns hold numbers
    where they exist, but some student has no column for some project of
    PROJECTS, the notebook stops with a KeyError while it builds the
    objective: no model is solved and nothing is exported. *)
Theorem missing_project_column_raises (df : DataFrame)
    (optimize : Model → OptimizationStatus * (Var → option Q)) :
  Forall readable_row df →
  (∀ r p, r ∈ df → p ∈ PROJECTS →
     p ∈ flag_columns ∨ (∃ q, r !! p = Some (Num q)) ∨ r !! p = None) →
  (∃ r p, r ∈ df ∧ p ∈ PROJECTS ∧ (p ∉ flag_columns) ∧ r !! p = None) →
  build_model df = Raise KeyError ∧ notebook optimize df = Raise KeyError.
Proof.
  intros Hread Hcols (r0 & p0 & Hr0 & Hp0 & Hnf & Hnone).
  assert (build_model df = Raise KeyError) as Hb; [|by unfold notebook; rewrite Hb].
  unfold build_model.
  destruct (data_preparation_total df Hread) as [df' Hprep].
  rewrite Hprep. simpl.
  destruct (data_preparation_rows _ _ _ Hprep) as [Hlen Hrows].
  destruct (declare_decision_variables_spec df' (length df))
    as (Hst & Hn & _ & nx & Hd).
  set (s0 := declare_decision_variables df' (length df) new_model) in *.
  assert (∀ i col, i < number_students s0 → col ∈ flag_columns →
            ∃ q, loc_get (students s0) i col = Ok (Num q)) as Hflag.
  { intros i col Hi Hcol. rewrite Hst. rewrite Hn in Hi.
    destruct (lookup_lt_is_Some_2 df i Hi) as [r Hr].
    destruct (Forall2_lookup_l _ _ _ _ _ Hrows Hr)
      as (r' & Hr' & ds & pm & g & b_ds & b_pm & _ & _ & _ & _ & _ & ->).
    unfold loc_get, getitem. rewrite Hr'.
    destruct (classified_numeric b_ds b_pm (cell_eq_str "Male" g) r col) as [q ->];
      [by left|by eexists]. }
  destruct (impose_strict_requirements_total s0 nx Hd) as [m1 ->].
  { intros i Hi. split; apply Hflag; try done; unfold flag_columns;
      [by left|right; by left]. }
  simpl. unfold impose_objective_function, xsum_for.
  match goal with
  | |- context [mapM ?f (list_prod ?a ?b)] =>
      assert (mapM f (list_prod a b) = Raise KeyError) as Hm
  end; [|by rewrite Hm].
  apply mapM_Raise.
  - intros [i p] Hip. apply list_elem_of_In, in_prod_iff in Hip as [Hi Hp].
    apply list_elem_of_In in Hi, Hp. apply elem_of_students_range in Hi.
    destruct (x_at_lt s0 nx i p Hd Hi Hp) as [Hx _]. simpl. rewrite Hx.
    unfold iloc_get. rewrite Hst. rewrite Hn in Hi.
    destruct (lookup_lt_is_Some_2 df i Hi) as [r Hr].
    destruct (Forall2_lookup_l _ _ _ _ _ Hrows Hr)
      as (r' & Hr' & ds & pm & g & b_ds & b_pm & _ & _ & _ & _ & _ & ->).
    unfold loc_get, getitem. rewrite Hr'.
    destruct (Hcols r p) as [Hf|[Hq|Hno]]; [by eapply list_elem_of_lookup_2|done| | |].
    + destruct (classified_numeric b_ds b_pm (cell_eq_str "Male" g) r p) as [q ->];
        [by left|]. left. by eexists.
    + destruct (classified_numeric b_ds b_pm (cell_eq_str "Male" g) r p) as [q ->];
        [by right|]. left. by eexists.
    + destruct (decide (p ∈ flag_columns)) as [Hf|Hf].
      * destruct (classified_numeric b_ds b_pm (cell_eq_str "Male" g) r p) as [q ->];
          [by left|]. left. by eexists.
      * rewrite classify_row_lookup_other, Hno; [by right|..];
          intros ->; apply Hf; unfold flag_columns;
          [by left|right; by left|right; right; by left].
  - apply list_elem_of_lookup in Hr0 as [i Hi].
    exists (i, p0). split.
    + apply list_elem_of_In, in_prod_iff. split; apply list_elem_of_In; [|done].
      apply elem_of_seq. rewrite Hn. apply lookup_lt_Some in Hi. lia.
    + simpl. unfold iloc_get. rewrite Hst.
      destruct (Forall2_lookup_l _ _ _ _ _ Hrows Hi)
        as (r' & Hr' & ds & pm & g & b_ds & b_pm & _ & _ & _ & _ & _ & ->).
      unfold loc_get, getitem. rewrite Hr'.
      rewrite classify_row_lookup_other, Hnone; [done|..];
        intros ->; apply Hnf; unfold flag_columns;
        [by left|right; by left|right; right; by left].
Qed.

(** *** The variables of the built model *)

Lemma declare_x_row_binary (i : nat) (ps : list string) (m m' : Model)
    (d d' : gmap string Var) :
  declare_x_row i ps m d = (m', d') →
  ∃ new, vars m' = vars m ++ new ∧ Forall is_binary new ∧ length new = length ps.
Proof.
  revert m d. induction ps as [|p ps IH]; intros m d H; simpl in H.
  - injection H as <- <-. exists []. by rewrite app_nil_r.
  - apply IH in H as (new & Hv & Hb & Hl). simpl in Hv.
    exists (mkVar ("x_" +:+ pretty i +:+ "_" +:+ p) 0 (Some 1%Q) BINARY :: new).
    split; [by rewrite Hv, <- app_assoc|]. split; [|simpl; by rewrite Hl].
    constructor; [done|done].
Qed.

Lemma declare_x_binary (range : list nat) (m m' : Model)
    (x x' : gmap nat (gmap string Var)) :
  declare_x range m x = (m', x') →
  ∃ new, vars m' = vars m ++ new ∧ Forall is_binary new
    ∧ length new = length range * length PROJECTS.
Proof.
  revert m x. induction range as [|i range IH]; intros m x H; simpl in H.
  - injection H as <- <-. exists []. by rewrite app_nil_r.
  - destruct (declare_x_row i PROJECTS m ∅) as [m1 d1] eqn:Hrow.
    apply declare_x_row_binary in Hrow as (new1 & Hv1 & Hb1 & Hl1).
    apply IH in H as (new & Hv & Hb & Hl).
    exists (new1 ++ new). split; [by rewrite Hv, Hv1, <- app_assoc|].
    split; [by apply Forall_app|]. rewrite length_app, Hl1, Hl. simpl. lia.
Qed.

Lemma declare_gender_diversity_length (ps : list string) (m m' : Model)
    (d d' : gmap string Var) :
  declare_gender_diversity ps m d = (m', d') →
  length (vars m') = length (vars m) + length ps.
Proof.
  revert m d. induction ps as [|p ps IH]; intros m d H; simpl in H.
  - injection H as <- <-. simpl. lia.
  - apply IH in H. rewrite H. simpl. rewrite length_app. simpl. lia.
Qed.

(** The variables of the built model: first the assignment variables, all
    binary, then the diversity coefficients. *)
Lemma build_model_vars (df : DataFrame) (s : State) :
  build_model df = Ok s →
  ∃ xs gs,
    vars (m s) = xs ++ gs ∧ Forall is_binary xs ∧ Forall free_nonneg gs
    ∧ length xs = number_students s * length PROJECTS
    ∧ length gs = length PROJECTS
    ∧ declared s (length xs).
Proof.
  unfold build_model. intros H.
  apply bind_Ok in H as ([df' n] & Hprep & H).
  apply bind_Ok in H as (m1 & Hstrict & H).
  apply bind_Ok in H as (m2 & Hobj & H). injection H as <-.
  apply impose_strict_requirements_spec in Hstrict as (Hv1 & _ & _).
  apply impose_objective_function_spec in Hobj as (Hv2 & _ & _).
  revert Hv1. unfold declare_decision_variables.
  destruct (declare_x (seq 0 n) new_model ∅) as [mx x1] eqn:Hx.
  destruct (declare_gender_diversity PROJECTS mx ∅) as [mg gd] eqn:Hg.
  simpl. intros Hv1.
  pose proof (declare_x_binary _ _ _ _ _ Hx) as (xs & Hxs & Hbin & Hlx).
  pose proof (declare_gender_diversity_length _ _ _ _ _ Hg) as Hlg.
  apply declare_x_spec in Hx as (_ & _ & _ & Hb1 & Hp1).
  apply declare_gender_diversity_spec in Hg as (_ & _ & (gs & Hgs & Hfree) & Hb2 & Hp2).
  simpl in Hxs. subst xs. rewrite length_seq in Hlx.
  exists (vars mx), gs. rewrite Hv2, Hv1.
  refine (conj Hgs (conj Hbin (conj Hfree (conj Hlx (conj _ _))))).
  { rewrite Hgs, length_app in Hlg. lia. }
  unfold declared. simpl. rewrite Hv2, Hv1.
  refine (conj _ (conj _ (conj _ (conj _ _)))).
  - intros i p v (d & Hd & Hv')%x_get_Ok.
    destruct (Hb1 i d Hd) as [He|[Hgood _]]; [by rewrite lookup_empty in He|].
    by apply (Hgood p).
  - intros i p Hi Hp.
    destruct (Hp1 i) as [d Hd]; [left; apply elem_of_seq; lia|].
    destruct (Hb1 i d Hd) as [He|[_ Hgood]]; [by rewrite lookup_empty in He|].
    destruct (Hgood p Hp) as [v Hv']. exists v. apply x_get_Ok. by exists d.
  - intros p v Hpv%getitem_Ok.
    destruct (Hb2 p v Hpv) as [He|Hle]; [by rewrite lookup_empty in He|done].
  - intros p Hp. destruct (Hp2 p) as [v Hv']; [by left|].
    exists v. by apply getitem_Ok.
  - intros k info Hk Hinfo. rewrite Hgs in Hinfo.
    rewrite lookup_app_r in Hinfo by done.
    rewrite Forall_forall in Hfree. apply Hfree.
    by eapply list_elem_of_lookup_2.
Qed.

Lemma binary_value (q : Q) :
  (0 <= q)%Q → (q <= 1)%Q → integral q → (q == 0)%Q ∨ (q == 1)%Q.
Proof.
  intros H0 H1 [z Hz]. rewrite Hz in H0, H1.
  change 0%Q with (inject_Z 0) in H0. change 1%Q with (inject_Z 1) in H1.
  rewrite <- Zle_Qle in H0, H1.
  assert (z = 0 ∨ z = 1)%Z as [-> | ->] by lia; [by left|by right].
Qed.

(** The assignment variables take the value 0 or 1 in a feasible solution. *)
Lemma x_values_binary (df : DataFrame) (s : State) (v : Var → Q) (i : nat) (p : string) :
  build_model df = Ok s → feasible (m s) v →
  i < number_students s → p ∈ PROJECTS →
  (v (x_at s i p) == 0)%Q ∨ (v (x_at s i p) == 1)%Q.
Proof.
  intros Hb Hf Hi Hp.
  destruct (build_model_vars _ _ Hb) as (xs & gs & Hvars & Hxs & _ & _ & _ & Hd).
  destruct (x_at_lt s (length xs) i p Hd Hi Hp) as [_ Hlt].
  destruct (lookup_lt_is_Some_2 xs _ Hlt) as [info Hinfo].
  assert (is_binary info) as (Hlb & Hub & Hty).
  { rewrite Forall_forall in Hxs. apply Hxs. by eapply list_elem_of_lookup_2. }
  destruct Hf as [Hv _].
  destruct (Hv (x_at s i p) info) as (Hl & Hu & Hint).
  { rewrite Hvars. by rewrite lookup_app_l. }
  rewrite Hlb in Hl. rewrite Hub in Hu. rewrite Hty in Hint.
  by apply binary_value.
Qed.

(** Values 0 or 1 that sum to 1: one item has the value 1, the others 0. *)
Lemma Qsum_one_hot {A} (f : A → Q) (l : list A) :
  (∀ a, a ∈ l → (f a == 0)%Q ∨ (f a == 1)%Q) →
  (Qsum (f <$> l) == 1)%Q →
  ∃ a, a ∈ l ∧ (f a == 1)%Q ∧ ∀ a', a' ∈ l → a' ≠ a → (f a' == 0)%Q.
Proof.
  induction l as [|a l IH]; intros Hbin Hsum.
  - exfalso. change (0 == 1)%Q in Hsum. lra.
  - rewrite fmap_cons, Qsum_cons in Hsum.
    assert (∀ a', a' ∈ l → (0 <= f a')%Q) as Hnn.
    { intros a' Ha'. destruct (Hbin a') as [H|H]; [by right| |]; lra. }
    destruct (Hbin a) as [H0|H1]; [by left| |].
    + destruct IH as (a0 & Ha0 & H1 & Hothers); [|lra|].
      { intros a' Ha'. apply Hbin. by right. }
      exists a0. split; [by right|]. split; [done|].
      intros a' [->|Ha']%elem_of_cons Hne; [done|by apply Hothers].
    + exists a. split; [by left|]. split; [done|].
      intros a' [->|Ha']%elem_of_cons Hne; [done|].
      apply (Qsum_nonneg_zero f l); [done| |done]. lra.
Qed.

(** X4: in every feasible solution of the built model each assignment
    variable is 0 or 1, and every student has exactly one project with
    value 1, all other projects of the student having value 0. *)
Theorem feasible_one_project_per_student (df : DataFrame) (s : State) (v : Var → Q) :
  build_model df = Ok s → feasible (m s) v →
  (∀ i p, i < number_students s → p ∈ PROJECTS →
     (v (x_at s i p) == 0)%Q ∨ (v (x_at s i p) == 1)%Q)
  ∧ ∀ i, i < number_students s →
      ∃ p, p ∈ PROJECTS ∧ (v (x_at s i p) == 1)%Q
        ∧ ∀ p', p' ∈ PROJECTS → p' ≠ p → (v (x_at s i p') == 0)%Q.
Proof.
  intros Hb Hf. split.
  - intros i p. by apply (x_values_binary df).
  - intros i Hi. apply (Qsum_one_hot (λ p, v (x_at s i p))).
    + intros p. by apply (x_values_binary df).
    + by apply (feasible_total_assignment df).
Qed.

(** *** Counting with rational sums *)

Lemma Qsum_plus {A} (f g : A → Q) (l : list A) :
  (Qsum ((λ a, f a + g a) <$> l) == Qsum (f <$> l) + Qsum (g <$> l))%Q.
Proof.
  induction l as [|a l IH]; [change (0 == 0 + 0)%Q; lra|].
  rewrite !fmap_cons, !Qsum_cons, IH. lra.
Qed.

Lemma Qsum_scale {A} (c : Q) (f : A → Q) (l : list A) :
  (Qsum ((λ a, c * f a) <$> l) == c * Qsum (f <$> l))%Q.
Proof.
  induction l as [|a l IH]; [change (0 == c * 0)%Q; lra|].
  rewrite !fmap_cons, !Qsum_cons, IH. lra.
Qed.

Lemma Qsum_le {A} (f g : A → Q) (l : list A) :
  (∀ a, a ∈ l → (f a <= g a)%Q) → (Qsum (f <$> l) <= Qsum (g <$> l))%Q.
Proof.
  induction l as [|a l IH]; intros Hfg; [change (0 <= 0)%Q; lra|].
  rewrite !fmap_cons, !Qsum_cons.
  assert (f a <= g a)%Q by (apply Hfg; by left).
  assert (Qsum (f <$> l) <= Qsum (g <$> l))%Q
    by (apply IH; intros a' Ha'; apply Hfg; by right).
  lra.
Qed.

Lemma inject_nat_S (n : nat) :
  (inject_Z (Z.of_nat (S n)) == inject_Z (Z.of_nat n) + 1)%Q.
Proof. rewrite Nat2Z.inj_succ. unfold Z.succ. rewrite inject_Z_plus. reflexivity. Qed.

Lemma Qsum_const {A} (c : Q) (l : list A) :
  (Qsum ((λ _, c) <$> l) == inject_Z (Z.of_nat (length l)) * c)%Q.
Proof.
  induction l as [|a l IH]; [change (0 == 0 * c)%Q; lra|].
  rewrite fmap_cons, Qsum_cons, IH. cbn [length]. rewrite inject_nat_S. lra.
Qed.

(** Exchanging two sums. *)
Lemma Qsum_swap {A B} (f : A → B → Q) (la : list A) (lb : list B) :
  (Qsum ((λ a, Qsum (f a <$> lb)) <$> la)
   == Qsum ((λ b, Qsum ((λ a, f a b) <$> la)) <$> lb))%Q.
Proof.
  induction la as [|a la IH].
  - change (0 == Qsum ((λ _ : B, 0%Q) <$> lb))%Q. by rewrite Qsum_zero.
  - rewrite fmap_cons, Qsum_cons, IH.
    rewrite <- Qsum_plus. apply Qsum_ext. intros b _.
    by rewrite fmap_cons, Qsum_cons.
Qed.

(** A sum of values that are 1 on the items with [P] and 0 on the others
    counts the items with [P]. *)
Lemma Qsum_indicator {A} (P : A → Prop) `{∀ a, Decision (P a)} (f : A → Q) (l : list A) :
  (∀ a, a ∈ l → (P a → (f a == 1)%Q) ∧ (¬ P a → (f a == 0)%Q)) →
  (Qsum (f <$> l) == inject_Z (Z.of_nat (length (filter P l))))%Q.
Proof.
  induction l as [|a l IH]; intros Hf; [reflexivity|].
  rewrite fmap_cons, Qsum_cons, IH by (intros a' Ha'; apply Hf; by right).
  destruct (Hf a) as [H1 H0]; [by left|].
  destruct (decide (P a)) as [HP|HP].
  - rewrite (filter_cons_True P a l HP). cbn [length].
    rewrite inject_nat_S, (H1 HP). lra.
  - rewrite (filter_cons_False P a l HP), (H0 HP). lra.
Qed.

Lemma Qsum_pos_exists {A} (f : A → Q) (l : list A) :
  (0 < Qsum (f <$> l))%Q → ∃ a, a ∈ l ∧ ¬ (f a == 0)%Q.
Proof.
  induction l as [|a l IH]; intros Hpos.
  - exfalso. change (0 < 0)%Q in Hpos. lra.
  - rewrite fmap_cons, Qsum_cons in Hpos.
    destruct (Qeq_dec (f a) 0) as [H0|Hne].
    + destruct IH as (a' & Ha' & Hne); [lra|]. exists a'. split; [by right|done].
    + exists a. split; [by left|done].
Qed.

(** *** The size of the model and what feasibility needs *)

(** X5: the built model has one binary variable per pair of a student and
    a project followed by one diversity coefficient per project, and one
    constraint per student followed by four per project. *)
Theorem model_size (df : DataFrame) (s : State) :
  build_model df = Ok s →
  length (vars (m s)) = number_students s * length PROJECTS + length PROJECTS
  ∧ length (constrs (m s)) = number_students s + 4 * length PROJECTS
  ∧ (∀ k info, k < number_students s * length PROJECTS →
       vars (m s) !! k = Some info → is_binary info)
  ∧ (∀ k info, number_students s * length PROJECTS ≤ k →
       vars (m s) !! k = Some info → free_nonneg info).
Proof.
  intros Hb.
  destruct (build_model_vars _ _ Hb) as (xs & gs & Hvars & Hxs & Hgs & Hlx & Hlg & _).
  destruct (build_model_spec _ _ Hb) as (_ & _ & Hcs & _).
  rewrite Hvars, Hcs, !length_app, length_fmap, <- Hlx, Hlg.
  unfold students_range. rewrite length_seq.
  refine (conj eq_refl (conj _ (conj _ _))).
  - f_equal. clear. induction PROJECTS as [|p ps IH]; [done|].
    rewrite bind_cons, length_app, IH. cbn [length project_constrs]. lia.
  - intros k info Hk Hinfo. rewrite lookup_app_l in Hinfo by done.
    rewrite Forall_forall in Hxs. apply Hxs. by eapply list_elem_of_lookup_2.
  - intros k info Hk Hinfo. rewrite lookup_app_r in Hinfo by done.
    rewrite Forall_forall in Hgs. apply Hgs. by eapply list_elem_of_lookup_2.
Qed.

Lemma flag_sum (df : DataFrame) (s : State) (col : string) :
  build_model df = Ok s → col ∈ flag_columns →
  (Qsum ((λ i, num_at s i col) <$> students_range s)
   == inject_Z (Z.of_nat (length (flagged col s))))%Q.
Proof.
  intros Hb Hcol. unfold flagged. apply Qsum_indicator.
  intros i Hi%elem_of_students_range.
  pose proof (build_model_numeric df s i Hb Hi) as Hflags.
  destruct (Hflags col Hcol) as (q & Hq & Hq01).
  rewrite (loc_get_num_at _ _ _ _ Hq). rewrite Qeq_bool_iff.
  split; [done|]. intros Hne. destruct Hq01 as [-> | ->]; [reflexivity|].
  destruct Hne. reflexivity.
Qed.

(** What the four constraints of a project say of a feasible solution. *)
Lemma feasible_project_requirements (df : DataFrame) (s : State) (v : Var → Q)
    (p : string) :
  build_model df = Ok s → feasible (m s) v → p ∈ PROJECTS →
  (inject_Z MIN_TEAM_SIZE <= team_size s v p)%Q
  ∧ (team_size s v p <= inject_Z MAX_TEAM_SIZE)%Q
  ∧ (1 <= skilled_count "data_science_skilled" s v p)%Q
  ∧ (1 <= skilled_count "project_management_skilled" s v p)%Q.
Proof.
  intros Hb Hf Hp.
  assert (∀ c, c ∈ project_constrs s p → holds v c) as Hin.
  { intros c Hc. apply (feasible_holds (m s)); [done|].
    by apply (project_constrs_in_model df s p). }
  pose proof (Hin (min_team_size_constr s p) ltac:(by left)) as Hmin.
  pose proof (Hin (max_team_size_constr s p) ltac:(right; by left)) as Hmax.
  pose proof (Hin (skilled_constr "data_science_skilled" s p)
                ltac:(right; right; by left)) as Hds.
  pose proof (Hin (skilled_constr "project_management_skilled" s p)
                ltac:(right; right; right; by left)) as Hpm.
  unfold min_team_size_constr in Hmin. unfold max_team_size_constr in Hmax.
  unfold skilled_constr in Hds, Hpm.
  rewrite holds_le_cmp_GE, eval_le_const in Hmin, Hds, Hpm.
  rewrite holds_le_cmp_LE, eval_le_const in Hmax.
  rewrite eval_team_expr in Hmin, Hmax.
  by rewrite eval_skilled_expr in Hds, Hpm.
Qed.

(** X6: the built model has a feasible solution only if the students can
    fill the teams: MIN_TEAM_SIZE times the number of projects is at most
    the number of students, which is at most MAX_TEAM_SIZE times the number
    of projects, and there are at least as many data science skilled
    students, and as many project management skilled students, as there
    are projects. *)
Theorem feasible_needs_enough_students (df : DataFrame) (s : State) (v : Var → Q) :
  build_model df = Ok s → feasible (m s) v →
  (MIN_TEAM_SIZE * Z.of_nat (length PROJECTS) ≤ Z.of_nat (number_students s))%Z
  ∧ (Z.of_nat (number_students s) ≤ MAX_TEAM_SIZE * Z.of_nat (length PROJECTS))%Z
  ∧ length PROJECTS ≤ length (flagged "data_science_skilled" s)
  ∧ length PROJECTS ≤ length (flagged "project_management_skilled" s).
Proof.
  intros Hb Hf.
  assert (∀ i, i ∈ students_range s → (projects_of_student s v i == 1)%Q) as Hone.
  { intros i Hi%elem_of_students_range. by apply (feasible_total_assignment df). }
  assert (Qsum ((λ p, team_size s v p) <$> PROJECTS)
          == inject_Z (Z.of_nat (number_students s)))%Q as Hteams.
  { unfold team_size.
    rewrite <- (Qsum_swap (λ i p, v (x_at s i p)) (students_range s) PROJECTS).
    rewrite (Qsum_ext _ (λ _, 1%Q)) by done.
    rewrite Qsum_const. unfold students_range. rewrite length_seq. lra. }
  assert (∀ col, col ∈ flag_columns →
            (Qsum ((λ p, skilled_count col s v p) <$> PROJECTS)
             == inject_Z (Z.of_nat (length (flagged col s))))%Q) as Hskilled.
  { intros col Hcol. unfold skilled_count.
    rewrite <- (Qsum_swap (λ i p, num_at s i col * v (x_at s i p))%Q
                  (students_range s) PROJECTS).
    rewrite <- (flag_sum df s col Hb Hcol). apply Qsum_ext. intros i Hi.
    rewrite Qsum_scale. fold (projects_of_student s v i). rewrite (Hone i Hi). lra. }
  assert (∀ p, p ∈ PROJECTS →
            (inject_Z MIN_TEAM_SIZE <= team_size s v p)%Q
            ∧ (team_size s v p <= inject_Z MAX_TEAM_SIZE)%Q
            ∧ (1 <= skilled_count "data_science_skilled" s v p)%Q
            ∧ (1 <= skilled_count "project_management_skilled" s v p)%Q) as Hreq.
  { intros p Hp. by apply (feasible_project_requirements df). }
  refine (conj _ (conj _ (conj _ _))).
  - rewrite Zle_Qle, inject_Z_mult, <- Hteams, Qmult_comm, <- Qsum_const.
    apply Qsum_le. intros p Hp. by destruct (Hreq p Hp) as (? & _).
  - rewrite Zle_Qle, inject_Z_mult, <- Hteams, Qmult_comm, <- Qsum_const.
    apply Qsum_le. intros p Hp. by destruct (Hreq p Hp) as (_ & ? & _).
  - apply Nat2Z.inj_le. rewrite Zle_Qle.
    rewrite <- (Hskilled "data_science_skilled") by (by left).
    apply (Qle_trans _ (Qsum ((λ _, 1%Q) <$> PROJECTS))).
    + rewrite Qsum_const. lra.
    + apply Qsum_le. intros p Hp. by destruct (Hreq p Hp) as (_ & _ & ? & _).
  - apply Nat2Z.inj_le. rewrite Zle_Qle.
    rewrite <- (Hskilled "project_management_skilled") by (right; by left).
    apply (Qle_trans _ (Qsum ((λ _, 1%Q) <$> PROJECTS))).
    + rewrite Qsum_const. lra.
    + apply Qsum_le. intros p Hp. by destruct (Hreq p Hp) as (_ & _ & _ & ?).
Qed.

(** *** The output of an exact solution *)

Lemma is_one_exact (v : Var → Q) (k : Var) :
  is_one (exact v k) = true ↔ (v k == 1)%Q.
Proof. unfold exact. simpl. apply Qeq_bool_iff. Qed.

(** With the values of a feasible solution returned as they are, the
    project written for a student is the project whose variable is 1. *)
Lemma assigned_exact (df : DataFrame) (s : State) (v : Var → Q) (i : nat) (p : string) :
  build_model df = Ok s → feasible (m s) v →
  i < number_students s → p ∈ PROJECTS →
  assigned_project s (exact v) i = p ↔ (v (x_at s i p) == 1)%Q.
Proof.
  intros Hb Hf Hi Hp.
  destruct (Qsum_one_hot (λ p, v (x_at s i p)) PROJECTS) as (p0 & Hp0 & H1 & Hothers).
  { intros p'. by apply (x_values_binary df). }
  { by apply (feasible_total_assignment df). }
  cbv beta in H1, Hothers.
  assert (assigned_project s (exact v) i = p0) as ->.
  { unfold assigned_project.
    destruct (foldl_last_match (λ p, is_one (exact v (x_at s i p))) "" PROJECTS)
      as [[_ Hnone]|[Hin Ht]].
    - specialize (Hnone p0 Hp0). cbv beta in Hnone.
      rewrite (proj2 (is_one_exact v (x_at s i p0)) H1) in Hnone. discriminate.
    - cbv beta zeta in Hin, Ht. apply is_one_exact in Ht.
      match goal with
      | |- ?r = p0 => destruct (decide (r = p0)) as [Heq|Hne]; [done|]
      end.
      specialize (Hothers _ Hin Hne). lra. }
  split; [by intros <-|]. intros Hv.
  destruct (decide (p0 = p)) as [Heq|Hne]; [done|].
  assert (p ≠ p0) as Hne' by congruence.
  specialize (Hothers p Hp Hne'). lra.
Qed.

(** X7: when the solve returns the values of a feasible solution as they
    are, the output cell writes for every student a project of PROJECTS,
    the one whose variable is 1, and the teams it writes respect the strict
    requirements: every project gets between MIN_TEAM_SIZE and
    MAX_TEAM_SIZE students, among them a data science skilled one and a
    project management skilled one. *)
Theorem exact_solution_gives_valid_teams (df : DataFrame) (s : State) (v : Var → Q) :
  build_model df = Ok s → feasible (m s) v →
  ∃ out,
    write_output s (exact v) = Ok out
    ∧ (∀ i, i < number_students s →
         ∃ p, p ∈ PROJECTS ∧ loc_get out i "assigned_project" = Ok (Str p)
           ∧ assigned_project s (exact v) i = p ∧ (v (x_at s i p) == 1)%Q)
    ∧ ∀ p, p ∈ PROJECTS →
        (MIN_TEAM_SIZE ≤ Z.of_nat (length (team_of s (exact v) p)) ≤ MAX_TEAM_SIZE)%Z
        ∧ (∃ i, i ∈ team_of s (exact v) p ∧ i ∈ flagged "data_science_skilled" s)
        ∧ (∃ i, i ∈ team_of s (exact v) p ∧ i ∈ flagged "project_management_skilled" s).
Proof.
  intros Hb Hf. exists (extracted s (exact v)).
  split; [by apply (write_output_extracted df)|]. split.
  - intros i Hi.
    destruct (Qsum_one_hot (λ p, v (x_at s i p)) PROJECTS) as (p & Hp & H1 & _).
    { intros p'. by apply (x_values_binary df). }
    { by apply (feasible_total_assignment df). }
    exists p. simpl in H1.
    assert (assigned_project s (exact v) i = p) as Ha
      by (by apply (assigned_exact df)).
    refine (conj Hp (conj _ (conj Ha H1))).
    destruct (extracted_lookup s (exact v) i) as (r & Hr & Hap).
    { by rewrite (build_model_length df). }
    unfold loc_get, getitem. by rewrite Hr, Hap, Ha.
  - intros p Hp.
    destruct (feasible_project_requirements df s v p Hb Hf Hp)
      as (Hmin & Hmax & Hds & Hpm).
    assert (team_size s v p
            == inject_Z (Z.of_nat (length (team_of s (exact v) p))))%Q as Hsize.
    { unfold team_size, team_of. apply Qsum_indicator.
      intros i Hi%elem_of_students_range. split.
      - intros Ha. by apply (assigned_exact df s v i p).
      - intros Hna. destruct (x_values_binary df s v i p) as [H0|H1]; [done..| |];
          [done|]. destruct Hna. by apply (assigned_exact df). }
    rewrite Hsize in Hmin, Hmax. rewrite <- Zle_Qle in Hmin, Hmax.
    split; [done|].
    assert (∀ col, col ∈ flag_columns → (1 <= skilled_count col s v p)%Q →
              ∃ i, i ∈ team_of s (exact v) p ∧ i ∈ flagged col s) as Hmember.
    { intros col Hcol Hcount. unfold skilled_count in Hcount.
      destruct (Qsum_pos_exists (λ i, num_at s i col * v (x_at s i p))%Q
                  (students_range s)) as (i & Hi & Hne); [lra|].
      exists i. pose proof Hi as Hlt%elem_of_students_range.
      pose proof (build_model_numeric df s i Hb Hlt) as Hflags.
      destruct (Hflags col Hcol) as (q & Hq & Hq01).
      rewrite (loc_get_num_at _ _ _ _ Hq) in Hne.
      unfold team_of, flagged. rewrite !list_elem_of_filter.
      rewrite (loc_get_num_at _ _ _ _ Hq). split; (split; [|done]).
      - apply (assigned_exact df); [done..|].
        destruct (x_values_binary df s v i p) as [H0|H1]; [done..| |done].
        destruct Hne. rewrite H0. lra.
      - destruct Hq01 as [-> | ->]; [|done]. destruct Hne. lra. }
    split; apply Hmember; try done; unfold flag_columns; [by left|right; by left].
Qed.

(** X8: when several projects of a student have the value 1, the output
    cell keeps the one that comes last in PROJECTS: a project with value 1
    that no later project with value 1 follows is the one written. *)
Theorem last_one_is_written (df : DataFrame) (s : State) (sol : Var → option Q)
    (i : nat) (before after : list string) (p : string) :
  build_model df = Ok s → i < number_students s →
  PROJECTS = before ++ p :: after →
  is_one (sol (x_at s i p)) = true →
  (∀ p', p' ∈ after → is_one (sol (x_at s i p')) = false) →
  ∃ out, write_output s sol = Ok out
    ∧ loc_get out i "assigned_project" = Ok (Str p).
Proof.
  intros Hb Hi Hsplit Hone Hafter. exists (extracted s sol).
  split; [by apply (write_output_extracted df)|].
  destruct (extracted_lookup s sol i) as (r & Hr & Hap).
  { by rewrite (build_model_length df). }
  unfold loc_get, getitem. rewrite Hr, Hap. do 2 f_equal.
  unfold assigned_project. rewrite Hsplit, foldl_app. cbn [foldl]. rewrite Hone.
  destruct (foldl_last_match (λ p', is_one (sol (x_at s i p'))) p after)
    as [[Hr' _]|[Hin Ht]]; [done|].
  simpl in Hin, Ht. by rewrite (Hafter _ Hin) in Ht.
Qed.

(** X9: the output cell keeps the roster: the exported frame has one row
    per student and, outside the column assigned_project, every cell reads
    as it did after the data preparation. *)
Theorem write_output_keeps_columns (df : DataFrame) (s : State) (sol : Var → option Q) :
  build_model df = Ok s →
  ∃ out, write_output s sol = Ok out
    ∧ length out = number_students s
    ∧ ∀ i col, col ≠ "assigned_project" →
        loc_get out i col = loc_get (students s) i col.
Proof.
  intros Hb. exists (extracted s sol).
  split; [by apply (write_output_extracted df)|]. unfold extracted. split.
  - rewrite length_imap. by apply (build_model_length df).
  - intros i col Hcol. unfold loc_get. rewrite list_lookup_imap.
    destruct (students s !! i) as [r|]; simpl; [|done].
    unfold getitem. by rewrite lookup_insert_ne.
Qed.

(** *** The gender column and the model *)

Lemma prepared_same_outside_gender (df1 df2 df1' df2' : DataFrame) (n1 n2 : nat) :
  data_preparation df1 = Ok (df1', n1) → data_preparation df2 = Ok (df2', n2) →
  Forall2 (λ r1 r2 : Row, ∀ col, col ≠ "gender" → r1 !! col = r2 !! col) df1 df2 →
  n1 = n2
  ∧ ∀ i col, col ≠ "gender" → col ≠ "is_male" →
      loc_get df1' i col = loc_get df2' i col.
Proof.
  intros H1 H2 Hsame.
  destruct (data_preparation_rows _ _ _ H1) as [-> Hrows1].
  destruct (data_preparation_rows _ _ _ H2) as [-> Hrows2].
  pose proof (Forall2_length _ _ _ Hrows1) as Hl1.
  pose proof (Forall2_length _ _ _ Hrows2) as Hl2.
  pose proof (Forall2_length _ _ _ Hsame) as Hl.
  split; [congruence|]. intros i col Hg Hm. unfold loc_get.
  destruct (df1 !! i) as [r1|] eqn:Hr1.
  - destruct (Forall2_lookup_l _ _ _ _ _ Hsame Hr1) as (r2 & Hr2 & Hcols).
    destruct (Forall2_lookup_l _ _ _ _ _ Hrows1 Hr1)
      as (r1' & -> & ds1 & pm1 & g1 & b_ds1 & b_pm1 & Hds1 & Hb1 & Hpm1 & Hc1 & _ & ->).
    destruct (Forall2_lookup_l _ _ _ _ _ Hrows2 Hr2)
      as (r2' & -> & ds2 & pm2 & g2 & b_ds2 & b_pm2 & Hds2 & Hb2 & Hpm2 & Hc2 & _ & ->).
    rewrite (Hcols "ds_skill") in Hds1 by done.
    rewrite (Hcols "pm_skill") in Hpm1 by done.
    assert (b_ds1 = b_ds2) as -> by congruence.
    assert (b_pm1 = b_pm2) as -> by congruence.
    unfold getitem, classify_row, set_flag.
    rewrite !(lookup_insert_ne _ "is_male") by done.
    rewrite !lookup_insert. repeat case_decide; try done.
    by rewrite (Hcols col).
  - apply lookup_ge_None in Hr1.
    rewrite (proj2 (lookup_ge_None df1' i)) by lia.
    by rewrite (proj2 (lookup_ge_None df2' i)) by lia.
Qed.

Lemma declare_ignores_students (df df' : DataFrame) (n : nat) (m0 : Model) :
  ∃ x g m',
    declare_decision_variables df n m0 = mkState df n x g m'
    ∧ declare_decision_variables df' n m0 = mkState df' n x g m'.
Proof.
  unfold declare_decision_variables.
  destruct (declare_x (seq 0 n) m0 ∅) as [m1 x1].
  destruct (declare_gender_diversity PROJECTS m1 ∅) as [m2 gd].
  by exists x1, gd, m2.
Qed.

Lemma list_bind_ext {A B} (f g : A → list B) (l : list A) :
  (∀ a, a ∈ l → f a = g a) → l ≫= f = l ≫= g.
Proof.
  induction l as [|a l IH]; intros Hfg; [done|].
  rewrite !bind_cons, (Hfg a), IH; [done| |by left].
  intros a' Ha'. apply Hfg. by right.
Qed.

Lemma num_at_eq (s1 s2 : State) (i : nat) (col : string) :
  loc_get (students s1) i col = loc_get (students s2) i col →
  num_at s1 i col = num_at s2 i col.
Proof. intros H. unfold num_at. by rewrite H. Qed.

(** X10: the gender column has no influence on the model: two rosters that
    agree on every column but gender, with no project named gender or
    is_male, give the same variables, constraints and objective. *)
Theorem model_ignores_gender (df1 df2 : DataFrame) (s1 s2 : State) :
  build_model df1 = Ok s1 → build_model df2 = Ok s2 →
  Forall2 (λ r1 r2 : Row, ∀ col, col ≠ "gender" → r1 !! col = r2 !! col) df1 df2 →
  ("gender" ∉ PROJECTS) → ("is_male" ∉ PROJECTS) →
  m s1 = m s2 ∧ x s1 = x s2 ∧ gender_diversity s1 = gender_diversity s2.
Proof.
  unfold build_model. intros H1 H2 Hsame Hng Hnm.
  apply bind_Ok in H1 as ([df1' n1] & Hprep1 & H1).
  apply bind_Ok in H1 as (ma1 & Hstrict1 & H1).
  apply bind_Ok in H1 as (mb1 & Hobj1 & H1). injection H1 as <-.
  apply bind_Ok in H2 as ([df2' n2] & Hprep2 & H2).
  apply bind_Ok in H2 as (ma2 & Hstrict2 & H2).
  apply bind_Ok in H2 as (mb2 & Hobj2 & H2). injection H2 as <-.
  destruct (prepared_same_outside_gender _ _ _ _ _ _ Hprep1 Hprep2 Hsame)
    as [<- Hcells].
  destruct (declare_ignores_students df1' df2' n1 new_model) as (x0 & g0 & m0 & E1 & E2).
  rewrite E1 in Hstrict1, Hobj1 |- *. rewrite E2 in Hstrict2, Hobj2 |- *.
  set (t1 := mkState df1' n1 x0 g0 m0) in *.
  set (t2 := mkState df2' n1 x0 g0 m0) in *.
  apply impose_strict_requirements_spec in Hstrict1 as (Hv1 & _ & Hc1).
  apply impose_strict_requirements_spec in Hstrict2 as (Hv2 & _ & Hc2).
  apply impose_objective_function_spec in Hobj1 as (Hvb1 & Hcb1 & Ho1).
  apply impose_objective_function_spec in Hobj2 as (Hvb2 & Hcb2 & Ho2).
  simpl. split; [|done].
  assert (∀ i col p, col ≠ "gender" → col ≠ "is_male" →
            scaled t1 i col p = scaled t2 i col p) as Hnum.
  { intros i col p ? ?. unfold scaled.
    rewrite (num_at_eq t1 t2 i col) by (by apply Hcells).
    change (students t1) with df1'. change (students t2) with df2'.
    by rewrite Hcells. }
  assert (∀ p, p ∈ PROJECTS → p ≠ "gender" ∧ p ≠ "is_male") as Hproj.
  { intros p Hp. split; intros ->; [by apply Hng|by apply Hnm]. }
  assert (∀ col p, col ≠ "gender" → col ≠ "is_male" →
            skilled_expr col t1 p = skilled_expr col t2 p) as Hsk.
  { intros col p ? ?. unfold skilled_expr. f_equal.
    apply list_fmap_ext. intros k i _. by rewrite Hnum. }
  assert (constrs mb1 = constrs mb2) as Hcs.
  { rewrite Hcb1, Hcb2, Hc1, Hc2. simpl. do 2 f_equal.
    apply list_bind_ext. intros p _.
    unfold project_constrs, skilled_constr. by rewrite !Hsk. }
  assert (objective mb1 = objective mb2) as Hos.
  { rewrite Ho1, Ho2. f_equal. unfold priority_expr. f_equal.
    apply list_fmap_ext. intros k [i p] Hk. simpl.
    apply list_elem_of_lookup_2, list_elem_of_In, in_prod_iff in Hk as [_ Hp].
    apply list_elem_of_In, Hproj in Hp as [? ?]. by rewrite Hnum. }
  assert (vars mb1 = vars mb2) as Hvs by (rewrite Hvb1, Hvb2, Hv1, Hv2; done).
  clear -Hvs Hcs Hos. destruct mb1, mb2. simpl in Hvs, Hcs, Hos. by subst.
Qed.

(** *** The priority term of a feasible solution *)




(** *** Running the data preparation again; a project listed twice *)

Lemma classify_row_idem (b_ds b_pm b_male : bool) (r : Row) :
  classify_row b_ds b_pm b_male (classify_row b_ds b_pm b_male r)
  = classify_row b_ds b_pm b_male r.
Proof.
  apply map_eq. intros k. unfold classify_row, set_flag.
  rewrite !lookup_insert. by repeat case_decide.
Qed.

(** X12: the data preparation is idempotent: run on a roster it has already
    prepared, it raises nothing and returns that roster unchanged. *)
Theorem data_preparation_idempotent (students students' : DataFrame) (n : nat) :
  data_preparation students = Ok (students', n) →
  data_preparation students' = Ok (students', n).
Proof.
  intros Hrun. destruct (data_preparation_rows _ _ _ Hrun) as [-> Hrows].
  assert (Forall readable_row students') as Hread.
  { apply Forall_forall. intros r' [i Hi]%list_elem_of_lookup.
    destruct (Forall2_lookup_r _ _ _ _ _ Hrows Hi)
      as (r & _ & ds & pm & g & b_ds & b_pm & Hds & Hbds & Hpm & Hbpm & Hg & ->).
    exists ds, pm, g. rewrite !classify_row_lookup_other by done.
    refine (conj Hds (conj Hpm (conj Hg (conj _ _)))); intros str ->; discriminate. }
  destruct (data_preparation_total _ Hread) as [students'' Hrun'].
  rewrite Hrun'. do 2 f_equal.
  destruct (data_preparation_rows _ _ _ Hrun') as [_ Hrows'].
  symmetry. apply list_eq_Forall2, Forall2_same_length_lookup.
  split; [by eapply Forall2_length|]. intros i r' r'' Hr' Hr''.
  destruct (Forall2_lookup_r _ _ _ _ _ Hrows Hr')
    as (r & _ & ds & pm & g & b_ds & b_pm & Hds & Hbds & Hpm & Hbpm & Hg & ->).
  destruct (Forall2_lookup_l _ _ _ _ _ Hrows' Hr')
    as (r2 & Hr2 & ds' & pm' & g' & b_ds' & b_pm' & Hds' & Hbds' & Hpm' & Hbpm' & Hg' & ->).
  rewrite Hr'' in Hr2. injection Hr2 as ->.
  rewrite classify_row_lookup_other in Hds', Hpm', Hg' by done.
  assert (ds' = ds) as -> by congruence.
  assert (pm' = pm) as -> by congruence.
  assert (g' = g) as -> by congruence.
  assert (b_ds' = b_ds) as -> by congruence.
  assert (b_pm' = b_pm) as -> by congruence.
  symmetry. apply classify_row_idem.
Qed.

Lemma Qsum_ge_elem {A} (f : A → Q) (l : list A) (a : A) :
  (∀ a', a' ∈ l → (0 <= f a')%Q) → a ∈ l → (f a <= Qsum (f <$> l))%Q.
Proof.
  induction l as [|b l IH]; intros Hnn Ha; [by apply elem_of_nil in Ha|].
  rewrite fmap_cons, Qsum_cons.
  assert (0 <= f b)%Q by (apply Hnn; by left).
  assert (0 <= Qsum (f <$> l))%Q
    by (apply Qsum_nonneg; intros a' Ha'; apply Hnn; by right).
  apply elem_of_cons in Ha as [->|Ha]; [lra|].
  assert (f a <= Qsum (f <$> l))%Q
    by (apply IH; [intros a' Ha'; apply Hnn; by right|done]).
  lra.
Qed.

(** X13: a project listed twice in PROJECTS can get no student, so that
    with MIN_TEAM_SIZE at least 1 the built model has no feasible solution. *)
Theorem duplicate_project_infeasible (df : DataFrame) (s : State) (v : Var → Q)
    (before after : list string) (p : string) :
  build_model df = Ok s →
  PROJECTS = before ++ p :: after → p ∈ after →
  (1 ≤ MIN_TEAM_SIZE)%Z →
  ¬ feasible (m s) v.
Proof.
  intros Hb Hsplit Hdup Hmin Hf.
  assert (p ∈ PROJECTS) as Hp.
  { rewrite Hsplit. apply elem_of_app. right. by left. }
  assert (∀ i p', i < number_students s → p' ∈ PROJECTS → (0 <= v (x_at s i p'))%Q)
    as Hnn.
  { intros i p' Hi Hp'. destruct (x_values_binary df s v i p' Hb Hf Hi Hp'); lra. }
  assert (∀ i, i ∈ students_range s → (v (x_at s i p) == 0)%Q) as Hzero.
  { intros i Hi%elem_of_students_range.
    destruct (x_values_binary df s v i p Hb Hf Hi Hp) as [H0|H1]; [done|].
    exfalso. pose proof (feasible_total_assignment df s v i Hb Hf Hi) as Hsum.
    assert (∀ p', p' ∈ before ∨ p' ∈ after → (0 <= v (x_at s i p'))%Q) as Hnn'.
    { intros p' Hp'. apply Hnn; [done|]. rewrite Hsplit.
      apply elem_of_app. destruct Hp' as [?|?]; [by left|right; by right]. }
    unfold projects_of_student in Hsum.
    rewrite Hsplit, fmap_app, Qsum_app, fmap_cons, Qsum_cons in Hsum.
    assert (0 <= Qsum ((λ project, v (x_at s i project)) <$> before))%Q
      by (apply Qsum_nonneg; intros p' Hp'; apply Hnn'; by left).
    assert (v (x_at s i p) <= Qsum ((λ project, v (x_at s i project)) <$> after))%Q
      by (apply (Qsum_ge_elem (λ project, v (x_at s i project)));
          [intros p' Hp'; apply Hnn'; by right|done]).
    lra. }
  destruct (feasible_project_requirements df s v p Hb Hf Hp) as (Hsize & _).
  unfold team_size in Hsize.
  rewrite (Qsum_ext _ (λ _, 0%Q)), Qsum_zero in Hsize by done.
  change 0%Q with (inject_Z 0) in Hsize. rewrite <- Zle_Qle in Hsize. lia.
Qed.

(** *** NaN coefficients *)

Lemma nans_xsum_iff (es : list LinExpr) (a : Var) :
  a ∈ nans (xsum es) ↔ ∃ e, e ∈ es ∧ a ∈ nans e.
Proof.
  split; [|intros (e & He & Ha); by apply (nans_xsum_elem es e)].
  unfold xsum.
  assert (∀ acc, a ∈ nans (foldl le_add acc es) →
                 a ∈ nans acc ∨ ∃ e, e ∈ es ∧ a ∈ nans e) as Hgen.
  { induction es as [|e' es IH]; intros acc Ha; cbn [foldl] in Ha; [by left|].
    apply IH in Ha as [Ha|(e & He & Ha)].
    - simpl in Ha. apply elem_of_app in Ha as [Ha|Ha]; [by left|].
      right. exists e'. split; [by left|done].
    - right. exists e. split; [by right|done]. }
  intros Ha. apply Hgen in Ha as [Ha|Ha]; [by apply elem_of_nil in Ha|done].
Qed.

Lemma nans_le_cmp (sn : Sense) (a b : LinExpr) :
  nans (le_cmp sn a b) = nans a ++ nans b.
Proof. reflexivity. Qed.

Lemma nans_scaled (s : State) (i : nat) (col p : string) (a : Var) :
  a ∈ nans (scaled s i col p) ↔ loc_get (students s) i col = Ok NaN ∧ a = x_at s i p.
Proof.
  unfold scaled. destruct (loc_get (students s) i col) as [[q|?|]|?]; simpl; split;
    try (intros H; by apply elem_of_nil in H); try (by intros [[=] _]).
  - by intros ->%list_elem_of_singleton.
  - intros [_ ->]. by apply list_elem_of_singleton.
Qed.

(** X14: NaN enters the built model through the ranks only: no constraint
    has a NaN coefficient, and the variables with a NaN coefficient in the
    objective are those of the pairs of a student and a project whose rank
    is missing. *)
Theorem nan_only_for_missing_ranks (df : DataFrame) (s : State) :
  build_model df = Ok s →
  (∀ c, c ∈ constrs (m s) → nans c = [])
  ∧ ∀ a, a ∈ nans (objective (m s)) ↔
        ∃ i p, i < number_students s ∧ p ∈ PROJECTS
          ∧ loc_get (students s) i p = Ok NaN ∧ a = x_at s i p.
Proof.
  intros Hb. destruct (build_model_spec _ _ Hb) as (_ & _ & Hcs & Hobj). split.
  - intros c Hc. apply elem_of_nil_inv. intros a Ha. rewrite Hcs in Hc.
    assert (∀ p, a ∉ nans (team_expr s p)) as Hteam.
    { intros p (e & He & Hin)%nans_xsum_iff.
      apply list_elem_of_fmap in He as (i & -> & _). by apply elem_of_nil in Hin. }
    assert (∀ col p, col ∈ flag_columns → a ∉ nans (skilled_expr col s p)) as Hskilled.
    { intros col p Hcol (e & He & Hin)%nans_xsum_iff.
      apply list_elem_of_fmap in He as (i & -> & Hi%elem_of_students_range).
      apply nans_scaled in Hin as [Hnan _].
      destruct (build_model_numeric df s i Hb Hi col Hcol) as (q & Hq & _).
      congruence. }
    apply elem_of_app in Hc as [Hc|Hc].
    + apply list_elem_of_fmap in Hc as (i & -> & _).
      unfold total_assignment_constr in Ha. rewrite nans_le_cmp in Ha.
      apply elem_of_app in Ha as [(e & He & Hin)%nans_xsum_iff|Ha];
        [|by apply elem_of_nil in Ha].
      apply list_elem_of_fmap in He as (p & -> & _). by apply elem_of_nil in Hin.
    + apply list_elem_of_bind in Hc as (p & Hc & _). unfold project_constrs in Hc.
      repeat (apply elem_of_cons in Hc as [->|Hc]);
        [..|by apply elem_of_nil in Hc];
        unfold min_team_size_constr, max_team_size_constr, skilled_constr in Ha;
        rewrite nans_le_cmp in Ha;
        (apply elem_of_app in Ha as [Ha|Ha]; [|by apply elem_of_nil in Ha]).
      * by apply (Hteam p).
      * by apply (Hteam p).
      * apply (Hskilled "data_science_skilled" p); [by left|done].
      * apply (Hskilled "project_management_skilled" p); [right; by left|done].
  - intros a. split.
    + rewrite Hobj. simpl. intros [Ha|Ha]%elem_of_app.
      * unfold priority_expr in Ha. apply nans_xsum_iff in Ha as (e & He & Hin).
        apply list_elem_of_fmap in He as ([i p] & -> & Hip).
        apply list_elem_of_In, in_prod_iff in Hip as [Hi Hp].
        apply list_elem_of_In in Hi, Hp. apply elem_of_students_range in Hi.
        apply nans_scaled in Hin as [Hnan ->]. by exists i, p.
      * unfold diversity_expr in Ha. apply nans_xsum_iff in Ha as (e & He & Hin).
        apply list_elem_of_fmap in He as (p & -> & _). by apply elem_of_nil in Hin.
    + intros (i & p & Hi & Hp & Hnan & ->). by apply (missing_rank_in_objective df).
Qed.

End Notebook.

(** ** The notebook on the sample inputs *)

Abbreviation one_student_state :=
  (get_Ok empty_state (build_model 5 1 4 (5 # 2) ["A"] one_student)).

Abbreviation four_students_state :=
  (get_Ok empty_state (build_model 5 3 4 (5 # 2) ["A"; "B"] four_students)).

(** Replace a closed term by its value. *)
Ltac vm_eval t :=
  let t' := eval vm_compute in t in
  replace t with t' in * by (vm_compute; reflexivity).

Lemma one_student_built :
  build_model 5 1 4 (5 # 2) ["A"] one_student = Ok one_student_state.
Proof. vm_compute. reflexivity. Qed.

Lemma four_students_built :
  build_model 5 3 4 (5 # 2) ["A"; "B"] four_students = Ok four_students_state.
Proof. vm_compute. reflexivity. Qed.

Lemma one_student_readable : Forall readable_row one_student.
Proof.
  repeat constructor; eexists _, _, _;
    (split; [vm_compute; reflexivity|]); (split; [vm_compute; reflexivity|]);
    (split; [vm_compute; reflexivity|]); split; intros s; discriminate.
Defined.

Lemma one_student_well_formed : well_formed ["A"] one_student.
Proof.
  constructor; [|constructor]. split; [exact (Forall_inv one_student_readable)|].
  intros p Hp. apply list_elem_of_singleton in Hp as ->.
  right. eexists. vm_compute. reflexivity.
Defined.

Lemma first_one_feasible : feasible (m one_student_state) first_one.
Proof. apply feasibleb_sound. vm_compute. reflexivity. Qed.

(** With one student and one project, assigning the student and leaving
    the diversity coefficient at 0 is optimal. *)
Lemma first_one_optimal : optimal (m one_student_state) first_one.
Proof.
  split; [apply first_one_feasible|]. split; [vm_compute; reflexivity|]. intros v' Hf'.
  pose proof one_student_built as Hb.
  rewrite !(objective_value 5 1 4 (5 # 2) ["A"] one_student _ _ Hb).
  pose proof (diversity_term_nonneg 5 1 4 (5 # 2) ["A"] one_student _ v' Hb Hf') as Hdiv.
  pose proof (feasible_total_assignment 5 1 4 (5 # 2) ["A"] one_student _ v' 0 Hb Hf'
                ltac:(vm_compute; lia)) as H1.
  vm_eval (priority_term ["A"] one_student_state first_one).
  vm_eval (diversity_term ["A"] one_student_state first_one).
  unfold priority_term, projects_of_student, students_range in *.
  vm_eval (list_prod (seq 0 (number_students one_student_state)) ["A"]).
  unfold Qsum in *. cbn [fmap list_fmap foldr fst snd] in *.
  vm_eval (num_at one_student_state 0 "A").
  vm_eval (x_at one_student_state 0 "A").
  lra.
Qed.

(** Four students cannot fill two teams of at least three. *)
Lemma four_students_infeasible : ∀ v, ¬ feasible (m four_students_state) v.
Proof.
  intros v Hf. pose proof four_students_built as Hb.
  pose proof (feasible_total_assignment 5 3 4 (5 # 2) ["A"; "B"] four_students
                four_students_state v) as H1.
  pose proof (H1 0 Hb Hf ltac:(vm_compute; lia)) as S0.
  pose proof (H1 1 Hb Hf ltac:(vm_compute; lia)) as S1.
  pose proof (H1 2 Hb Hf ltac:(vm_compute; lia)) as S2.
  pose proof (H1 3 Hb Hf ltac:(vm_compute; lia)) as S3.
  pose proof (feasible_min_team_size 5 3 4 (5 # 2) ["A"; "B"] four_students _ v "A"
                Hb Hf ltac:(repeat constructor)) as HA.
  pose proof (feasible_min_team_size 5 3 4 (5 # 2) ["A"; "B"] four_students _ v "B"
                Hb Hf ltac:(repeat constructor)) as HB.
  clear H1.
  unfold projects_of_student, team_size, students_range in *.
  vm_eval (seq 0 (number_students four_students_state)).
  unfold Qsum in *. cbn [fmap list_fmap foldr] in *.
  vm_eval (x_at four_students_state 0 "A"). vm_eval (x_at four_students_state 0 "B").
  vm_eval (x_at four_students_state 1 "A"). vm_eval (x_at four_students_state 1 "B").
  vm_eval (x_at four_students_state 2 "A"). vm_eval (x_at four_students_state 2 "B").
  vm_eval (x_at four_students_state 3 "A"). vm_eval (x_at four_students_state 3 "B").
  change (inject_Z 3) with 3%Q in *.
  lra.
Qed.

(** C1: on the roster of one male student and one project, the model the
    notebook builds holds neither linking constraint of the project; the
    solution that assigns the student and leaves the diversity coefficient
    at 0 is optimal, while the team has one male and no female member: the
    coefficient is not the absolute difference of the counts, and the
    solution violates the first linking constraint. *)
Lemma linking_constraints_dropped :
  build_model 5 1 4 (5 # 2) ["A"] one_student = Ok one_student_state
  ∧ (linking_constr_pos one_student_state "A" ∉ constrs (m one_student_state))
  ∧ (linking_constr_neg one_student_state "A" ∉ constrs (m one_student_state))
  ∧ optimal (m one_student_state) first_one
  ∧ (first_one (g_at one_student_state "A") == 0)%Q
  ∧ (male_count one_student_state first_one "A"
     - female_count one_student_state first_one "A" == 1)%Q
  ∧ ¬ holds first_one (linking_constr_pos one_student_state "A").
Proof.
  pose proof one_student_built as Hb.
  destruct (linking_constraints_absent 5 1 4 (5 # 2) ["A"] one_student _ "A" Hb)
    as [Hpos Hneg]; [repeat constructor|].
  assert (first_one (g_at one_student_state "A") == 0)%Q as Hg
    by (vm_compute; reflexivity).
  assert (male_count one_student_state first_one "A"
          - female_count one_student_state first_one "A" == 1)%Q as Hcount
    by (vm_compute; reflexivity).
  refine (conj Hb (conj Hpos (conj Hneg (conj first_one_optimal (conj Hg (conj Hcount _)))))).
  intros Hlink.
  destruct (linking_constraints_meaning one_student_state first_one "A") as [[Hm _] _].
  specialize (Hm Hlink). clear Hlink.
  set (g := first_one (g_at one_student_state "A")) in *.
  set (d := (male_count one_student_state first_one "A"
             - female_count one_student_state first_one "A")%Q) in *.
  clearbody g d. lra.
Qed.

Lemma feasible_assignment_invariant_witness :
  build_model 5 1 4 (5 # 2) ["A"] one_student = Ok one_student_state
  ∧ feasible (m one_student_state) first_one
  ∧ (projects_of_student ["A"] one_student_state first_one 0 == 1)%Q
  ∧ (inject_Z 1 <= team_size one_student_state first_one "A")%Q
  ∧ (team_size one_student_state first_one "A" <= inject_Z 5)%Q
  ∧ (1 <= skilled_count "data_science_skilled" one_student_state first_one "A")%Q
  ∧ (1 <= skilled_count "project_management_skilled" one_student_state first_one "A")%Q.
Proof.
  assert (build_model 5 1 4 (5 # 2) ["A"] one_student = Ok one_student_state) as Hb
    by (vm_compute; reflexivity).
  assert (feasible (m one_student_state) first_one) as Hf
    by (apply feasibleb_sound; vm_compute; reflexivity).
  destruct (feasible_assignment_invariant 5 1 4 (5 # 2) ["A"] one_student
              one_student_state first_one Hb Hf) as [H1 H2].
  destruct (H2 "A") as (_ & _ & Hmin & Hmax & Hds & Hpm); [apply list_elem_of_here|].
  refine (conj Hb (conj Hf (conj (H1 0 _) (conj Hmin (conj Hmax (conj Hds Hpm)))))).
  vm_compute. lia.
Defined.

Lemma objective_is_priority_plus_diversity_witness :
  build_model 5 1 4 (5 # 2) ["A"] one_student = Ok one_student_state
  ∧ well_formed ["A"] one_student
  ∧ same_expr (objective (m one_student_state))
      (mkLinExpr [(num_at one_student_state 0 "A", x_at one_student_state 0 "A");
                  (1%Q, g_at one_student_state "A")] 0 NoSense [])
  ∧ (eval first_one (objective (m one_student_state))
     == priority_term ["A"] one_student_state first_one
        + diversity_term ["A"] one_student_state first_one)%Q.
Proof.
  assert (build_model 5 1 4 (5 # 2) ["A"] one_student = Ok one_student_state) as Hb
    by (vm_compute; reflexivity).
  destruct (objective_is_priority_plus_diversity 5 1 4 (5 # 2) ["A"] one_student
              one_student_state Hb one_student_well_formed) as [Hsame Hval].
  exact (conj Hb (conj one_student_well_formed (conj Hsame (Hval first_one)))).
Defined.

Lemma gender_diversity_unconstrained_witness :
  build_model 5 1 4 (5 # 2) ["A"] one_student = Ok one_student_state
  ∧ optimal (m one_student_state) first_one
  ∧ (first_one (g_at one_student_state "A") == 0)%Q
  ∧ (eval first_one (objective (m one_student_state))
     == priority_term ["A"] one_student_state first_one)%Q.
Proof.
  assert (build_model 5 1 4 (5 # 2) ["A"] one_student = Ok one_student_state) as Hb
    by (vm_compute; reflexivity).
  destruct (gender_diversity_unconstrained 5 1 4 (5 # 2) ["A"] one_student
              one_student_state Hb) as [_ Hopt].
  destruct (Hopt first_one first_one_optimal) as (Hzero & Hval & _).
  exact (conj Hb (conj first_one_optimal (conj (Hzero "A" (list_elem_of_here _ _)) Hval))).
Defined.

Lemma boundary_roster_readable : Forall readable_row boundary_roster.
Proof.
  repeat constructor; eexists _, _, _;
    (split; [vm_compute; reflexivity|]); (split; [vm_compute; reflexivity|]);
    (split; [vm_compute; reflexivity|]); split; intros s; discriminate.
Defined.

Lemma eligibility_flags_witness :
  Forall readable_row boundary_roster
  ∧ ∃ students',
      data_preparation 4 (5 # 2) boundary_roster = Ok (students', 3)
      ∧ loc_get students' 0 "data_science_skilled" = Ok (Num 1)
      ∧ loc_get students' 1 "data_science_skilled" = Ok (Num 0)
      ∧ loc_get students' 0 "project_management_skilled" = Ok (Num 1)
      ∧ loc_get students' 1 "project_management_skilled" = Ok (Num 0)
      ∧ loc_get students' 0 "is_male" = Ok (Num 1)
      ∧ loc_get students' 2 "is_male" = Ok (Num 0).
Proof.
  split; [exact boundary_roster_readable|].
  destruct (eligibility_flags 4 (5 # 2) boundary_roster boundary_roster_readable)
    as (students' & Hrun & _ & _).
  exists students'. split; [exact Hrun|].
  assert (students' = (get_Ok ([], 0) (data_preparation 4 (5 # 2) boundary_roster)).1)
    as -> by (rewrite Hrun; reflexivity).
  repeat split; vm_compute; reflexivity.
Defined.

Lemma roster_missing_score_readable : Forall readable_row roster_missing_score.
Proof.
  repeat constructor; eexists _, _, _;
    (split; [vm_compute; reflexivity|]); (split; [vm_compute; reflexivity|]);
    (split; [vm_compute; reflexivity|]); split; intros s; discriminate.
Defined.

Ltac complete_roster :=
  constructor; [|constructor];
  refine (conj _ (conj _ (conj _ _)));
  [eexists; vm_compute; reflexivity..|];
  intros p Hp; apply list_elem_of_singleton in Hp as ->;
  eexists; vm_compute; reflexivity.

Lemma roster_text_score_complete : Forall (complete_row ["A"]) roster_text_score.
Proof. complete_roster. Defined.

Lemma roster_text_rank_complete : Forall (complete_row ["A"]) roster_text_rank.
Proof. complete_roster. Defined.

Lemma roster_missing_rank_complete : Forall (complete_row ["A"]) roster_missing_rank.
Proof. complete_roster. Defined.

Lemma roster_missing_score_complete : Forall (complete_row ["A"]) roster_missing_score.
Proof. complete_roster. Defined.

Abbreviation missing_rank_state :=
  (get_Ok empty_state (build_model 5 1 4 (5 # 2) ["A"] roster_missing_rank)).

(** The state of the notebook on the roster with a text as rank, after the
    decision variables are declared. *)
Abbreviation text_rank_declared :=
  (declare_decision_variables ["A"]
     (get_Ok ([], 0) (data_preparation 4 (5 # 2) roster_text_rank)).1 1 new_model).

Lemma text_raises_missing_passes_witness :
  Forall (complete_row ["A"]) roster_text_score
  ∧ data_preparation 4 (5 # 2) roster_text_score = Raise TypeError
  ∧ Forall (complete_row ["A"]) roster_text_rank
  ∧ build_model 5 1 4 (5 # 2) ["A"] roster_text_rank = Raise TypeError
  ∧ Forall (complete_row ["A"]) roster_missing_rank
  ∧ ∃ s out,
      build_model 5 1 4 (5 # 2) ["A"] roster_missing_rank = Ok s
      ∧ notebook 5 1 4 (5 # 2) ["A"] (no_solution NO_SOLUTION_FOUND) roster_missing_rank
        = Ok (NO_SOLUTION_FOUND, out)
      ∧ x_at s 0 "A" ∈ nans (objective (m s))
      ∧ Forall (complete_row ["A"]) roster_missing_score
      ∧ ∃ students',
          data_preparation 4 (5 # 2) roster_missing_score = Ok (students', 1)
          ∧ loc_get students' 0 "data_science_skilled" = Ok (Num 0).
Proof.
  destruct (text_raises_missing_passes 5 1 4 (5 # 2) ["A"] roster_missing_score
              (no_solution NO_SOLUTION_FOUND) roster_missing_score_complete) as [_ H0].
  destruct H0 as (students0 & Hrun0 & Hflags0 & _).
  { intros r str Hr. apply list_elem_of_singleton in Hr as ->.
    split; intros H; vm_compute in H; discriminate H. }
  destruct (Hflags0 0 _ eq_refl) as [Hds0 _].
  assert (loc_get students0 0 "data_science_skilled" = Ok (Num 0)) as Hflag0
    by (apply Hds0; vm_compute; reflexivity).
  destruct (text_raises_missing_passes 5 1 4 (5 # 2) ["A"] roster_text_score
              (no_solution NO_SOLUTION_FOUND) roster_text_score_complete) as [H1 _].
  destruct H1 as (Hprep1 & _).
  { eexists _, "good". split; [apply list_elem_of_here|]. left.
    vm_compute. reflexivity. }
  destruct (text_raises_missing_passes 5 1 4 (5 # 2) ["A"] roster_text_rank
              (no_solution NO_SOLUTION_FOUND) roster_text_rank_complete) as [_ H2].
  destruct H2 as (students2 & Hrun2 & _ & Htext & _).
  { intros r str Hr. apply list_elem_of_singleton in Hr as ->.
    split; intros H; vm_compute in H; discriminate H. }
  destruct Htext as (_ & Hb2 & _).
  { exists 0, "A", "first". split; [vm_compute; lia|]. split; [apply list_elem_of_here|].
    assert (students2 = (get_Ok ([], 0) (data_preparation 4 (5 # 2) roster_text_rank)).1)
      as -> by (rewrite Hrun2; reflexivity).
    vm_compute. reflexivity. }
  destruct (text_raises_missing_passes 5 1 4 (5 # 2) ["A"] roster_missing_rank
              (no_solution NO_SOLUTION_FOUND) roster_missing_rank_complete) as [_ H3].
  destruct H3 as (students3 & Hrun3 & _ & _ & Hmiss).
  { intros r str Hr. apply list_elem_of_singleton in Hr as ->.
    split; intros H; vm_compute in H; discriminate H. }
  assert (students3 = (get_Ok ([], 0) (data_preparation 4 (5 # 2) roster_missing_rank)).1)
    as Hs3 by (rewrite Hrun3; reflexivity).
  destruct Hmiss as (s & Hb3 & Hrun & Hnan).
  { intros i p str Hi Hp. assert (i = 0) as -> by (vm_compute in Hi; lia).
    apply list_elem_of_singleton in Hp as ->. rewrite Hs3.
    intros H. vm_compute in H. discriminate H. }
  refine (conj roster_text_score_complete (conj Hprep1
            (conj roster_text_rank_complete (conj Hb2
               (conj roster_missing_rank_complete _))))).
  exists s, (extracted ["A"] s (λ _, None)).
  refine (conj Hb3 (conj Hrun (conj _ (conj roster_missing_score_complete _)))).
  - apply Hnan; [vm_compute; lia|apply list_elem_of_here|].
    rewrite Hs3. vm_compute. reflexivity.
  - exists students0. exact (conj Hrun0 Hflag0).
Defined.

(** C8 fails: a missing score, a missing rank and a text as rank are not
    rejected before the model is constructed.  The student without data
    science score is flagged as not skilled; for the student without rank
    the model is built with NaN as coefficient of the objective and the
    roster is exported; for the student with a text as rank the exception is
    a TypeError, raised after the five constraints are in the model. *)
Lemma missing_values_accepted :
  (loc_get roster_missing_score 0 "ds_skill" = Ok NaN
   ∧ ∃ students',
       data_preparation 4 (5 # 2) roster_missing_score = Ok (students', 1)
       ∧ loc_get students' 0 "data_science_skilled" = Ok (Num 0))
  ∧ (loc_get roster_missing_rank 0 "A" = Ok NaN
     ∧ build_model 5 1 4 (5 # 2) ["A"] roster_missing_rank = Ok missing_rank_state
     ∧ nans (objective (m missing_rank_state)) = [x_at missing_rank_state 0 "A"]
     ∧ ∃ out,
         notebook 5 1 4 (5 # 2) ["A"] (no_solution NO_SOLUTION_FOUND) roster_missing_rank
         = Ok (NO_SOLUTION_FOUND, out))
  ∧ (loc_get roster_text_rank 0 "A" = Ok (Str "first")
     ∧ (∃ m1, impose_strict_requirements 5 1 ["A"] text_rank_declared = Ok m1
          ∧ length (constrs m1) = 5)
     ∧ build_model 5 1 4 (5 # 2) ["A"] roster_text_rank = Raise TypeError).
Proof.
  refine (conj _ (conj _ _)).
  - split; [vm_compute; reflexivity|].
    destruct (data_preparation_total 4 (5 # 2) roster_missing_score
                roster_missing_score_readable) as [students' Hrun].
    exists students'. split; [exact Hrun|].
    assert (students'
            = (get_Ok ([], 0) (data_preparation 4 (5 # 2) roster_missing_score)).1)
      as -> by (rewrite Hrun; reflexivity).
    vm_compute. reflexivity.
  - assert (build_model 5 1 4 (5 # 2) ["A"] roster_missing_rank = Ok missing_rank_state)
      as Hb by (vm_compute; reflexivity).
    refine (conj _ (conj Hb (conj _ _))); [vm_compute; reflexivity..|].
    exists (extracted ["A"] missing_rank_state (λ _, None)).
    exact (notebook_extracted 5 1 4 (5 # 2) ["A"] roster_missing_rank missing_rank_state
             (no_solution NO_SOLUTION_FOUND) Hb).
  - refine (conj _ (conj _ _)); [vm_compute; reflexivity| |vm_compute; reflexivity].
    exists (get_Ok new_model (impose_strict_requirements 5 1 ["A"] text_rank_declared)).
    split; vm_compute; reflexivity.
Qed.

Lemma extraction_compares_exactly_witness :
  build_model 5 1 4 (5 # 2) ["A"] one_student = Ok one_student_state
  ∧ 0 < number_students one_student_state
  ∧ (∃ out r,
       write_output ["A"] one_student_state (λ _, Some (9999997 # 10000000)) = Ok out
       ∧ out !! 0 = Some r
       ∧ r !! "assigned_project" = Some (Str ""))
  ∧ build_model 5 3 4 (5 # 2) ["A"; "B"] four_students = Ok four_students_state
  ∧ 0 < number_students four_students_state
  ∧ ∃ out r,
      write_output ["A"; "B"] four_students_state (λ _, Some 1%Q) = Ok out
      ∧ out !! 0 = Some r
      ∧ r !! "assigned_project" = Some (Str "B").
Proof.
  assert (build_model 5 1 4 (5 # 2) ["A"] one_student = Ok one_student_state) as Hb
    by (vm_compute; reflexivity).
  assert (0 < number_students one_student_state) as Hi by (vm_compute; lia).
  assert (build_model 5 3 4 (5 # 2) ["A"; "B"] four_students = Ok four_students_state)
    as Hb4 by (vm_compute; reflexivity).
  assert (0 < number_students four_students_state) as Hi4 by (vm_compute; lia).
  refine (conj Hb (conj Hi (conj _ (conj Hb4 (conj Hi4 _))))).
  - destruct (extraction_compares_exactly 5 1 4 (5 # 2) ["A"] one_student
                one_student_state (λ _, Some (9999997 # 10000000)) 0 Hb Hi)
      as (out & r & a & Hout & Hr & Ha & Hcases & _).
    exists out, r. refine (conj Hout (conj Hr _)).
    destruct Hcases as [[-> _]|(before & after & _ & (q & Hq & Hq1) & _)]; [exact Ha|].
    injection Hq as <-. vm_compute in Hq1. discriminate.
  - destruct (extraction_compares_exactly 5 3 4 (5 # 2) ["A"; "B"] four_students
                four_students_state (λ _, Some 1%Q) 0 Hb4 Hi4)
      as (out & r & a & Hout & Hr & Ha & Hcases & _).
    exists out, r. refine (conj Hout (conj Hr _)).
    assert (∀ p, ∃ q, (λ _ : Var, Some 1%Q) (x_at four_students_state 0 p) = Some q
                      ∧ (q == 1)%Q) as Hone
      by (intros p; exists 1%Q; split; reflexivity).
    destruct Hcases as [[_ Hnone]|(before & after & Hsplit & _ & Hafter)].
    + exfalso. exact (Hnone "A" (list_elem_of_here _ _) (Hone "A")).
    + destruct before as [|b0 before]; injection Hsplit as Ha0 Hrest.
      * exfalso. apply (Hafter "B"); [|exact (Hone "B")].
        rewrite <- Hrest. apply list_elem_of_here.
      * destruct before as [|b1 before]; injection Hrest as Ha1 Hrest.
        -- rewrite Ha1. exact Ha.
        -- destruct before; discriminate Hrest.
Defined.

(** C5 fails: with one student and one project, a solve that returns the
    value 0.9999997 for the pair leaves the student's assigned project
    empty; the pair is not extracted as assigned. *)
Lemma near_one_not_extracted :
  ∃ out,
    notebook 5 1 4 (5 # 2) ["A"] (all_values (9999997 # 10000000)) one_student
    = Ok (OPTIMAL, out)
    ∧ loc_get out 0 "assigned_project" = Ok (Str "")
    ∧ loc_get out 0 "assigned_project" ≠ Ok (Str "A").
Proof.
  exists (extracted ["A"] one_student_state (λ _, Some (9999997 # 10000000))).
  split.
  { apply (notebook_extracted 5 1 4 (5 # 2) ["A"] one_student one_student_state
             (all_values (9999997 # 10000000)) one_student_built). }
  assert (loc_get (extracted ["A"] one_student_state (λ _, Some (9999997 # 10000000)))
            0 "assigned_project" = Ok (Str "")) as -> by (vm_compute; reflexivity).
  split; [reflexivity|discriminate].
Qed.

Lemma extraction_unchecked_witness :
  build_model 5 1 4 (5 # 2) ["A"] one_student = Ok one_student_state
  ∧ ∃ out,
      notebook 5 1 4 (5 # 2) ["A"] (all_values 0) one_student = Ok (OPTIMAL, out)
      ∧ length out = 1.
Proof.
  assert (build_model 5 1 4 (5 # 2) ["A"] one_student = Ok one_student_state) as Hb
    by (vm_compute; reflexivity).
  split; [exact Hb|].
  destruct (extraction_unchecked 5 1 4 (5 # 2) ["A"] one_student one_student_state
              (all_values 0) Hb) as (status & sol & Hopt & Hrun & Hlen).
  injection Hopt as <- <-.
  eexists. split; [exact Hrun|]. rewrite Hlen. vm_compute. reflexivity.
Defined.

(** C6 fails: with one student and one project, a solve that returns 0 for
    every variable yields a mapping in which the student has no project and
    the project has no member; the notebook raises nothing and exports it. *)
Lemma inconsistent_mapping_exported :
  ∃ out,
    notebook 5 1 4 (5 # 2) ["A"] (all_values 0) one_student = Ok (OPTIMAL, out)
    ∧ loc_get out 0 "assigned_project" = Ok (Str "")
    ∧ ("" ∉ ["A"]).
Proof.
  exists (extracted ["A"] one_student_state (λ _, Some 0%Q)).
  split.
  { apply (notebook_extracted 5 1 4 (5 # 2) ["A"] one_student one_student_state
             (all_values 0) one_student_built). }
  split; [vm_compute; reflexivity|].
  intros Hin. apply list_elem_of_singleton in Hin. discriminate.
Qed.

Lemma no_solution_still_written_witness :
  build_model 5 3 4 (5 # 2) ["A"; "B"] four_students = Ok four_students_state
  ∧ no_solution INFEASIBLE (m four_students_state) = (INFEASIBLE, λ _, None)
  ∧ INFEASIBLE ∈ [INFEASIBLE; UNBOUNDED; ERROR]
  ∧ notebook 5 3 4 (5 # 2) ["A"; "B"] (no_solution INFEASIBLE) four_students
    = Ok (INFEASIBLE,
          setitem_col (students four_students_state) "assigned_project" (Str "")).
Proof.
  assert (build_model 5 3 4 (5 # 2) ["A"; "B"] four_students = Ok four_students_state)
    as Hb by (vm_compute; reflexivity).
  assert (INFEASIBLE ∈ [INFEASIBLE; UNBOUNDED; ERROR]) as Hst
    by apply list_elem_of_here.
  refine (conj Hb (conj eq_refl (conj Hst _))).
  apply (no_solution_still_written 5 3 4 (5 # 2) ["A"; "B"] four_students
           four_students_state (no_solution INFEASIBLE) INFEASIBLE (λ _, None)
           Hb eq_refl Hst).
  intros v. reflexivity.
Defined.

(** C7 fails: with two projects of at least three students and a roster of
    four students the model has no feasible solution; when the solve ends
    INFEASIBLE without values, the notebook still runs the output cell and
    exports the roster, every student with an empty assigned project. *)
Lemma infeasible_run_writes_output :
  (∀ v, ¬ feasible (m four_students_state) v)
  ∧ ∃ out,
      notebook 5 3 4 (5 # 2) ["A"; "B"] (no_solution INFEASIBLE) four_students
      = Ok (INFEASIBLE, out)
      ∧ length out = 4
      ∧ ∀ i, i < 4 → loc_get out i "assigned_project" = Ok (Str "").
Proof.
  split; [exact four_students_infeasible|].
  exists (extracted ["A"; "B"] four_students_state (λ _, None)).
  split.
  { apply (notebook_extracted 5 3 4 (5 # 2) ["A"; "B"] four_students
             four_students_state (no_solution INFEASIBLE) four_students_built). }
  split; [vm_compute; reflexivity|].
  intros i Hi.
  destruct i as [|[|[|[|i]]]]; [vm_compute; reflexivity..|lia].
Qed.

Lemma unassigned_student_keeps_empty_string_witness :
  build_model 5 1 4 (5 # 2) ["A"] one_student = Ok one_student_state
  ∧ ∃ out,
      notebook 5 1 4 (5 # 2) ["A"] (all_values (1 # 2)) one_student = Ok (OPTIMAL, out)
      ∧ loc_get out 0 "assigned_project" = Ok (Str "").
Proof.
  assert (build_model 5 1 4 (5 # 2) ["A"] one_student = Ok one_student_state) as Hb
    by (vm_compute; reflexivity).
  split; [exact Hb|].
  destruct (unassigned_student_keeps_empty_string 5 1 4 (5 # 2) ["A"] one_student
              one_student_state (all_values (1 # 2)) Hb) as (out & _ & Hrun & Hrows).
  exists out. split; [exact Hrun|].
  apply Hrows; [vm_compute; lia|].
  intros p Hp. reflexivity.
Defined.

(** ** Sample runs for the further properties *)

Lemma data_preparation_keeps_columns_witness :
  ∃ students',
    data_preparation 4 (5 # 2) boundary_roster = Ok (students', 3)
    ∧ length students' = 3
    ∧ loc_get students' 2 "gender" = Ok (Str "male").
Proof.
  destruct (data_preparation_total 4 (5 # 2) boundary_roster boundary_roster_readable)
    as [students' Hrun].
  destruct (data_preparation_keeps_columns 4 (5 # 2) boundary_roster students' 3 Hrun)
    as (_ & Hlen & Hcols).
  exists students'. refine (conj Hrun (conj Hlen _)).
  rewrite Hcols; [vm_compute; reflexivity|].
  intros Hin. repeat (apply elem_of_cons in Hin as [Heq|Hin]; [discriminate|]).
  by apply elem_of_nil in Hin.
Defined.

Lemma notebook_runs_witness :
  well_formed ["A"] one_student
  ∧ ∃ s, build_model 5 1 4 (5 # 2) ["A"] one_student = Ok s
      ∧ number_students s = 1
      ∧ ∃ out, notebook 5 1 4 (5 # 2) ["A"] (all_values 1) one_student
               = Ok (OPTIMAL, out).
Proof.
  split; [exact one_student_well_formed|].
  destruct (notebook_runs 5 1 4 (5 # 2) ["A"] one_student (all_values 1)
              one_student_well_formed) as (s & Hb & Hn & Hrun).
  exists s. refine (conj Hb (conj Hn _)). eexists. exact Hrun.
Defined.

Lemma missing_project_column_raises_witness :
  Forall readable_row one_student
  ∧ (∃ r, r ∈ one_student ∧ r !! "B" = None)
  ∧ notebook 5 1 4 (5 # 2) ["A"; "B"] (all_values 1) one_student = Raise KeyError.
Proof.
  split; [exact one_student_readable|].
  assert (student_row (Num 4) (Num 3) "Male" [("A", 1%Q)] !! "B" = None) as Hnone
    by (vm_compute; reflexivity).
  split; [eexists; split; [apply list_elem_of_here|exact Hnone]|].
  apply (missing_project_column_raises 5 1 4 (5 # 2) ["A"; "B"] one_student
           (all_values 1) one_student_readable).
  - intros r p Hr Hp. apply list_elem_of_singleton in Hr as ->.
    apply elem_of_cons in Hp as [->|Hp].
    + right. left. eexists. vm_compute. reflexivity.
    + apply list_elem_of_singleton in Hp as ->. right. right. exact Hnone.
  - eexists _, "B". split; [apply list_elem_of_here|].
    split; [right; apply list_elem_of_here|]. split; [|exact Hnone].
    intros Hin. repeat (apply elem_of_cons in Hin as [Heq|Hin]; [discriminate|]).
    by apply elem_of_nil in Hin.
Defined.

Lemma feasible_one_project_per_student_witness :
  build_model 5 1 4 (5 # 2) ["A"] one_student = Ok one_student_state
  ∧ feasible (m one_student_state) first_one
  ∧ ∃ p, p ∈ ["A"] ∧ (first_one (x_at one_student_state 0 p) == 1)%Q.
Proof.
  assert (build_model 5 1 4 (5 # 2) ["A"] one_student = Ok one_student_state) as Hb
    by (vm_compute; reflexivity).
  assert (feasible (m one_student_state) first_one) as Hf
    by (apply feasibleb_sound; vm_compute; reflexivity).
  refine (conj Hb (conj Hf _)).
  destruct (feasible_one_project_per_student 5 1 4 (5 # 2) ["A"] one_student
              one_student_state first_one Hb Hf) as [_ Hone].
  destruct (Hone 0) as (p & Hp & H1 & _); [vm_compute; lia|].
  exists p. exact (conj Hp H1).
Defined.

Lemma model_size_witness :
  build_model 5 3 4 (5 # 2) ["A"; "B"] four_students = Ok four_students_state
  ∧ length (vars (m four_students_state)) = 10
  ∧ length (constrs (m four_students_state)) = 12.
Proof.
  assert (build_model 5 3 4 (5 # 2) ["A"; "B"] four_students = Ok four_students_state)
    as Hb by (vm_compute; reflexivity).
  destruct (model_size 5 3 4 (5 # 2) ["A"; "B"] four_students four_students_state Hb)
    as (Hv & Hc & _).
  refine (conj Hb (conj _ _)).
  - rewrite Hv. vm_compute. reflexivity.
  - rewrite Hc. vm_compute. reflexivity.
Defined.

Lemma feasible_needs_enough_students_witness :
  build_model 5 1 4 (5 # 2) ["A"] one_student = Ok one_student_state
  ∧ feasible (m one_student_state) first_one
  ∧ (1 * Z.of_nat (length ["A"]) ≤ Z.of_nat (number_students one_student_state))%Z
  ∧ length ["A"] ≤ length (flagged "data_science_skilled" one_student_state).
Proof.
  assert (build_model 5 1 4 (5 # 2) ["A"] one_student = Ok one_student_state) as Hb
    by (vm_compute; reflexivity).
  assert (feasible (m one_student_state) first_one) as Hf
    by (apply feasibleb_sound; vm_compute; reflexivity).
  destruct (feasible_needs_enough_students 5 1 4 (5 # 2) ["A"] one_student
              one_student_state first_one Hb Hf) as (Hmin & _ & Hds & _).
  exact (conj Hb (conj Hf (conj Hmin Hds))).
Defined.

Lemma exact_solution_gives_valid_teams_witness :
  build_model 5 1 4 (5 # 2) ["A"] one_student = Ok one_student_state
  ∧ feasible (m one_student_state) first_one
  ∧ ∃ out,
      write_output ["A"] one_student_state (exact first_one) = Ok out
      ∧ (∃ p, p ∈ ["A"] ∧ loc_get out 0 "assigned_project" = Ok (Str p))
      ∧ (1 ≤ Z.of_nat (length (team_of ["A"] one_student_state (exact first_one) "A"))
         ≤ 5)%Z.
Proof.
  assert (build_model 5 1 4 (5 # 2) ["A"] one_student = Ok one_student_state) as Hb
    by (vm_compute; reflexivity).
  assert (feasible (m one_student_state) first_one) as Hf
    by (apply feasibleb_sound; vm_compute; reflexivity).
  refine (conj Hb (conj Hf _)).
  destruct (exact_solution_gives_valid_teams 5 1 4 (5 # 2) ["A"] one_student
              one_student_state first_one Hb Hf) as (out & Hout & Hrows & Hteams).
  exists out. split; [exact Hout|].
  destruct (Hrows 0) as (p & Hp & Hcell & _); [vm_compute; lia|].
  destruct (Hteams "A") as (Hsize & _); [apply list_elem_of_here|].
  split; [exists p; exact (conj Hp Hcell)|exact Hsize].
Defined.

Lemma last_one_is_written_witness :
  build_model 5 3 4 (5 # 2) ["A"; "B"] four_students = Ok four_students_state
  ∧ 0 < number_students four_students_state
  ∧ ∃ out,
      write_output ["A"; "B"] four_students_state (λ _, Some 1%Q) = Ok out
      ∧ loc_get out 0 "assigned_project" = Ok (Str "B").
Proof.
  assert (build_model 5 3 4 (5 # 2) ["A"; "B"] four_students = Ok four_students_state)
    as Hb by (vm_compute; reflexivity).
  assert (0 < number_students four_students_state) as Hi by (vm_compute; lia).
  refine (conj Hb (conj Hi _)).
  apply (last_one_is_written 5 3 4 (5 # 2) ["A"; "B"] four_students
           four_students_state (λ _, Some 1%Q) 0 ["A"] [] "B" Hb Hi eq_refl eq_refl).
  intros p' Hp'. exfalso. exact (proj1 (elem_of_nil p') Hp').
Defined.

Lemma write_output_keeps_columns_witness :
  build_model 5 1 4 (5 # 2) ["A"] one_student = Ok one_student_state
  ∧ ∃ out,
      write_output ["A"] one_student_state (λ _, None) = Ok out
      ∧ length out = 1
      ∧ loc_get out 0 "gender" = Ok (Str "Male").
Proof.
  assert (build_model 5 1 4 (5 # 2) ["A"] one_student = Ok one_student_state) as Hb
    by (vm_compute; reflexivity).
  split; [exact Hb|].
  destruct (write_output_keeps_columns 5 1 4 (5 # 2) ["A"] one_student
              one_student_state (λ _, None) Hb) as (out & Hout & Hlen & Hcols).
  exists out. split; [exact Hout|]. split; [rewrite Hlen; vm_compute; reflexivity|].
  rewrite Hcols by discriminate. vm_compute. reflexivity.
Defined.

Abbreviation one_student_female_state :=
  (get_Ok empty_state (build_model 5 1 4 (5 # 2) ["A"] one_student_female)).

Lemma model_ignores_gender_witness :
  build_model 5 1 4 (5 # 2) ["A"] one_student = Ok one_student_state
  ∧ build_model 5 1 4 (5 # 2) ["A"] one_student_female = Ok one_student_female_state
  ∧ loc_get one_student 0 "gender" ≠ loc_get one_student_female 0 "gender"
  ∧ m one_student_state = m one_student_female_state.
Proof.
  assert (build_model 5 1 4 (5 # 2) ["A"] one_student = Ok one_student_state) as Hb1
    by (vm_compute; reflexivity).
  assert (build_model 5 1 4 (5 # 2) ["A"] one_student_female
          = Ok one_student_female_state) as Hb2 by (vm_compute; reflexivity).
  refine (conj Hb1 (conj Hb2 (conj _ _))).
  { vm_compute. discriminate. }
  apply (model_ignores_gender 5 1 4 (5 # 2) ["A"] one_student one_student_female
           one_student_state one_student_female_state Hb1 Hb2).
  - repeat constructor. intros col Hcol. unfold student_row.
    rewrite !lookup_insert. repeat case_decide; congruence.
  - intros Hin. apply list_elem_of_singleton in Hin. discriminate.
  - intros Hin. apply list_elem_of_singleton in Hin. discriminate.
Defined.


Lemma data_preparation_idempotent_witness :
  ∃ students',
    data_preparation 4 (5 # 2) boundary_roster = Ok (students', 3)
    ∧ data_preparation 4 (5 # 2) students' = Ok (students', 3).
Proof.
  destruct (data_preparation_total 4 (5 # 2) boundary_roster boundary_roster_readable)
    as [students' Hrun].
  exists students'. split; [exact Hrun|].
  exact (data_preparation_idempotent 4 (5 # 2) boundary_roster students' 3 Hrun).
Defined.

Abbreviation twice_listed_state :=
  (get_Ok empty_state (build_model 5 1 4 (5 # 2) ["A"; "A"] one_student)).

Lemma duplicate_project_infeasible_witness :
  build_model 5 1 4 (5 # 2) ["A"; "A"] one_student = Ok twice_listed_state
  ∧ ["A"; "A"] = [] ++ "A" :: ["A"]
  ∧ "A" ∈ ["A"]
  ∧ (1 ≤ 1)%Z
  ∧ ¬ feasible (m twice_listed_state) first_one.
Proof.
  assert (build_model 5 1 4 (5 # 2) ["A"; "A"] one_student = Ok twice_listed_state)
    as Hb by (vm_compute; reflexivity).
  assert ("A" ∈ ["A"]) as Hin by apply list_elem_of_here.
  assert (1 ≤ 1)%Z as Hmin by lia.
  refine (conj Hb (conj eq_refl (conj Hin (conj Hmin _)))).
  exact (duplicate_project_infeasible 5 1 4 (5 # 2) ["A"; "A"] one_student
           twice_listed_state first_one [] ["A"] "A" Hb eq_refl Hin Hmin).
Defined.

Lemma nan_only_for_missing_ranks_witness :
  build_model 5 1 4 (5 # 2) ["A"] roster_missing_rank = Ok missing_rank_state
  ∧ length (constrs (m missing_rank_state)) = 5
  ∧ (∀ c, c ∈ constrs (m missing_rank_state) → nans c = [])
  ∧ x_at missing_rank_state 0 "A" ∈ nans (objective (m missing_rank_state)).
Proof.
  assert (build_model 5 1 4 (5 # 2) ["A"] roster_missing_rank = Ok missing_rank_state)
    as Hb by (vm_compute; reflexivity).
  destruct (nan_only_for_missing_ranks 5 1 4 (5 # 2) ["A"] roster_missing_rank
              missing_rank_state Hb) as [Hcs Hobj].
  refine (conj Hb (conj _ (conj Hcs _))); [vm_compute; reflexivity|].
  apply Hobj. exists 0, "A".
  refine (conj _ (conj (list_elem_of_here _ _) (conj _ eq_refl)));
    [vm_compute; lia|vm_compute; reflexivity].
Defined.
